(** * StudentOrg: role-based access control over committees and tasks

    A shallow embedding of the back end of the StudentOrg application:
    the relational store (prisma/migrations/.../migration.sql), the
    permission middleware (middleware/permissions.ts) and the route
    handlers of routes/tasks.ts, routes/roles.ts, routes/committees.ts and
    routes/organization.ts.

    The store is a record of tables, each table a list of rows in
    insertion order.  A handler is a function from the store and the
    request to the new store and the HTTP response.  Columns that no
    handler reads and that the ORM fills in by itself (created_at,
    updated_at, and the id of the join rows) are left out of the rows.

    Two things are left to the database and are parameters of the model:
    the order in which a query without [orderBy] returns its rows
    ([RowOrder]), and the conversions of the libraries (zod's format checks
    and the [Date] constructor).  The column [position] is an [Int] of the
    ORM: a write of a position outside the 32-bit range throws
    ([fitsInt]). *)

From Stdlib Require Import List String ZArith Bool Lia Permutation.
Import ListNotations.
Local Open Scope string_scope.

Set Implicit Arguments.

(* ================================================================== *)
(** ** Enumerations (types/enums.ts) *)

Inductive PermissionLevel : Type := NONE | MEMBER | LEADER.

Inductive TaskStatus : Type := TODO | IN_PROGRESS | DONE.

(** The argument of [checkCommitteePermission]: [PermissionLevel | 'ADMIN']. *)
Inductive RequiredLevel : Type :=
| Level (l : PermissionLevel)
| ADMIN.

Definition PermissionLevel_eqb (a b : PermissionLevel) : bool :=
  match a, b with
  | NONE, NONE | MEMBER, MEMBER | LEADER, LEADER => true
  | _, _ => false
  end.

Definition TaskStatus_eqb (a b : TaskStatus) : bool :=
  match a, b with
  | TODO, TODO | IN_PROGRESS, IN_PROGRESS | DONE, DONE => true
  | _, _ => false
  end.

(** The string stored in the [status] column, and zod's
    [z.enum(['TODO', 'IN_PROGRESS', 'DONE'])] on a request body. *)
Definition TaskStatus_to_string (s : TaskStatus) : string :=
  match s with
  | TODO => "TODO"
  | IN_PROGRESS => "IN_PROGRESS"
  | DONE => "DONE"
  end.

Definition parseTaskStatus (s : string) : option TaskStatus :=
  if s =? "TODO" then Some TODO
  else if s =? "IN_PROGRESS" then Some IN_PROGRESS
  else if s =? "DONE" then Some DONE
  else None.

(** zod's [z.enum(['NONE', 'MEMBER', 'LEADER'])]. *)
Definition parsePermissionLevel (s : string) : option PermissionLevel :=
  if s =? "NONE" then Some NONE
  else if s =? "MEMBER" then Some MEMBER
  else if s =? "LEADER" then Some LEADER
  else None.

(** The order NONE < MEMBER < LEADER of the specification. *)
Definition level_rank (l : PermissionLevel) : nat :=
  match l with NONE => 0 | MEMBER => 1 | LEADER => 2 end.

Definition level_max (a b : PermissionLevel) : PermissionLevel :=
  if Nat.ltb (level_rank a) (level_rank b) then b else a.

Definition level_le (a b : PermissionLevel) : Prop :=
  level_rank a <= level_rank b.

(* ================================================================== *)
(** ** The relational store (migration.sql) *)

Record User : Type := mkUser {
  user_id : string;
  user_email : string;
  user_name : string;
  user_isActive : bool
}.

Record Organization : Type := mkOrganization {
  org_id : string;
  org_name : string;
  org_description : option string;
  org_logoUrl : option string;
  org_adminUserId : string
}.

Record Role : Type := mkRole {
  role_id : string;
  role_name : string;
  role_organizationId : string
}.

Record UserRole : Type := mkUserRole {
  ur_userId : string;
  ur_roleId : string
}.

Record Committee : Type := mkCommittee {
  committee_id : string;
  committee_name : string;
  committee_organizationId : string
}.

Record RoleCommitteePermission : Type := mkPermission {
  rcp_roleId : string;
  rcp_committeeId : string;
  rcp_permissionLevel : PermissionLevel
}.

Record Task : Type := mkTask {
  task_id : string;
  task_title : string;
  task_description : option string;
  task_status : TaskStatus;
  task_committeeId : string;
  task_createdById : string;
  task_dueDate : option string;
  task_position : Z
}.

Record TaskAssignment : Type := mkTaskAssignment {
  ta_taskId : string;
  ta_userId : string
}.

Record Comment : Type := mkComment {
  comment_content : string;
  comment_taskId : string;
  comment_userId : string
}.

Record Db : Type := mkDb {
  users : list User;
  organizations : list Organization;
  roles : list Role;
  userRoles : list UserRole;
  committees : list Committee;
  permissions : list RoleCommitteePermission;
  tasks : list Task;
  assignments : list TaskAssignment;
  comments : list Comment
}.

Definition emptyDb : Db := mkDb [] [] [] [] [] [] [] [] [].

(* ================================================================== *)
(** ** HTTP responses *)

(** [res.status(s).json(body)], [res.status(s).json({error: msg})], and the
    answer to a [z.ZodError], [res.status(400).json({error: error.errors})]. *)
Inductive Response (A : Type) : Type :=
| Json (status : nat) (body : A)
| Error (status : nat) (error : string)
| ZodError.

Arguments Error {A} status error.
Arguments ZodError {A}.

Definition status_of {A} (r : Response A) : nat :=
  match r with
  | Json s _ => s
  | Error s _ => s
  | ZodError => 400
  end.

(** The [catch] branch of every handler. *)
Definition internalError {A} : Response A := Error 500 "Internal server error".

(** JavaScript truthiness of an optional string: [undefined] and the empty
    string are falsy. *)
Definition truthy (s : option string) : bool :=
  match s with
  | Some v => negb (v =? "")
  | None => false
  end.

(** [a || b] on optional strings. *)
Definition js_or (a b : option string) : option string :=
  if truthy a then a else b.

(** The value of a truthy optional string. *)
Definition truthy_value (s : option string) : option string :=
  if truthy s then s else None.

Definition isSome {A} (o : option A) : bool :=
  match o with Some _ => true | None => false end.

(* ================================================================== *)
(** ** Queries of the ORM used by the permission checks *)

(** [prisma.organization.findFirst({ where: { adminUserId: userId } })] *)
Definition organization_findFirst_admin (db : Db) (userId : string)
  : option Organization :=
  find (fun o => org_adminUserId o =? userId) (organizations db).

(** [prisma.organization.findFirst({ where: { id, adminUserId: userId } })] *)
Definition organization_findFirst_id_admin (db : Db) (id userId : string)
  : option Organization :=
  find (fun o => (org_id o =? id) && (org_adminUserId o =? userId))
       (organizations db).

(** A row of [userRole.findMany] with
    [include: { role: { include: { permissions: { where: { committeeId } } } } }]. *)
Record UserRoleWithPermissions : Type := mkUserRoleWithPermissions {
  urp_userRole : UserRole;
  urp_permissions : list RoleCommitteePermission
}.

Definition role_permissions_where (db : Db) (roleId committeeId : string)
  : list RoleCommitteePermission :=
  filter (fun p => (rcp_roleId p =? roleId) && (rcp_committeeId p =? committeeId))
         (permissions db).

Definition userRole_findMany (db : Db) (userId committeeId : string)
  : list UserRoleWithPermissions :=
  map (fun ur =>
         mkUserRoleWithPermissions ur
           (role_permissions_where db (ur_roleId ur) committeeId))
      (filter (fun ur => ur_userId ur =? userId) (userRoles db)).

(* ================================================================== *)
(** ** The permission resolver (middleware/permissions.ts) *)

(** The inner loop [for (const permission of userRole.role.permissions)]:
    the value of [highestPermission] when the loop ends.  A LEADER row ends
    the loop ([break]). *)
Fixpoint scanPermissions (perms : list RoleCommitteePermission)
    (highestPermission : PermissionLevel) : PermissionLevel :=
  match perms with
  | [] => highestPermission
  | permission :: rest =>
      if PermissionLevel_eqb (rcp_permissionLevel permission) LEADER then
        LEADER
      else if PermissionLevel_eqb (rcp_permissionLevel permission) MEMBER
              && PermissionLevel_eqb highestPermission NONE then
        scanPermissions rest MEMBER
      else
        scanPermissions rest highestPermission
  end.

(** The outer loop [for (const userRole of userRoles)], left by
    [if (highestPermission === PermissionLevel.LEADER) break]. *)
Fixpoint scanUserRoles (rows : list UserRoleWithPermissions)
    (highestPermission : PermissionLevel) : PermissionLevel :=
  match rows with
  | [] => highestPermission
  | userRole :: rest =>
      let highestPermission' :=
        scanPermissions (urp_permissions userRole) highestPermission in
      if PermissionLevel_eqb highestPermission' LEADER then highestPermission'
      else scanUserRoles rest highestPermission'
  end.

(** [let highestPermission = NONE; for ... ] on the roles of [userId]. *)
Definition highestPermission (db : Db) (userId committeeId : string)
  : PermissionLevel :=
  scanUserRoles (userRole_findMany db userId committeeId) NONE.

(** The same two loops with both [break]s removed: every row is visited. *)
Fixpoint scanPermissions_full (perms : list RoleCommitteePermission)
    (highestPermission : PermissionLevel) : PermissionLevel :=
  match perms with
  | [] => highestPermission
  | permission :: rest =>
      if PermissionLevel_eqb (rcp_permissionLevel permission) LEADER then
        scanPermissions_full rest LEADER
      else if PermissionLevel_eqb (rcp_permissionLevel permission) MEMBER
              && PermissionLevel_eqb highestPermission NONE then
        scanPermissions_full rest MEMBER
      else
        scanPermissions_full rest highestPermission
  end.

Fixpoint scanUserRoles_full (rows : list UserRoleWithPermissions)
    (highestPermission : PermissionLevel) : PermissionLevel :=
  match rows with
  | [] => highestPermission
  | userRole :: rest =>
      scanUserRoles_full rest
        (scanPermissions_full (urp_permissions userRole) highestPermission)
  end.

(** The request as the permission middleware sees it. *)
Record PermissionRequest : Type := mkRequest {
  req_userId : option string;             (* req.user?.userId *)
  req_params_committeeId : option string; (* req.params.committeeId *)
  req_body_committeeId : option string;   (* req.body.committeeId *)
  req_userPermission : option PermissionLevel;
  req_isAdmin : option bool
}.

Definition set_isAdmin (req : PermissionRequest) : PermissionRequest :=
  mkRequest (req_userId req) (req_params_committeeId req)
            (req_body_committeeId req) (req_userPermission req) (Some true).

Definition set_userPermission (req : PermissionRequest) (l : PermissionLevel)
  : PermissionRequest :=
  mkRequest (req_userId req) (req_params_committeeId req)
            (req_body_committeeId req) (Some l) (req_isAdmin req).

(** A middleware either calls [next()] on the annotated request or sends
    an error. *)
Inductive MiddlewareResult : Type :=
| Next (req : PermissionRequest)
| Reply (status : nat) (error : string).

Definition checkCommitteePermission (requiredLevel : RequiredLevel)
    (db : Db) (req : PermissionRequest) : MiddlewareResult :=
  match truthy_value (req_userId req) with
  | None => Reply 401 "Unauthorized"
  | Some userId =>
    match truthy_value
            (js_or (req_params_committeeId req) (req_body_committeeId req)) with
    | None => Reply 400 "Committee ID required"
    | Some committeeId =>
      let organization := organization_findFirst_admin db userId in
      if isSome organization
         && match requiredLevel with ADMIN => true | Level _ => false end
      then Next (set_isAdmin req)
      else
        let highest := highestPermission db userId committeeId in
        let req' := set_userPermission req highest in
        match requiredLevel with
        | Level LEADER =>
            if negb (PermissionLevel_eqb highest LEADER) then
              Reply 403 "Insufficient permissions. Leader access required."
            else Next req'
        | Level MEMBER =>
            if negb (PermissionLevel_eqb highest MEMBER)
               && negb (PermissionLevel_eqb highest LEADER) then
              Reply 403 "Insufficient permissions. Member access required."
            else Next req'
        | _ => Next req'
        end
    end
  end.

Definition checkIsAdmin (db : Db) (req : PermissionRequest) : MiddlewareResult :=
  match truthy_value (req_userId req) with
  | None => Reply 401 "Unauthorized"
  | Some userId =>
      match organization_findFirst_admin db userId with
      | None => Reply 403 "Admin access required"
      | Some _ => Next (set_isAdmin req)
      end
  end.

(** The request that [authenticate] hands on for the verified user
    [userId], with the committee id of the path and of the body. *)
Definition authenticated (userId : string) (params_committeeId
    body_committeeId : option string) : PermissionRequest :=
  mkRequest (Some userId) params_committeeId body_committeeId None None.

(* ================================================================== *)
(** ** Ordering of query results *)

Section OrderBy.
Variable A : Type.
Variable leb : A -> A -> bool.

Fixpoint insert_by (x : A) (l : list A) : list A :=
  match l with
  | [] => [x]
  | y :: rest => if leb x y then x :: l else y :: insert_by x rest
  end.

(** [orderBy]: a stable insertion sort along [leb]. *)
Fixpoint orderBy (l : list A) : list A :=
  match l with
  | [] => []
  | x :: rest => insert_by x (orderBy rest)
  end.
End OrderBy.

(** A query without [orderBy] returns its rows in the order that the
    database chooses: with SQLite the order of the index that serves the
    query, which need not be the order of insertion.  A [RowOrder] is such
    a choice, for each table a function that puts the rows of a result in
    the order of the answer; it can look into the rows but neither adds
    nor drops one.  [findFirst] without [orderBy] answers with the first
    row of that order. *)
Record RowOrder : Type := mkRowOrder {
  ordered_roles : list Role -> list Role;
  ordered_userRoles : list UserRole -> list UserRole;
  ordered_committees : list Committee -> list Committee;
  ordered_permissions
    : list RoleCommitteePermission -> list RoleCommitteePermission;
  ordered_tasks : list Task -> list Task;
  ordered_assignments : list TaskAssignment -> list TaskAssignment;
  ordered_roles_perm : forall l, Permutation (ordered_roles l) l;
  ordered_userRoles_perm : forall l, Permutation (ordered_userRoles l) l;
  ordered_committees_perm : forall l, Permutation (ordered_committees l) l;
  ordered_permissions_perm : forall l, Permutation (ordered_permissions l) l;
  ordered_tasks_perm : forall l, Permutation (ordered_tasks l) l;
  ordered_assignments_perm : forall l, Permutation (ordered_assignments l) l
}.

(** Prisma's [Int], the type of [tasks.position]: a signed integer of 32
    bits.  A write of a number outside the range throws. *)
Definition fitsInt (z : Z) : bool :=
  ((-2147483648 <=? z) && (z <=? 2147483647))%Z.

(** [orderBy: [{ status: 'asc' }, { position: 'asc' }]]: the status column
    holds the strings of [TaskStatus_to_string], compared as text. *)
Definition task_status_position_leb (a b : Task) : bool :=
  if TaskStatus_eqb (task_status a) (task_status b) then
    (task_position a <=? task_position b)%Z
  else
    String.ltb (TaskStatus_to_string (task_status a))
               (TaskStatus_to_string (task_status b)).

(** [orderBy: { position: 'asc' }] and [orderBy: { position: 'desc' }]. *)
Definition task_position_asc (a b : Task) : bool :=
  (task_position a <=? task_position b)%Z.

Definition task_position_desc (a b : Task) : bool :=
  (task_position b <=? task_position a)%Z.

(* ================================================================== *)
(** ** Queries and writes on tasks (routes/tasks.ts) *)

Definition user_exists (db : Db) (id : string) : bool :=
  existsb (fun u => user_id u =? id) (users db).

Definition committee_findUnique (db : Db) (id : string) : option Committee :=
  find (fun c => committee_id c =? id) (committees db).

Definition task_findUnique (db : Db) (id : string) : option Task :=
  find (fun t => task_id t =? id) (tasks db).

(** [prisma.task.findMany({ where: { committeeId }, orderBy: [status, position] })] *)
Definition task_findMany_committee (db : Db) (committeeId : string) : list Task :=
  orderBy task_status_position_leb
    (filter (fun t => task_committeeId t =? committeeId) (tasks db)).

(** [prisma.task.findFirst({ where: { committeeId, status: TODO },
                             orderBy: { position: 'desc' } })] *)
Definition task_findFirst_last_todo (db : Db) (committeeId : string)
  : option Task :=
  hd_error
    (orderBy task_position_desc
       (filter (fun t => (task_committeeId t =? committeeId)
                         && TaskStatus_eqb (task_status t) TODO)
               (tasks db))).

(** The outcome of [findUnique({ where: { id }, include: { committee: true } })].
    The foreign key of [tasks.committee_id] rules out the third case; the
    ORM throws on it. *)
Inductive TaskWithCommittee : Type :=
| TaskFound (task : Task) (committee : Committee)
| TaskMissing
| TaskInconsistent.

Definition task_findUnique_with_committee (db : Db) (id : string)
  : TaskWithCommittee :=
  match task_findUnique db id with
  | None => TaskMissing
  | Some t =>
      match committee_findUnique db (task_committeeId t) with
      | Some c => TaskFound t c
      | None => TaskInconsistent
      end
  end.

(** [userRoles.some(ur => ur.role.permissions.some(p => p.permissionLevel !== NONE))] *)
Definition some_permission (rows : list UserRoleWithPermissions) : bool :=
  existsb (fun ur =>
             existsb (fun p => negb (PermissionLevel_eqb (rcp_permissionLevel p) NONE))
                     (urp_permissions ur))
          rows.

(** [userRoles.some(ur => ur.role.permissions.some(p => p.permissionLevel === LEADER))] *)
Definition some_leader_permission (rows : list UserRoleWithPermissions) : bool :=
  existsb (fun ur =>
             existsb (fun p => PermissionLevel_eqb (rcp_permissionLevel p) LEADER)
                     (urp_permissions ur))
          rows.

(** The check written out in GET /tasks/:id, PATCH /tasks/:id/status and
    POST /tasks/:id/comments: [isAdmin] of the owning organization, else a
    permission row of any of the caller's roles. *)
Definition hasAccess (db : Db) (userId : string) (task : Task)
    (committee : Committee) : bool :=
  let isAdmin :=
    organization_findFirst_id_admin db (committee_organizationId committee) userId in
  if isSome isAdmin then true
  else some_permission (userRole_findMany db userId (task_committeeId task)).

(** The check written out in PUT /tasks/:id and DELETE /tasks/:id. *)
Definition isLeader (db : Db) (userId : string) (task : Task)
    (committee : Committee) : bool :=
  let isAdmin :=
    organization_findFirst_id_admin db (committee_organizationId committee) userId in
  if isSome isAdmin then true
  else some_leader_permission (userRole_findMany db userId (task_committeeId task)).

Definition set_tasks (db : Db) (ts : list Task) : Db :=
  mkDb (users db) (organizations db) (roles db) (userRoles db) (committees db)
       (permissions db) ts (assignments db) (comments db).

Definition set_status_position (t : Task) (s : TaskStatus) (p : Z) : Task :=
  mkTask (task_id t) (task_title t) (task_description t) s
         (task_committeeId t) (task_createdById t) (task_dueDate t) p.

(** [prisma.task.update({ where: { id }, data: { status, position } })] *)
Definition task_update_status (db : Db) (id : string) (s : TaskStatus) (p : Z)
  : Db :=
  set_tasks db
    (map (fun t => if task_id t =? id then set_status_position t s p else t)
         (tasks db)).

(* ------------------------------------------------------------------ *)
(** *** GET /tasks/committee/:committeeId *)

Definition getCommitteeTasks (db : Db) (userId committeeId : string)
  : Response (list Task) :=
  match checkCommitteePermission (Level MEMBER) db
          (authenticated userId (Some committeeId) None) with
  | Reply status error => Error status error
  | Next _ => Json 200 (task_findMany_committee db committeeId)
  end.

(** The column of the board that the client shows under a status: the
    tasks of the listing with that status, in the order of the listing. *)
Definition column (db : Db) (committeeId : string) (s : TaskStatus) : list Task :=
  filter (fun t => TaskStatus_eqb (task_status t) s)
         (task_findMany_committee db committeeId).

(* ------------------------------------------------------------------ *)
(** *** GET /tasks/:id *)

Definition getTask (db : Db) (userId id : string) : Response Task :=
  match task_findUnique_with_committee db id with
  | TaskMissing => Error 404 "Task not found"
  | TaskInconsistent => internalError
  | TaskFound task committee =>
      if negb (hasAccess db userId task committee) then
        Error 403 "Access denied"
      else Json 200 task
  end.

(* ------------------------------------------------------------------ *)
(** *** PATCH /tasks/:id/status *)

(** The body, with [position] an integer: [z.number()] sets no bound, and
    a number with a fraction is outside this model. *)
Record UpdateTaskStatusBody : Type := mkUpdateTaskStatusBody {
  uts_status : string;
  uts_position : option Z
}.

Definition updateTaskStatusSchema_parse (body : UpdateTaskStatusBody)
  : option (TaskStatus * option Z) :=
  match parseTaskStatus (uts_status body) with
  | Some s => Some (s, uts_position body)
  | None => None
  end.

Definition updateTaskStatus (db : Db) (userId id : string)
    (body : UpdateTaskStatusBody) : Db * Response Task :=
  match updateTaskStatusSchema_parse body with
  | None => (db, ZodError)
  | Some (status, position) =>
      match task_findUnique_with_committee db id with
      | TaskMissing => (db, Error 404 "Task not found")
      | TaskInconsistent => (db, internalError)
      | TaskFound existingTask committee =>
          if negb (hasAccess db userId existingTask committee) then
            (db, Error 403 "Access denied")
          else
            let p := match position with
                     | Some p => p
                     | None => task_position existingTask
                     end in
            (* [prisma.task.update] throws on a position of the body that
               is no [Int]; the position of the stored row is one. *)
            if match position with
               | Some p => fitsInt p
               | None => true
               end
            then (task_update_status db id status p,
                  Json 200 (set_status_position existingTask status p))
            else (db, internalError)
      end
  end.

(* ------------------------------------------------------------------ *)
(** *** DELETE /tasks/:id *)

(** [prisma.task.delete({ where: { id } })], with the cascade of
    [task_assignments.task_id] and [comments.task_id]. *)
Definition task_delete (db : Db) (id : string) : Db :=
  mkDb (users db) (organizations db) (roles db) (userRoles db) (committees db)
       (permissions db)
       (filter (fun t => negb (task_id t =? id)) (tasks db))
       (filter (fun a => negb (ta_taskId a =? id)) (assignments db))
       (filter (fun c => negb (comment_taskId c =? id)) (comments db)).

Definition deleteTask (db : Db) (userId id : string) : Db * Response string :=
  match task_findUnique_with_committee db id with
  | TaskMissing => (db, Error 404 "Task not found")
  | TaskInconsistent => (db, internalError)
  | TaskFound existingTask committee =>
      if negb (isLeader db userId existingTask committee) then
        (db, Error 403 "Insufficient permissions. Leader access required.")
      else (task_delete db id, Json 200 "Task deleted successfully")
  end.

(* ------------------------------------------------------------------ *)
(** *** POST /tasks/:id/comments *)

(** [prisma.comment.create]: the foreign keys of [comments.task_id] and
    [comments.user_id] must hold, else the ORM throws. *)
Definition comment_create (db : Db) (c : Comment) : option Db :=
  if isSome (task_findUnique db (comment_taskId c))
     && user_exists db (comment_userId c)
  then Some (mkDb (users db) (organizations db) (roles db) (userRoles db)
                  (committees db) (permissions db) (tasks db) (assignments db)
                  (comments db ++ [c]))
  else None.

Definition addComment (db : Db) (userId id : string) (content : string)
  : Db * Response Comment :=
  (* z.object({ content: z.string().min(1) }) *)
  if content =? "" then (db, ZodError)
  else
    match task_findUnique_with_committee db id with
    | TaskMissing => (db, Error 404 "Task not found")
    | TaskInconsistent => (db, internalError)
    | TaskFound existingTask committee =>
        if negb (hasAccess db userId existingTask committee) then
          (db, Error 403 "Access denied")
        else
          let comment := mkComment content id userId in
          match comment_create db comment with
          | Some db' => (db', Json 201 comment)
          | None => (db, internalError)
          end
    end.

(* ------------------------------------------------------------------ *)
(** *** POST /tasks *)

Record CreateTaskBody : Type := mkCreateTaskBody {
  ct_title : string;
  ct_description : option string;
  ct_committeeId : option string;
  ct_dueDate : option string;
  ct_assigneeIds : option (list string)
}.

Fixpoint nodupb (l : list string) : bool :=
  match l with
  | [] => true
  | x :: rest => negb (existsb (String.eqb x) rest) && nodupb rest
  end.

Definition set_tasks_assignments (db : Db) (ts : list Task)
    (asg : list TaskAssignment) : Db :=
  mkDb (users db) (organizations db) (roles db) (userRoles db) (committees db)
       (permissions db) ts asg (comments db).

(** [prisma.task.create({ data: { ..., assignees: { create: [...] } } })]:
    one transaction that inserts the task and its assignment rows.  It
    throws, and inserts nothing, when the position is no [Int], or the
    primary key of [tasks], a foreign key ([committee_id], [created_by_id],
    the assignees' [user_id]) or the unique index on [(task_id, user_id)]
    is violated. *)
Definition task_create (db : Db) (t : Task) (assigneeIds : list string)
  : option Db :=
  if fitsInt (task_position t)
     && negb (isSome (task_findUnique db (task_id t)))
     && isSome (committee_findUnique db (task_committeeId t))
     && user_exists db (task_createdById t)
     && forallb (user_exists db) assigneeIds
     && nodupb assigneeIds
  then Some (set_tasks_assignments db
               (tasks db ++ [t])
               (assignments db
                  ++ map (fun a => mkTaskAssignment (task_id t) a) assigneeIds))
  else None.

Section CreateTask.
(** zod's [z.string().datetime()], a predicate of the validation library,
    and [new Date(dueDate)] as the column [due_date] stores and answers it. *)
Variable isDatetime : string -> bool.
Variable newDate : string -> string.

Definition createTaskSchema_parse (body : CreateTaskBody)
  : option (string * option string * string * option string
            * option (list string)) :=
  match ct_committeeId body with
  | None => None
  | Some committeeId =>
      if ct_title body =? "" then None
      else if match ct_dueDate body with
              | Some d => negb (isDatetime d)
              | None => false
              end then None
      else Some (ct_title body, ct_description body, committeeId,
                 ct_dueDate body, ct_assigneeIds body)
  end.

(** The handler of POST /tasks, once the middleware has called [next()].
    [newId] is the id that the ORM draws for the new row; [status] is
    left to the column default, TODO. *)
Definition createTask_handler (db : Db) (newId userId : string)
    (body : CreateTaskBody) : Db * Response Task :=
  match createTaskSchema_parse body with
  | None => (db, ZodError)
  | Some (title, description, committeeId, dueDate, assigneeIds) =>
      let lastTask := task_findFirst_last_todo db committeeId in
      let position := match lastTask with
                      | Some t => (task_position t + 1)%Z
                      | None => 0%Z
                      end in
      let task :=
        mkTask newId title description TODO committeeId userId
               (if truthy dueDate then option_map newDate dueDate else None)
               position in
      match task_create db task
              (match assigneeIds with Some l => l | None => [] end) with
      | Some db' => (db', Json 201 task)
      | None => (db, internalError)
      end
  end.

(** The route: [authenticate], [checkCommitteePermission(LEADER)], handler. *)
Definition createTask (db : Db) (newId userId : string)
    (body : CreateTaskBody) : Db * Response Task :=
  match checkCommitteePermission (Level LEADER) db
          (authenticated userId None (ct_committeeId body)) with
  | Reply status error => (db, Error status error)
  | Next _ => createTask_handler db newId userId body
  end.
End CreateTask.

(* ================================================================== *)
(** ** Committees (routes/committees.ts) *)

Record CommitteeView : Type := mkCommitteeView {
  cv_committee : Committee;
  cv_tasks : list Task;
  cv_userPermission : PermissionLevel
}.

(** GET /committees/:id *)
Definition getCommittee (db : Db) (userId id : string) : Response CommitteeView :=
  match committee_findUnique db id with
  | None => Error 404 "Committee not found"
  | Some committee =>
      let isAdmin :=
        organization_findFirst_id_admin db (committee_organizationId committee)
                                        userId in
      let userPermission :=
        if isSome isAdmin then LEADER
        else scanUserRoles (userRole_findMany db userId id) NONE in
      if PermissionLevel_eqb userPermission NONE then Error 403 "Access denied"
      else
        Json 200
          (mkCommitteeView committee
             (orderBy task_position_asc
                (filter (fun t => task_committeeId t =? id) (tasks db)))
             userPermission)
  end.

(** [prisma.committee.delete({ where: { id } })] with the cascades of the
    schema: the permission rows and the tasks of the committee, and the
    assignments and comments of those tasks. *)
Definition committee_delete (db : Db) (id : string) : option Db :=
  match committee_findUnique db id with
  | None => None
  | Some _ =>
      let gone (taskId : string) : bool :=
        existsb (fun t => (task_id t =? taskId) && (task_committeeId t =? id))
                (tasks db) in
      Some (mkDb (users db) (organizations db) (roles db) (userRoles db)
                 (filter (fun c => negb (committee_id c =? id)) (committees db))
                 (filter (fun p => negb (rcp_committeeId p =? id)) (permissions db))
                 (filter (fun t => negb (task_committeeId t =? id)) (tasks db))
                 (filter (fun a => negb (gone (ta_taskId a))) (assignments db))
                 (filter (fun c => negb (gone (comment_taskId c))) (comments db)))
  end.

(** DELETE /committees/:id: [authenticate], [checkIsAdmin], handler. *)
Definition deleteCommittee (db : Db) (userId id : string) : Db * Response string :=
  match checkIsAdmin db (authenticated userId None None) with
  | Reply status error => (db, Error status error)
  | Next _ =>
      match committee_delete db id with
      | Some db' => (db', Json 200 "Committee deleted successfully")
      | None => (db, internalError)
      end
  end.

(* ================================================================== *)
(** ** Role permissions (routes/roles.ts) *)

Record PermissionEntry : Type := mkPermissionEntry {
  pe_committeeId : string;
  pe_permissionLevel : string
}.

Record SetPermissionsBody : Type := mkSetPermissionsBody {
  sp_roleId : string;
  sp_permissions : list PermissionEntry
}.

Fixpoint parseEntries (l : list PermissionEntry)
  : option (list (string * PermissionLevel)) :=
  match l with
  | [] => Some []
  | e :: rest =>
      match parsePermissionLevel (pe_permissionLevel e), parseEntries rest with
      | Some lvl, Some rest' => Some ((pe_committeeId e, lvl) :: rest')
      | _, _ => None
      end
  end.

Definition setPermissionsSchema_parse (body : SetPermissionsBody)
  : option (string * list (string * PermissionLevel)) :=
  match parseEntries (sp_permissions body) with
  | Some l => Some (sp_roleId body, l)
  | None => None
  end.

Definition set_permissions (db : Db) (ps : list RoleCommitteePermission) : Db :=
  mkDb (users db) (organizations db) (roles db) (userRoles db) (committees db)
       ps (tasks db) (assignments db) (comments db).

(** [prisma.roleCommitteePermission.deleteMany({ where: { roleId } })] *)
Definition permission_deleteMany (db : Db) (roleId : string) : Db :=
  set_permissions db
    (filter (fun p => negb (rcp_roleId p =? roleId)) (permissions db)).

Definition same_key (p q : RoleCommitteePermission) : bool :=
  (rcp_roleId p =? rcp_roleId q) && (rcp_committeeId p =? rcp_committeeId q).

(** No two rows of [l] on one (role, committee) pair. *)
Fixpoint unique_keys (l : list RoleCommitteePermission) : bool :=
  match l with
  | [] => true
  | p :: rest => negb (existsb (same_key p) rest) && unique_keys rest
  end.

Definition role_findUnique (db : Db) (id : string) : option Role :=
  find (fun r => role_id r =? id) (roles db).

(** [prisma.roleCommitteePermission.createMany({ data })]: one INSERT of all
    the rows.  It throws, and inserts nothing, when a row breaks a foreign
    key ([role_id], [committee_id]) or the unique index
    [role_committee_permissions_role_id_committee_id_key]. *)
Definition permission_createMany (db : Db) (data : list RoleCommitteePermission)
  : option Db :=
  if forallb (fun p => isSome (role_findUnique db (rcp_roleId p))
                       && isSome (committee_findUnique db (rcp_committeeId p)))
             data
     && unique_keys (permissions db ++ data)
  then Some (set_permissions db (permissions db ++ data))
  else None.

Record RoleWithPermissions : Type := mkRoleWithPermissions {
  rwp_role : Role;
  rwp_permissions : list RoleCommitteePermission
}.

(** [prisma.role.findUnique({ where: { id }, include: { permissions } })] *)
Definition role_findUnique_with_permissions (o : RowOrder) (db : Db)
    (id : string) : option RoleWithPermissions :=
  match role_findUnique db id with
  | Some r =>
      Some (mkRoleWithPermissions r
              (ordered_permissions o
                 (filter (fun p => rcp_roleId p =? id) (permissions db))))
  | None => None
  end.

(** The handler of POST /roles/permissions.  The delete and the insert are
    two statements: a failing insert leaves the delete in place. *)
Definition setPermissions_handler (o : RowOrder) (db : Db)
    (body : SetPermissionsBody)
  : Db * Response (option RoleWithPermissions) :=
  match setPermissionsSchema_parse body with
  | None => (db, ZodError)
  | Some (roleId, perms) =>
      let db1 := permission_deleteMany db roleId in
      let permissionsToCreate :=
        map (fun p => mkPermission roleId (fst p) (snd p))
            (filter (fun p => negb (PermissionLevel_eqb (snd p) NONE)) perms) in
      let created :=
        if Nat.ltb 0 (List.length permissionsToCreate)
        then permission_createMany db1 permissionsToCreate
        else Some db1 in
      match created with
      | None => (db1, internalError)
      | Some db2 =>
          (db2, Json 200 (role_findUnique_with_permissions o db2 roleId))
      end
  end.

(** The route: [authenticate], [checkIsAdmin], handler. *)
Definition setPermissions (o : RowOrder) (db : Db) (userId : string)
    (body : SetPermissionsBody)
  : Db * Response (option RoleWithPermissions) :=
  match checkIsAdmin db (authenticated userId None None) with
  | Reply status error => (db, Error status error)
  | Next _ => setPermissions_handler o db body
  end.

(* ================================================================== *)
(** ** Organizations (routes/organization.ts) *)

Record CreateOrganizationBody : Type := mkCreateOrganizationBody {
  co_name : string;
  co_description : option string;
  co_logoUrl : option string
}.

(** [prisma.organization.create]: throws on a used primary key and on an
    [admin_user_id] that is no user. *)
Definition organization_create (db : Db) (o : Organization) : option Db :=
  if negb (existsb (fun o' => org_id o' =? org_id o) (organizations db))
     && user_exists db (org_adminUserId o)
  then Some (mkDb (users db) (organizations db ++ [o]) (roles db) (userRoles db)
                  (committees db) (permissions db) (tasks db) (assignments db)
                  (comments db))
  else None.

Section CreateOrganization.
(** zod's [z.string().url()], a predicate of the validation library. *)
Variable isUrl : string -> bool.

Definition createOrganizationSchema_parse (body : CreateOrganizationBody)
  : bool :=
  negb (co_name body =? "")
  && match co_logoUrl body with
     | Some u => isUrl u
     | None => true
     end.

(** POST /organizations: [authenticate], handler.  [newId] is the id that
    the ORM draws for the new row. *)
Definition createOrganization (db : Db) (newId userId : string)
    (body : CreateOrganizationBody) : Db * Response Organization :=
  if negb (createOrganizationSchema_parse body) then (db, ZodError)
  else
    match organization_findFirst_admin db userId with
    | Some existingOrg =>
        (db, Error 400 "Organization already exists for this user")
    | None =>
        let organization :=
          mkOrganization newId (co_name body) (co_description body)
                         (co_logoUrl body) userId in
        match organization_create db organization with
        | Some db' => (db', Json 201 organization)
        | None => (db, internalError)
        end
    end.
End CreateOrganization.

(* ================================================================== *)
(** ** The vocabulary of the specification *)

(** The greatest level of a list, NONE for the empty list. *)
Definition max_level (l : list PermissionLevel) : PermissionLevel :=
  fold_right level_max NONE l.

(** The levels of a list of rows, and the best level of each role of a
    scan. *)
Definition levels (perms : list RoleCommitteePermission) : list PermissionLevel :=
  map rcp_permissionLevel perms.

Definition role_levels (rows : list UserRoleWithPermissions)
  : list PermissionLevel :=
  map (fun ur => max_level (levels (urp_permissions ur))) rows.

(** The rows of a role for a committee. *)
Definition row_for (roleId committeeId : string) (p : RoleCommitteePermission)
  : bool :=
  (rcp_roleId p =? roleId) && (rcp_committeeId p =? committeeId).

(** The answer of the middleware to a caller below the required level. *)
Definition insufficient (lvl : PermissionLevel) : string :=
  match lvl with
  | LEADER => "Insufficient permissions. Leader access required."
  | _ => "Insufficient permissions. Member access required."
  end.

(** The roles R1..Rn that a user holds. *)
Definition rolesOf (db : Db) (userId : string) : list string :=
  map ur_roleId (filter (fun ur => ur_userId ur =? userId) (userRoles db)).

(** [permission(R, C)]: the level of the row of role [R] for committee [C];
    a role with no row for [C] contributes NONE. *)
Definition rolePermission (db : Db) (roleId committeeId : string)
  : PermissionLevel :=
  match find (fun p => (rcp_roleId p =? roleId) && (rcp_committeeId p =? committeeId))
             (permissions db) with
  | Some p => rcp_permissionLevel p
  | None => NONE
  end.

(** [max(permission(Ri, C) for all i)]. *)
Definition max_over_roles (db : Db) (userId committeeId : string)
  : PermissionLevel :=
  max_level (map (fun r => rolePermission db r committeeId) (rolesOf db userId)).

(** The effective permission of the specification: the administrator of
    the organization that owns the committee is LEADER, everybody else has
    the maximum over their roles. *)
Definition resolve (db : Db) (userId : string) (committee : Committee)
  : PermissionLevel :=
  if isSome (organization_findFirst_id_admin db
               (committee_organizationId committee) userId)
  then LEADER
  else max_over_roles db userId (committee_id committee).

(** The store holds no permission row of level NONE. *)
Definition no_NONE_rows (l : list RoleCommitteePermission) : Prop :=
  Forall (fun p => rcp_permissionLevel p <> NONE) l.

(** The number of organizations that a user administers. *)
Definition organizations_of_admin (db : Db) (userId : string) : nat :=
  List.length (filter (fun o => org_adminUserId o =? userId) (organizations db)).

Definition one_organization_per_admin (db : Db) : Prop :=
  forall userId, organizations_of_admin db userId <= 1.

(** What a status update keeps of a task. *)
Definition same_content (t t' : Task) : Prop :=
  task_id t' = task_id t
  /\ task_title t' = task_title t
  /\ task_description t' = task_description t
  /\ task_dueDate t' = task_dueDate t
  /\ task_committeeId t' = task_committeeId t
  /\ task_createdById t' = task_createdById t.

(* ------------------------------------------------------------------ *)
(** *** Sample stores *)

Definition alwaysValid (s : string) : bool := true.

(** The date conversion on strings that already have the stored form. *)
Definition asWritten (d : string) : string := d.

(** The database that answers in the order of insertion, and the one that
    answers in the opposite order. *)
Definition insertion_order : RowOrder :=
  mkRowOrder (fun l => l) (fun l => l) (fun l => l) (fun l => l) (fun l => l)
             (fun l => l)
             (@Permutation_refl _) (@Permutation_refl _) (@Permutation_refl _)
             (@Permutation_refl _) (@Permutation_refl _) (@Permutation_refl _).

Definition reverse_order : RowOrder :=
  mkRowOrder (@rev _) (@rev _) (@rev _) (@rev _) (@rev _) (@rev _)
             (fun l => Permutation_sym (Permutation_rev l))
             (fun l => Permutation_sym (Permutation_rev l))
             (fun l => Permutation_sym (Permutation_rev l))
             (fun l => Permutation_sym (Permutation_rev l))
             (fun l => Permutation_sym (Permutation_rev l))
             (fun l => Permutation_sym (Permutation_rev l)).

(** One organization whose administrator holds no role. *)
Definition db_admin_without_roles : Db :=
  mkDb [mkUser "admin1" "admin@university.edu" "Admin User" true]
       [mkOrganization "o1" "Student Council" None None "admin1"]
       []
       []
       [mkCommittee "c1" "Events" "o1"]
       []
       [mkTask "t1" "Book venue" None TODO "c1" "admin1" None 0]
       []
       [].

(** Two organizations, each with its administrator and one committee. *)
Definition db_two_organizations : Db :=
  mkDb [mkUser "admin1" "a1@university.edu" "Admin One" true;
        mkUser "admin2" "a2@university.edu" "Admin Two" true]
       [mkOrganization "o1" "Student Council" None None "admin1";
        mkOrganization "o2" "Chess Club" None None "admin2"]
       [mkRole "r2" "Chair" "o2"]
       []
       [mkCommittee "c1" "Events" "o1"; mkCommittee "c2" "Tournaments" "o2"]
       [mkPermission "r2" "c2" LEADER]
       [mkTask "t2" "Order boards" None TODO "c2" "admin2" None 0]
       []
       [].

(** The seeded organization in small: a chair (LEADER on Events, MEMBER on
    Marketing) who is a member too, a member (MEMBER on Events), and three
    tasks in Events. *)
Definition db_events : Db :=
  mkDb [mkUser "admin1" "admin@university.edu" "Admin User" true;
        mkUser "jane" "jane@university.edu" "Jane" true;
        mkUser "bob" "bob@university.edu" "Bob" true]
       [mkOrganization "o1" "Student Council" None None "admin1"]
       [mkRole "chair" "Committee Chair" "o1"; mkRole "member" "Member" "o1"]
       [mkUserRole "jane" "chair"; mkUserRole "jane" "member";
        mkUserRole "bob" "member"]
       [mkCommittee "events" "Events" "o1"; mkCommittee "marketing" "Marketing" "o1"]
       [mkPermission "chair" "events" LEADER;
        mkPermission "chair" "marketing" MEMBER;
        mkPermission "member" "events" MEMBER]
       [mkTask "t1" "Book venue" None TODO "events" "jane" None 0;
        mkTask "t2" "Print flyers" None TODO "events" "jane" None 4;
        mkTask "t3" "Send invites" None DONE "events" "jane" None 1]
       []
       [].


From Stdlib Require Import Sorted.

(* ================================================================== *)
(** ** The remaining routes of routes/committees.ts *)

(** [prisma.userRole.findFirst({ where: { userId } })]: the first row, in
    the order of the database, of the rows of the user. *)
Definition userRole_findFirst (o : RowOrder) (db : Db) (userId : string)
  : option UserRole :=
  hd_error (ordered_userRoles o
              (filter (fun ur => ur_userId ur =? userId) (userRoles db))).

(** The organization of the caller, as GET /committees, GET /roles and GET
    /organizations/me look it up: the organization that the caller
    administers, else the organization of the role of the [user_roles] row
    that [findFirst] answers with.  The outer [None] is the ORM throwing on
    a [user_roles] row without its role, which the foreign key rules out. *)
Definition caller_organizationId (o : RowOrder) (db : Db) (userId : string)
  : option (option string) :=
  match organization_findFirst_admin db userId with
  | Some organization => Some (Some (org_id organization))
  | None =>
      match userRole_findFirst o db userId with
      | Some userRole =>
          match role_findUnique db (ur_roleId userRole) with
          | Some role => Some (Some (role_organizationId role))
          | None => None
          end
      | None => Some None
      end
  end.

(** A row of [userRole.findMany] with
    [include: { role: { include: { permissions: true } } }]. *)
Definition userRole_findMany_all (o : RowOrder) (db : Db) (userId : string)
  : list UserRoleWithPermissions :=
  map (fun ur =>
         mkUserRoleWithPermissions ur
           (ordered_permissions o
              (filter (fun p => rcp_roleId p =? ur_roleId ur) (permissions db))))
      (ordered_userRoles o
         (filter (fun ur => ur_userId ur =? userId) (userRoles db))).

(** The loop of GET /committees over the caller's roles: of each role the
    first row for the committee ([permissions.find]) counts. *)
Fixpoint scanUserRoles_find (rows : list UserRoleWithPermissions)
    (committeeId : string) (highestPermission : PermissionLevel)
  : PermissionLevel :=
  match rows with
  | [] => highestPermission
  | userRole :: rest =>
      match find (fun p => rcp_committeeId p =? committeeId)
                 (urp_permissions userRole) with
      | Some permission =>
          if PermissionLevel_eqb (rcp_permissionLevel permission) LEADER then
            LEADER
          else if PermissionLevel_eqb (rcp_permissionLevel permission) MEMBER
                  && PermissionLevel_eqb highestPermission NONE then
            scanUserRoles_find rest committeeId MEMBER
          else scanUserRoles_find rest committeeId highestPermission
      | None => scanUserRoles_find rest committeeId highestPermission
      end
  end.

(** An entry of the answer of GET /committees: the committee, the id and
    status of its tasks, and the caller's level. *)
Record CommitteeListItem : Type := mkCommitteeListItem {
  cli_committee : Committee;
  cli_tasks : list (string * TaskStatus);
  cli_userPermission : PermissionLevel
}.

Definition committee_task_summaries (o : RowOrder) (db : Db)
    (committeeId : string) : list (string * TaskStatus) :=
  map (fun t => (task_id t, task_status t))
      (ordered_tasks o
         (filter (fun t => task_committeeId t =? committeeId) (tasks db))).

(** GET /committees *)
Definition getCommittees (o : RowOrder) (db : Db) (userId : string)
  : Response (list CommitteeListItem) :=
  match caller_organizationId o db userId with
  | None => internalError
  | Some organizationId =>
      match truthy_value organizationId with
      | None => Error 404 "No organization found"
      | Some organizationId =>
          let committees :=
            ordered_committees o
              (filter (fun c => committee_organizationId c =? organizationId)
                      (committees db)) in
          let isAdmin := isSome (organization_findFirst_admin db userId) in
          if negb isAdmin then
            let userRoles := userRole_findMany_all o db userId in
            let committeesWithPermissions :=
              map (fun committee =>
                     mkCommitteeListItem committee
                       (committee_task_summaries o db (committee_id committee))
                       (scanUserRoles_find userRoles (committee_id committee) NONE))
                  committees in
            Json 200
              (filter (fun c => negb (PermissionLevel_eqb (cli_userPermission c) NONE))
                      committeesWithPermissions)
          else
            Json 200
              (map (fun committee =>
                      mkCommitteeListItem committee
                        (committee_task_summaries o db (committee_id committee))
                        LEADER)
                   committees)
      end
  end.

Definition set_committees (db : Db) (cs : list Committee) : Db :=
  mkDb (users db) (organizations db) (roles db) (userRoles db) cs
       (permissions db) (tasks db) (assignments db) (comments db).

Definition organization_findUnique (db : Db) (id : string) : option Organization :=
  find (fun o => org_id o =? id) (organizations db).

(** [prisma.committee.create({ data })]: throws on a used primary key, on
    an [organization_id] that is no organization and on the unique index
    [committees_organization_id_name_key]. *)
Definition committee_create (db : Db) (c : Committee) : option Db :=
  if negb (isSome (committee_findUnique db (committee_id c)))
     && isSome (organization_findUnique db (committee_organizationId c))
     && negb (existsb (fun c' => (committee_organizationId c'
                                    =? committee_organizationId c)
                                 && (committee_name c' =? committee_name c))
                      (committees db))
  then Some (set_committees db (committees db ++ [c]))
  else None.

(** The bodies of POST and PUT /committees; the same two schemas serve
    POST and PUT /roles.  The description is a column that the rows of this
    model leave out. *)
Record CreateNamedBody : Type := mkCreateNamedBody {
  cn_name : string;
  cn_description : option string;
  cn_organizationId : string
}.

Record UpdateNamedBody : Type := mkUpdateNamedBody {
  un_name : option string;
  un_description : option string
}.

(** [z.string().min(1).optional()] on the name. *)
Definition updateNamedSchema_parse (body : UpdateNamedBody) : bool :=
  match un_name body with
  | Some n => negb (n =? "")
  | None => true
  end.

(** POST /committees: [authenticate], [checkIsAdmin], handler. *)
Definition createCommittee (db : Db) (newId userId : string)
    (body : CreateNamedBody) : Db * Response Committee :=
  match checkIsAdmin db (authenticated userId None None) with
  | Reply status error => (db, Error status error)
  | Next _ =>
      if cn_name body =? "" then (db, ZodError)
      else
        let committee :=
          mkCommittee newId (cn_name body) (cn_organizationId body) in
        match committee_create db committee with
        | Some db' => (db', Json 201 committee)
        | None => (db, internalError)
        end
  end.

(** [prisma.committee.update({ where: { id }, data })]: throws when no row
    has the id and when the new name is the name of another committee of
    the organization. *)
Definition committee_update (db : Db) (id : string) (name : option string)
  : option (Db * Committee) :=
  match committee_findUnique db id with
  | None => None
  | Some c =>
      let c' := mkCommittee (committee_id c)
                            (match name with Some n => n | None => committee_name c end)
                            (committee_organizationId c) in
      if existsb (fun o => negb (committee_id o =? id)
                           && (committee_organizationId o
                                 =? committee_organizationId c')
                           && (committee_name o =? committee_name c'))
                 (committees db)
      then None
      else Some (set_committees db
                   (map (fun o => if committee_id o =? id then c' else o)
                        (committees db)),
                 c')
  end.

(** PUT /committees/:id: [authenticate], [checkIsAdmin], handler. *)
Definition updateCommittee (db : Db) (userId id : string)
    (body : UpdateNamedBody) : Db * Response Committee :=
  match checkIsAdmin db (authenticated userId None None) with
  | Reply status error => (db, Error status error)
  | Next _ =>
      if negb (updateNamedSchema_parse body) then (db, ZodError)
      else
        match committee_update db id (un_name body) with
        | Some (db', committee) => (db', Json 200 committee)
        | None => (db, internalError)
        end
  end.

(* ================================================================== *)
(** ** The remaining routes of routes/roles.ts *)

Definition set_roles (db : Db) (rs : list Role) : Db :=
  mkDb (users db) (organizations db) rs (userRoles db) (committees db)
       (permissions db) (tasks db) (assignments db) (comments db).

Definition set_userRoles (db : Db) (urs : list UserRole) : Db :=
  mkDb (users db) (organizations db) (roles db) urs (committees db)
       (permissions db) (tasks db) (assignments db) (comments db).

(** An entry of the answer of GET /roles: the role with its permission
    rows and the users of its [user_roles] rows. *)
Record RoleListItem : Type := mkRoleListItem {
  rli_role : Role;
  rli_permissions : list RoleCommitteePermission;
  rli_userIds : list string
}.

(** [prisma.role.findMany({ where: { organizationId }, include: ... })] *)
Definition role_findMany_organization (o : RowOrder) (db : Db)
    (organizationId : string) : list RoleListItem :=
  map (fun r =>
         mkRoleListItem r
           (ordered_permissions o
              (filter (fun p => rcp_roleId p =? role_id r) (permissions db)))
           (map ur_userId
                (ordered_userRoles o
                   (filter (fun ur => ur_roleId ur =? role_id r)
                           (userRoles db)))))
      (ordered_roles o
         (filter (fun r => role_organizationId r =? organizationId) (roles db))).

(** GET /roles *)
Definition getRoles (o : RowOrder) (db : Db) (userId : string)
  : Response (list RoleListItem) :=
  match organization_findFirst_admin db userId with
  | None =>
      match userRole_findFirst o db userId with
      | None => Error 404 "No organization found"
      | Some userRole =>
          match role_findUnique db (ur_roleId userRole) with
          | None => internalError
          | Some role =>
              Json 200 (role_findMany_organization o db (role_organizationId role))
          end
      end
  | Some organization =>
      Json 200 (role_findMany_organization o db (org_id organization))
  end.

(** [prisma.role.create({ data })]: throws on a used primary key, on an
    [organization_id] that is no organization and on the unique index
    [roles_organization_id_name_key]. *)
Definition role_create (db : Db) (r : Role) : option Db :=
  if negb (isSome (role_findUnique db (role_id r)))
     && isSome (organization_findUnique db (role_organizationId r))
     && negb (existsb (fun r' => (role_organizationId r' =? role_organizationId r)
                                 && (role_name r' =? role_name r))
                      (roles db))
  then Some (set_roles db (roles db ++ [r]))
  else None.

(** POST /roles: [authenticate], [checkIsAdmin], handler. *)
Definition createRole (db : Db) (newId userId : string) (body : CreateNamedBody)
  : Db * Response RoleWithPermissions :=
  match checkIsAdmin db (authenticated userId None None) with
  | Reply status error => (db, Error status error)
  | Next _ =>
      if cn_name body =? "" then (db, ZodError)
      else
        let role := mkRole newId (cn_name body) (cn_organizationId body) in
        match role_create db role with
        | Some db' => (db', Json 201 (mkRoleWithPermissions role []))
        | None => (db, internalError)
        end
  end.

(** [prisma.role.update({ where: { id }, data })] *)
Definition role_update (db : Db) (id : string) (name : option string)
  : option (Db * Role) :=
  match role_findUnique db id with
  | None => None
  | Some r =>
      let r' := mkRole (role_id r)
                       (match name with Some n => n | None => role_name r end)
                       (role_organizationId r) in
      if existsb (fun o => negb (role_id o =? id)
                           && (role_organizationId o =? role_organizationId r')
                           && (role_name o =? role_name r'))
                 (roles db)
      then None
      else Some (set_roles db
                   (map (fun o => if role_id o =? id then r' else o) (roles db)),
                 r')
  end.

(** PUT /roles/:id: [authenticate], [checkIsAdmin], handler. *)
Definition updateRole (o : RowOrder) (db : Db) (userId id : string)
    (body : UpdateNamedBody) : Db * Response RoleWithPermissions :=
  match checkIsAdmin db (authenticated userId None None) with
  | Reply status error => (db, Error status error)
  | Next _ =>
      if negb (updateNamedSchema_parse body) then (db, ZodError)
      else
        match role_update db id (un_name body) with
        | Some (db', role) =>
            (db', Json 200
                    (mkRoleWithPermissions role
                       (ordered_permissions o
                          (filter (fun p => rcp_roleId p =? id)
                                  (permissions db')))))
        | None => (db, internalError)
        end
  end.

(** [prisma.role.delete({ where: { id } })] with the cascades of
    [user_roles.role_id] and [role_committee_permissions.role_id]. *)
Definition role_delete (db : Db) (id : string) : option Db :=
  match role_findUnique db id with
  | None => None
  | Some _ =>
      Some (mkDb (users db) (organizations db)
                 (filter (fun r => negb (role_id r =? id)) (roles db))
                 (filter (fun ur => negb (ur_roleId ur =? id)) (userRoles db))
                 (committees db)
                 (filter (fun p => negb (rcp_roleId p =? id)) (permissions db))
                 (tasks db) (assignments db) (comments db))
  end.

(** DELETE /roles/:id: [authenticate], [checkIsAdmin], handler. *)
Definition deleteRole (db : Db) (userId id : string) : Db * Response string :=
  match checkIsAdmin db (authenticated userId None None) with
  | Reply status error => (db, Error status error)
  | Next _ =>
      match role_delete db id with
      | Some db' => (db', Json 200 "Role deleted successfully")
      | None => (db, internalError)
      end
  end.

(** [prisma.userRole.create({ data: { userId, roleId } })]: throws on a
    [user_id] that is no user, a [role_id] that is no role and on the unique
    index [user_roles_user_id_role_id_key]. *)
Definition userRole_create (db : Db) (ur : UserRole) : option Db :=
  if user_exists db (ur_userId ur)
     && isSome (role_findUnique db (ur_roleId ur))
     && negb (existsb (fun x => (ur_userId x =? ur_userId ur)
                                && (ur_roleId x =? ur_roleId ur))
                      (userRoles db))
  then Some (set_userRoles db (userRoles db ++ [ur]))
  else None.

(** POST /roles/assign: [authenticate], [checkIsAdmin], handler.  [target]
    and [roleId] are the two strings of the body. *)
Definition assignRole (db : Db) (userId target roleId : string)
  : Db * Response UserRole :=
  match checkIsAdmin db (authenticated userId None None) with
  | Reply status error => (db, Error status error)
  | Next _ =>
      match userRole_create db (mkUserRole target roleId) with
      | Some db' => (db', Json 201 (mkUserRole target roleId))
      | None => (db, internalError)
      end
  end.

(** DELETE /roles/assign/:userId/:roleId: [authenticate], [checkIsAdmin],
    [userRole.deleteMany]. *)
Definition removeRole (db : Db) (userId target roleId : string)
  : Db * Response string :=
  match checkIsAdmin db (authenticated userId None None) with
  | Reply status error => (db, Error status error)
  | Next _ =>
      (set_userRoles db
         (filter (fun ur => negb ((ur_userId ur =? target)
                                  && (ur_roleId ur =? roleId)))
                 (userRoles db)),
       Json 200 "Role removed from user successfully")
  end.

(* ================================================================== *)
(** ** PUT /tasks/:id (routes/tasks.ts) *)

Record UpdateTaskBody : Type := mkUpdateTaskBody {
  ut_title : option string;
  ut_description : option string;
  ut_status : option string;
  ut_dueDate : option string;
  ut_position : option Z;
  ut_assigneeIds : option (list string)
}.

(** The task with the users of its assignment rows, as the answer of PUT
    /tasks/:id includes them. *)
Record TaskView : Type := mkTaskView {
  tv_task : Task;
  tv_assignees : list string
}.

Definition set_assignments (db : Db) (asg : list TaskAssignment) : Db :=
  mkDb (users db) (organizations db) (roles db) (userRoles db) (committees db)
       (permissions db) (tasks db) asg (comments db).

(** The row after [prisma.task.update({ where: { id }, data })]: a field
    that the data leaves [undefined] keeps its value. *)
Definition task_with_data (t : Task) (title description : option string)
    (status : option TaskStatus) (dueDate : option string) (position : option Z)
  : Task :=
  mkTask (task_id t)
         (match title with Some v => v | None => task_title t end)
         (match description with Some v => Some v | None => task_description t end)
         (match status with Some v => v | None => task_status t end)
         (task_committeeId t) (task_createdById t)
         (match dueDate with Some v => Some v | None => task_dueDate t end)
         (match position with Some v => v | None => task_position t end).

(** [prisma.taskAssignment.deleteMany({ where: { taskId } })] *)
Definition assignment_deleteMany (db : Db) (taskId : string) : Db :=
  set_assignments db
    (filter (fun a => negb (ta_taskId a =? taskId)) (assignments db)).

Definition same_assignment (a b : TaskAssignment) : bool :=
  (ta_taskId a =? ta_taskId b) && (ta_userId a =? ta_userId b).

Fixpoint unique_assignments (l : list TaskAssignment) : bool :=
  match l with
  | [] => true
  | a :: rest => negb (existsb (same_assignment a) rest) && unique_assignments rest
  end.

(** [prisma.taskAssignment.createMany({ data })]: one INSERT; throws, and
    inserts nothing, on a [task_id] that is no task, a [user_id] that is no
    user and on the unique index [task_assignments_task_id_user_id_key]. *)
Definition assignment_createMany (db : Db) (data : list TaskAssignment)
  : option Db :=
  if forallb (fun a => isSome (task_findUnique db (ta_taskId a))
                       && user_exists db (ta_userId a))
             data
     && unique_assignments (assignments db ++ data)
  then Some (set_assignments db (assignments db ++ data))
  else None.

(** [prisma.task.findUnique({ where: { id }, include: { assignees } })] *)
Definition task_findUnique_view (o : RowOrder) (db : Db) (id : string)
  : option TaskView :=
  match task_findUnique db id with
  | Some t =>
      Some (mkTaskView t
              (map ta_userId
                   (ordered_assignments o
                      (filter (fun a => ta_taskId a =? id) (assignments db)))))
  | None => None
  end.

Section UpdateTask.
Variable isDatetime : string -> bool.
Variable newDate : string -> string.

Definition updateTaskSchema_parse (body : UpdateTaskBody)
  : option (option TaskStatus) :=
  if match ut_title body with Some t => t =? "" | None => false end then None
  else if match ut_dueDate body with
          | Some d => negb (isDatetime d)
          | None => false
          end then None
  else match ut_status body with
       | None => Some None
       | Some s =>
           match parseTaskStatus s with
           | Some st => Some (Some st)
           | None => None
           end
       end.

(** PUT /tasks/:id.  The update of the row, the removal of the old
    assignments and the insert of the new ones are three statements
    without a transaction.  The update throws on a position that is no
    [Int], before anything is written. *)
Definition updateTask (o : RowOrder) (db : Db) (userId id : string)
    (body : UpdateTaskBody) : Db * Response (option TaskView) :=
  match updateTaskSchema_parse body with
  | None => (db, ZodError)
  | Some status =>
      match task_findUnique_with_committee db id with
      | TaskMissing => (db, Error 404 "Task not found")
      | TaskInconsistent => (db, internalError)
      | TaskFound existingTask committee =>
          if negb (isLeader db userId existingTask committee) then
            (db, Error 403 "Insufficient permissions. Leader access required.")
          else if match ut_position body with
                  | Some p => negb (fitsInt p)
                  | None => false
                  end then (db, internalError)
          else
            let db1 :=
              set_tasks db
                (map (fun t =>
                        if task_id t =? id then
                          task_with_data t (ut_title body) (ut_description body)
                            status
                            (if truthy (ut_dueDate body)
                             then option_map newDate (ut_dueDate body)
                             else None)
                            (ut_position body)
                        else t)
                     (tasks db)) in
            match ut_assigneeIds body with
            | None => (db1, Json 200 (task_findUnique_view o db1 id))
            | Some assigneeIds =>
                let db2 := assignment_deleteMany db1 id in
                if Nat.ltb 0 (List.length assigneeIds) then
                  match assignment_createMany db2
                          (map (fun a => mkTaskAssignment id a) assigneeIds) with
                  | Some db3 => (db3, Json 200 (task_findUnique_view o db3 id))
                  | None => (db2, internalError)
                  end
                else (db2, Json 200 (task_findUnique_view o db2 id))
            end
      end
  end.
End UpdateTask.

(* ================================================================== *)
(** ** The remaining routes of routes/organization.ts *)

Definition set_organizations (db : Db) (os : list Organization) : Db :=
  mkDb (users db) os (roles db) (userRoles db) (committees db)
       (permissions db) (tasks db) (assignments db) (comments db).

(** GET /organizations/me *)
Definition getMyOrganization (o : RowOrder) (db : Db) (userId : string)
  : Response Organization :=
  match organization_findFirst_admin db userId with
  | Some organization => Json 200 organization
  | None =>
      match userRole_findFirst o db userId with
      | None => Error 404 "No organization found"
      | Some userRole =>
          match role_findUnique db (ur_roleId userRole) with
          | None => internalError
          | Some role =>
              match organization_findUnique db (role_organizationId role) with
              | None => internalError
              | Some organization => Json 200 organization
              end
          end
      end
  end.

Record UpdateOrganizationBody : Type := mkUpdateOrganizationBody {
  uo_name : option string;
  uo_description : option string;
  uo_logoUrl : option string
}.

Definition organization_with_data (o : Organization) (body : UpdateOrganizationBody)
  : Organization :=
  mkOrganization (org_id o)
    (match uo_name body with Some v => v | None => org_name o end)
    (match uo_description body with Some v => Some v | None => org_description o end)
    (match uo_logoUrl body with Some v => Some v | None => org_logoUrl o end)
    (org_adminUserId o).

Section UpdateOrganization.
Variable isUrl : string -> bool.

Definition updateOrganizationSchema_parse (body : UpdateOrganizationBody) : bool :=
  match uo_name body with Some n => negb (n =? "") | None => true end
  && match uo_logoUrl body with Some u => isUrl u | None => true end.

(** PUT /organizations/:id: [authenticate], [checkIsAdmin], handler. *)
Definition updateOrganization (db : Db) (userId id : string)
    (body : UpdateOrganizationBody) : Db * Response Organization :=
  match checkIsAdmin db (authenticated userId None None) with
  | Reply status error => (db, Error status error)
  | Next _ =>
      if negb (updateOrganizationSchema_parse body) then (db, ZodError)
      else
        match organization_findUnique db id with
        | None => (db, internalError)
        | Some o =>
            (set_organizations db
               (map (fun x => if org_id x =? id
                              then organization_with_data x body else x)
                    (organizations db)),
             Json 200 (organization_with_data o body))
        end
  end.
End UpdateOrganization.

(* ================================================================== *)
(** ** Users (routes/users.ts) *)

Definition set_users (db : Db) (us : list User) : Db :=
  mkDb us (organizations db) (roles db) (userRoles db) (committees db)
       (permissions db) (tasks db) (assignments db) (comments db).

Definition user_findUnique (db : Db) (id : string) : option User :=
  find (fun u => user_id u =? id) (users db).

(** [prisma.user.update({ where: { id }, data })]: throws when no row has
    the id; the email, the column of the unique index, is not written. *)
Definition user_update (db : Db) (id : string) (f : User -> User)
  : option (Db * User) :=
  match user_findUnique db id with
  | None => None
  | Some u =>
      Some (set_users db
              (map (fun x => if user_id x =? id then f x else x) (users db)),
            f u)
  end.

Definition set_name (name : option string) (u : User) : User :=
  mkUser (user_id u) (user_email u)
         (match name with Some n => n | None => user_name u end)
         (user_isActive u).

Definition set_isActive (b : bool) (u : User) : User :=
  mkUser (user_id u) (user_email u) (user_name u) b.

(** PUT /users/:id, with the optional [name] of the body. *)
Definition updateUser (db : Db) (userId id : string) (name : option string)
  : Db * Response User :=
  if match name with Some n => n =? "" | None => false end then (db, ZodError)
  else
    let isAdmin := organization_findFirst_admin db userId in
    if negb (isSome isAdmin) && negb (id =? userId) then
      (db, Error 403 "You can only update your own profile")
    else
      match user_update db id (set_name name) with
      | Some (db', user) => (db', Json 200 user)
      | None => (db, internalError)
      end.

(** POST /users/:id/deactivate and POST /users/:id/activate:
    [authenticate], [checkIsAdmin], handler. *)
Definition setUserActive (active : bool) (db : Db) (userId id : string)
  : Db * Response User :=
  match checkIsAdmin db (authenticated userId None None) with
  | Reply status error => (db, Error status error)
  | Next _ =>
      match user_update db id (set_isActive active) with
      | Some (db', user) => (db', Json 200 user)
      | None => (db, internalError)
      end
  end.

Definition deactivateUser : Db -> string -> string -> Db * Response User :=
  setUserActive false.

Definition activateUser : Db -> string -> string -> Db * Response User :=
  setUserActive true.

(** An entry of the answer of GET /users. *)
Record UserListItem : Type := mkUserListItem {
  uli_user : User;
  uli_roles : list Role;
  uli_isAdmin : bool
}.

(** The [Map] of GET /users, keyed by user id, in insertion order:
    [usersMap.has], and the [set] followed by [roles.push] of the loop. *)
Definition usersMap_has (m : list UserListItem) (id : string) : bool :=
  existsb (fun e => user_id (uli_user e) =? id) m.

Definition usersMap_push (m : list UserListItem) (u : User) (r : Role)
  : list UserListItem :=
  let m' := if usersMap_has m (user_id u) then m
            else (m ++ [mkUserListItem u [] false])%list in
  map (fun e => if user_id (uli_user e) =? user_id u
                then mkUserListItem (uli_user e) (uli_roles e ++ [r])%list
                                    (uli_isAdmin e)
                else e)
      m'.

(** [where: { role: { organizationId } }] on a [user_roles] row. *)
Definition role_in_organization (db : Db) (organizationId : string)
    (ur : UserRole) : bool :=
  match role_findUnique db (ur_roleId ur) with
  | Some r => role_organizationId r =? organizationId
  | None => false
  end.

(** [userRole.findMany({ where: { role: { organizationId } },
                          include: { user, role } })]: the rows whose role
    belongs to the organization, in the order of the database, each with
    its user and role.  [None] is the ORM throwing on a row without its
    user, which the foreign key rules out. *)
Definition userRole_findMany_organization (o : RowOrder) (db : Db)
    (organizationId : string) : option (list (User * Role)) :=
  fold_right
    (fun ur acc =>
       match role_findUnique db (ur_roleId ur),
             user_findUnique db (ur_userId ur), acc with
       | Some r, Some u, Some rows => Some ((u, r) :: rows)
       | _, _, _ => None
       end)
    (Some [])
    (ordered_userRoles o
       (filter (role_in_organization db organizationId) (userRoles db))).

(** GET /users: [authenticate], [checkIsAdmin], handler. *)
Definition getUsers (o : RowOrder) (db : Db) (userId : string)
  : Response (list UserListItem) :=
  match checkIsAdmin db (authenticated userId None None) with
  | Reply status error => Error status error
  | Next _ =>
      match organization_findFirst_admin db userId with
      | None => Error 404 "Organization not found"
      | Some organization =>
          match userRole_findMany_organization o db (org_id organization) with
          | None => internalError
          | Some usersWithRoles =>
              let usersMap :=
                fold_left (fun m ur => usersMap_push m (fst ur) (snd ur))
                          usersWithRoles [] in
              match user_findUnique db userId with
              | Some adminUser =>
                  if negb (usersMap_has usersMap (user_id adminUser)) then
                    Json 200 (usersMap ++ [mkUserListItem adminUser [] true])%list
                  else Json 200 usersMap
              | None => Json 200 usersMap
              end
          end
      end
  end.

(* ================================================================== *)
(** ** The board of the client (components/committees/KanbanBoard.tsx,
       pages/CommitteePage.tsx) *)

(** [getTasksByStatus]: the tasks of a status, sorted by position; the
    sort of the language is stable. *)
Definition getTasksByStatus (tasks : list Task) (status : TaskStatus) : list Task :=
  orderBy task_position_asc
    (filter (fun task => TaskStatus_eqb (task_status task) status) tasks).


(** [toggleAssignee]: [prev.includes(userId) ? prev.filter(...) : [...prev, userId]]. *)
Definition toggleAssignee (prev : list string) (userId : string) : list string :=
  if existsb (String.eqb userId) prev
  then filter (fun id => negb (id =? userId)) prev
  else (prev ++ [userId])%list.

(** The body that [handleCreateTask] posts: no [dueDate], and no
    [assigneeIds] when nobody is selected. *)
Definition handleCreateTask_body (title description committeeId : string)
    (selectedAssignees : list string) : CreateTaskBody :=
  mkCreateTaskBody title (Some description) (Some committeeId) None
    (if Nat.ltb 0 (List.length selectedAssignees) then Some selectedAssignees
     else None).

(* ================================================================== *)
(** ** Vocabulary of the further properties *)

(** The place of a status in the text order of the column [status]:
    'DONE' < 'IN_PROGRESS' < 'TODO'. *)
Definition status_rank (s : TaskStatus) : nat :=
  match s with DONE => 0 | IN_PROGRESS => 1 | TODO => 2 end.

(** [a] may stand before [b] in the listing of a committee. *)
Definition listing_before (a b : Task) : Prop :=
  status_rank (task_status a) < status_rank (task_status b)
  \/ (task_status a = task_status b /\ (task_position a <= task_position b)%Z).

(** The answer of a route that looks the task up before it checks the
    caller, to a caller whom the check refuses with [refusal]. *)
Definition refusal_after_lookup {A} (db : Db) (id refusal : string)
  : Response A :=
  match task_findUnique_with_committee db id with
  | TaskFound _ _ => Error 403 refusal
  | TaskMissing => Error 404 "Task not found"
  | TaskInconsistent => internalError
  end.

(** [user_exists] as a reference to the table of users. *)
Definition is_user (db : Db) (id : string) : Prop :=
  In id (map user_id (users db)).

(** The constraints of migration.sql on the rows of this model, and three
    rules that the handlers add to them.

    - The primary keys of the five tables whose id is a column of the
      model, and the six unique indexes.
    - The thirteen foreign keys.
    - No permission row has the level NONE, no user administers two
      organizations, and every stored position is an [Int]. *)
Record Consistent (db : Db) : Prop := mkConsistent {
  (* primary keys *)
  cons_user_ids : NoDup (map user_id (users db));
  cons_organization_ids : NoDup (map org_id (organizations db));
  cons_role_ids : NoDup (map role_id (roles db));
  cons_committee_ids : NoDup (map committee_id (committees db));
  cons_task_ids : NoDup (map task_id (tasks db));
  (* unique indexes *)
  cons_users_email : NoDup (map user_email (users db));
  cons_roles_name :
    NoDup (map (fun r => (role_organizationId r, role_name r)) (roles db));
  cons_userRoles_unique :
    NoDup (map (fun ur => (ur_userId ur, ur_roleId ur)) (userRoles db));
  cons_committees_name :
    NoDup (map (fun c => (committee_organizationId c, committee_name c))
               (committees db));
  cons_permissions_unique : unique_keys (permissions db) = true;
  cons_assignments_unique : unique_assignments (assignments db) = true;
  (* foreign keys *)
  cons_organization_admin :
    forall x, In x (organizations db) -> is_user db (org_adminUserId x);
  cons_role_organization :
    forall r, In r (roles db) ->
              In (role_organizationId r) (map org_id (organizations db));
  cons_userRole_user :
    forall ur, In ur (userRoles db) -> is_user db (ur_userId ur);
  cons_userRole_role :
    forall ur, In ur (userRoles db) -> In (ur_roleId ur) (map role_id (roles db));
  cons_committee_organization :
    forall c, In c (committees db) ->
              In (committee_organizationId c) (map org_id (organizations db));
  cons_permission_role :
    forall p, In p (permissions db) ->
              In (rcp_roleId p) (map role_id (roles db));
  cons_permission_committee :
    forall p, In p (permissions db) ->
              In (rcp_committeeId p) (map committee_id (committees db));
  cons_task_committee :
    forall t, In t (tasks db) ->
              In (task_committeeId t) (map committee_id (committees db));
  cons_task_creator :
    forall t, In t (tasks db) -> is_user db (task_createdById t);
  cons_assignment_task :
    forall a, In a (assignments db) -> In (ta_taskId a) (map task_id (tasks db));
  cons_assignment_user :
    forall a, In a (assignments db) -> is_user db (ta_userId a);
  cons_comment_task :
    forall c, In c (comments db) -> In (comment_taskId c) (map task_id (tasks db));
  cons_comment_user :
    forall c, In c (comments db) -> is_user db (comment_userId c);
  (* rules of the handlers *)
  cons_permissions_levels : no_NONE_rows (permissions db);
  cons_one_organization : one_organization_per_admin db;
  cons_positions : forall t, In t (tasks db) -> fitsInt (task_position t) = true
}.

(** The requests that write to the store, with the id that the ORM draws
    where a row is created.  The registration of users is not among the
    sources: the table of users only changes in names and flags. *)
Inductive Request : Type :=
| CreateOrganization (newId userId : string) (body : CreateOrganizationBody)
| UpdateOrganization (userId id : string) (body : UpdateOrganizationBody)
| CreateRole (newId userId : string) (body : CreateNamedBody)
| UpdateRole (userId id : string) (body : UpdateNamedBody)
| DeleteRole (userId id : string)
| AssignRole (userId target roleId : string)
| RemoveRole (userId target roleId : string)
| SetPermissions (userId : string) (body : SetPermissionsBody)
| CreateCommittee (newId userId : string) (body : CreateNamedBody)
| UpdateCommittee (userId id : string) (body : UpdateNamedBody)
| DeleteCommittee (userId id : string)
| CreateTask (newId userId : string) (body : CreateTaskBody)
| UpdateTask (userId id : string) (body : UpdateTaskBody)
| UpdateTaskStatus (userId id : string) (body : UpdateTaskStatusBody)
| DeleteTask (userId id : string)
| AddComment (userId id content : string)
| UpdateUser (userId id : string) (name : option string)
| SetUserActive (active : bool) (userId id : string).

Section Serve.
Variable isDatetime : string -> bool.
Variable newDate : string -> string.
Variable isUrl : string -> bool.
Variable o : RowOrder.

(** The store after a request. *)
Definition serve (db : Db) (r : Request) : Db :=
  match r with
  | CreateOrganization newId userId body =>
      fst (createOrganization isUrl db newId userId body)
  | UpdateOrganization userId id body =>
      fst (updateOrganization isUrl db userId id body)
  | CreateRole newId userId body => fst (createRole db newId userId body)
  | UpdateRole userId id body => fst (updateRole o db userId id body)
  | DeleteRole userId id => fst (deleteRole db userId id)
  | AssignRole userId target roleId => fst (assignRole db userId target roleId)
  | RemoveRole userId target roleId => fst (removeRole db userId target roleId)
  | SetPermissions userId body => fst (setPermissions o db userId body)
  | CreateCommittee newId userId body => fst (createCommittee db newId userId body)
  | UpdateCommittee userId id body => fst (updateCommittee db userId id body)
  | DeleteCommittee userId id => fst (deleteCommittee db userId id)
  | CreateTask newId userId body =>
      fst (createTask isDatetime newDate db newId userId body)
  | UpdateTask userId id body =>
      fst (updateTask isDatetime newDate o db userId id body)
  | UpdateTaskStatus userId id body => fst (updateTaskStatus db userId id body)
  | DeleteTask userId id => fst (deleteTask db userId id)
  | AddComment userId id content => fst (addComment db userId id content)
  | UpdateUser userId id name => fst (updateUser db userId id name)
  | SetUserActive active userId id => fst (setUserActive active db userId id)
  end.

(** The store after a sequence of requests. *)
Definition serve_all (db : Db) (rs : list Request) : Db := fold_left serve rs db.
End Serve.

(** A store that holds, beside the rows of [db_events], a user without a
    role: walt. *)
Definition db_with_guest : Db :=
  set_users db_events
    (users db_events ++ [mkUser "walt" "walt@university.edu" "Walt" true])%list.
(* ================================================================== *)
(** * Properties *)

Unset Implicit Arguments.
Local Open Scope list_scope.

(** ** The handlers on the sample stores *)

Example jane_leads_events :
  highestPermission db_events "jane" "events" = LEADER
  /\ highestPermission db_events "jane" "marketing" = MEMBER
  /\ highestPermission db_events "bob" "marketing" = NONE.
Proof. repeat split. Qed.

Example listing_of_events :
  getCommitteeTasks db_events "bob" "events"
  = Json 200 [mkTask "t3" "Send invites" None DONE "events" "jane" None 1;
              mkTask "t1" "Book venue" None TODO "events" "jane" None 0;
              mkTask "t2" "Print flyers" None TODO "events" "jane" None 4].
Proof. reflexivity. Qed.

Example last_todo_of_events :
  option_map task_id (task_findFirst_last_todo db_events "events") = Some "t2".
Proof. reflexivity. Qed.

Example duplicate_entries_are_refused :
  setPermissions insertion_order db_events "admin1"
    (mkSetPermissionsBody "member"
       [mkPermissionEntry "events" "MEMBER"; mkPermissionEntry "events" "LEADER"])
  = (permission_deleteMany db_events "member", internalError).
Proof. reflexivity. Qed.

Example unauthenticated_and_malformed_requests :
  checkCommitteePermission (Level MEMBER) db_events
    (mkRequest None (Some "events") None None None) = Reply 401 "Unauthorized"
  /\ checkCommitteePermission (Level LEADER) db_events
       (authenticated "jane" None None) = Reply 400 "Committee ID required".
Proof. split; reflexivity. Qed.

(** ** Levels *)

Lemma PermissionLevel_eqb_eq (a b : PermissionLevel) :
  PermissionLevel_eqb a b = true <-> a = b.
Proof. destruct a, b; simpl; split; congruence. Qed.

Lemma TaskStatus_eqb_eq (a b : TaskStatus) :
  TaskStatus_eqb a b = true <-> a = b.
Proof. destruct a, b; simpl; split; congruence. Qed.

Lemma TaskStatus_eqb_refl (a : TaskStatus) : TaskStatus_eqb a a = true.
Proof. now destruct a. Qed.

Lemma parseTaskStatus_to_string (s : TaskStatus) :
  parseTaskStatus (TaskStatus_to_string s) = Some s.
Proof. now destruct s. Qed.

Lemma level_max_assoc (a b c : PermissionLevel) :
  level_max a (level_max b c) = level_max (level_max a b) c.
Proof. now destruct a, b, c. Qed.

Lemma level_max_NONE_r (a : PermissionLevel) : level_max a NONE = a.
Proof. now destruct a. Qed.

Lemma level_max_LEADER_l (a : PermissionLevel) : level_max LEADER a = LEADER.
Proof. now destruct a. Qed.

Lemma max_level_app (l1 l2 : list PermissionLevel) :
  max_level (l1 ++ l2) = level_max (max_level l1) (max_level l2).
Proof.
  induction l1 as [|a l1 IH]; simpl.
  - now destruct (max_level l2).
  - fold (max_level (l1 ++ l2)). fold (max_level l1).
    now rewrite IH, level_max_assoc.
Qed.

Lemma max_level_LEADER (l : list PermissionLevel) :
  In LEADER l -> max_level l = LEADER.
Proof.
  induction l as [|a l IH]; simpl; [tauto|].
  intros [->|H].
  - apply level_max_LEADER_l.
  - fold (max_level l). rewrite (IH H). now destruct a.
Qed.

Lemma max_level_NONE (l : list PermissionLevel) :
  max_level l = NONE <-> Forall (fun x => x = NONE) l.
Proof.
  induction l as [|a l IH]; simpl.
  - split; auto.
  - fold (max_level l). split.
    + intros H. constructor.
      * destruct a, (max_level l); cbv in H; congruence.
      * apply IH. destruct a, (max_level l); cbv in H; congruence.
    + intros H. inversion H; subst. apply IH in H3. now rewrite H3.
Qed.

(** ** The scan of the resolver *)

Lemma scanPermissions_max perms h :
  scanPermissions perms h = level_max h (max_level (levels perms)).
Proof.
  revert h. induction perms as [|p perms IH]; intros h; simpl.
  - now rewrite level_max_NONE_r.
  - fold (max_level (levels perms)).
    destruct (rcp_permissionLevel p), h; simpl; rewrite ?IH;
      destruct (max_level (levels perms)); reflexivity.
Qed.

Lemma scanPermissions_full_max perms h :
  scanPermissions_full perms h = level_max h (max_level (levels perms)).
Proof.
  revert h. induction perms as [|p perms IH]; intros h; simpl.
  - now rewrite level_max_NONE_r.
  - fold (max_level (levels perms)).
    destruct (rcp_permissionLevel p), h; simpl; rewrite ?IH;
      destruct (max_level (levels perms)); reflexivity.
Qed.

Lemma scanUserRoles_max rows h :
  scanUserRoles rows h = level_max h (max_level (role_levels rows)).
Proof.
  revert h. induction rows as [|ur rows IH]; intros h; simpl.
  - now rewrite level_max_NONE_r.
  - fold (max_level (role_levels rows)).
    rewrite scanPermissions_max.
    destruct (PermissionLevel_eqb _ LEADER) eqn:E.
    + apply PermissionLevel_eqb_eq in E. rewrite level_max_assoc, E.
      now rewrite level_max_LEADER_l.
    + now rewrite IH, level_max_assoc.
Qed.

Lemma scanUserRoles_full_max rows h :
  scanUserRoles_full rows h = level_max h (max_level (role_levels rows)).
Proof.
  revert h. induction rows as [|ur rows IH]; intros h; simpl.
  - now rewrite level_max_NONE_r.
  - fold (max_level (role_levels rows)).
    now rewrite IH, scanPermissions_full_max, level_max_assoc.
Qed.

Lemma level_max_NONE_l (a : PermissionLevel) : level_max NONE a = a.
Proof. now destruct a. Qed.

Lemma highestPermission_max db u c :
  highestPermission db u c = max_level (role_levels (userRole_findMany db u c)).
Proof.
  unfold highestPermission. now rewrite scanUserRoles_max, level_max_NONE_l.
Qed.

(** The early exits do not change the result of the scan. *)
Lemma scan_break_irrelevant rows h :
  scanUserRoles rows h = scanUserRoles_full rows h.
Proof. now rewrite scanUserRoles_max, scanUserRoles_full_max. Qed.

(** ** One row per role and committee *)

Lemma row_for_spec r c p :
  row_for r c p = true <-> rcp_roleId p = r /\ rcp_committeeId p = c.
Proof.
  unfold row_for. rewrite andb_true_iff, !String.eqb_eq. tauto.
Qed.

Lemma no_other_row p l r c :
  existsb (same_key p) l = false -> row_for r c p = true ->
  filter (row_for r c) l = [].
Proof.
  intros Hex Hp. apply row_for_spec in Hp as [<- <-].
  induction l as [|q l IH]; simpl in *; [reflexivity|].
  apply orb_false_iff in Hex as [Hq Hl].
  destruct (row_for _ _ q) eqn:E; [|auto].
  apply row_for_spec in E as [E1 E2].
  unfold same_key in Hq. now rewrite E1, E2, !String.eqb_refl in Hq.
Qed.

Lemma unique_row_is_found l r c :
  unique_keys l = true ->
  max_level (levels (filter (row_for r c) l))
  = match find (row_for r c) l with
    | Some p => rcp_permissionLevel p
    | None => NONE
    end.
Proof.
  induction l as [|p l IH]; simpl; [reflexivity|].
  intros H. apply andb_true_iff in H as [Hp Hl].
  apply negb_true_iff in Hp.
  destruct (row_for r c p) eqn:E; [|auto].
  rewrite (no_other_row _ _ _ _ Hp E). simpl. apply level_max_NONE_r.
Qed.

Lemma role_levels_findMany db u c :
  role_levels (userRole_findMany db u c)
  = map (fun r => max_level (levels (role_permissions_where db r c)))
        (rolesOf db u).
Proof.
  unfold role_levels, userRole_findMany, rolesOf.
  now rewrite !map_map.
Qed.

Lemma highestPermission_max_over_roles db u c :
  unique_keys (permissions db) = true ->
  highestPermission db u c = max_over_roles db u c.
Proof.
  intros Huniq. rewrite highestPermission_max, role_levels_findMany.
  unfold max_over_roles. f_equal. apply map_ext. intros r.
  apply (unique_row_is_found _ r c Huniq).
Qed.

(** What the middleware writes into [req.userPermission] when it lets a
    request with a level requirement through. *)
Lemma checkCommitteePermission_userPermission lvl db u c req' :
  checkCommitteePermission (Level lvl) db (authenticated u (Some c) None)
    = Next req' ->
  req_userPermission req' = Some (highestPermission db u c).
Proof.
  unfold checkCommitteePermission, authenticated; simpl.
  destruct (truthy_value (Some u)) as [u'|] eqn:Eu; [|discriminate].
  unfold truthy_value in Eu. destruct (truthy (Some u)); [|discriminate].
  injection Eu as <-.
  unfold js_or. destruct (truthy (Some c)) eqn:Ec; simpl.
  - unfold truthy_value. rewrite Ec. rewrite andb_false_r.
    destruct lvl; simpl.
    + intros [= <-]. reflexivity.
    + destruct (_ && _); [discriminate|]. intros [= <-]. reflexivity.
    + destruct (negb _); [discriminate|]. intros [= <-]. reflexivity.
  - discriminate.
Qed.

(** C2. For every user and committee the level that the resolver computes
    from the user's roles is the maximum, in the order NONE < MEMBER <
    LEADER, of the levels that the roles' rows grant on the committee, a
    role without a row counting as NONE.  The scan with its early exits
    returns what the scan of all rows returns, a user with MEMBER by one
    role and LEADER by another is LEADER, and this level is what the
    middleware stores in the request and what GET /committees/:id reports
    to a user who is not the administrator.  The store has at most one row
    per role and committee (the unique index of the schema). *)
Theorem C2_resolver_takes_maximum_over_roles :
  forall (db : Db) (userId committeeId : string),
    unique_keys (permissions db) = true ->
    highestPermission db userId committeeId
      = max_level (map (fun r => rolePermission db r committeeId)
                       (rolesOf db userId))
    /\ highestPermission db userId committeeId
       = scanUserRoles_full (userRole_findMany db userId committeeId) NONE
    /\ (forall r1 r2,
          In r1 (rolesOf db userId) -> In r2 (rolesOf db userId) ->
          rolePermission db r1 committeeId = MEMBER ->
          rolePermission db r2 committeeId = LEADER ->
          highestPermission db userId committeeId = LEADER)
    /\ (forall lvl req',
          checkCommitteePermission (Level lvl) db
            (authenticated userId (Some committeeId) None) = Next req' ->
          req_userPermission req'
          = Some (max_level (map (fun r => rolePermission db r committeeId)
                                 (rolesOf db userId))))
    /\ (forall committee view,
          committee_findUnique db committeeId = Some committee ->
          organization_findFirst_id_admin db
            (committee_organizationId committee) userId = None ->
          getCommittee db userId committeeId = Json 200 view ->
          cv_userPermission view
          = max_level (map (fun r => rolePermission db r committeeId)
                           (rolesOf db userId))).
Proof.
  intros db u c Huniq.
  pose proof (highestPermission_max_over_roles db u c Huniq) as Hmax.
  unfold max_over_roles in Hmax.
  split; [exact Hmax|].
  split; [apply scan_break_irrelevant|].
  split; [|split].
  - intros r1 r2 _ H2 _ HL. rewrite Hmax. apply max_level_LEADER.
    rewrite <- HL. now apply (in_map (fun r => rolePermission db r c)).
  - intros lvl req' H. rewrite <- Hmax.
    eapply checkCommitteePermission_userPermission; eauto.
  - intros committee view Hcom Hadmin. unfold getCommittee.
    rewrite Hcom, Hadmin. simpl. fold (highestPermission db u c).
    destruct (PermissionLevel_eqb _ NONE); [discriminate|].
    intros [= <-]. exact Hmax.
Qed.

Lemma C2_resolver_takes_maximum_over_roles_witness :
  unique_keys (permissions db_events) = true
  /\ highestPermission db_events "jane" "events" = LEADER
  /\ max_level (map (fun r => rolePermission db_events r "events")
                    (rolesOf db_events "jane")) = LEADER.
Proof.
  split; [reflexivity|].
  destruct (C2_resolver_takes_maximum_over_roles db_events "jane" "events"
              eq_refl) as [H _].
  split; [rewrite H|]; reflexivity.
Defined.

(** ** The middleware on a request with a level requirement *)

Lemma truthy_value_nonempty (s : string) :
  s <> "" -> truthy_value (Some s) = Some s.
Proof.
  intros H. unfold truthy_value, truthy.
  destruct (s =? "") eqn:E; [apply String.eqb_eq in E; contradiction|reflexivity].
Qed.

Lemma js_or_params (c : string) (bc : option string) :
  c <> "" -> truthy_value (js_or (Some c) bc) = Some c.
Proof.
  intros H. pose proof (truthy_value_nonempty c H) as Hv.
  unfold js_or. unfold truthy_value in Hv.
  destruct (truthy (Some c)); [|discriminate].
  now apply truthy_value_nonempty.
Qed.

(** Step 4 of the resolver: the request passes when the level found in the
    roles reaches the requirement.  The administrator takes this path too:
    the lookup of the organization matters for the requirement ADMIN only. *)
Lemma checkCommitteePermission_Level lvl db u pc bc c :
  u <> "" ->
  truthy_value (js_or pc bc) = Some c ->
  checkCommitteePermission (Level lvl) db (authenticated u pc bc)
  = if Nat.leb (level_rank lvl) (level_rank (highestPermission db u c))
    then Next (set_userPermission (authenticated u pc bc)
                                  (highestPermission db u c))
    else Reply 403 (insufficient lvl).
Proof.
  intros Hu Hc. unfold checkCommitteePermission.
  change (req_userId (authenticated u pc bc)) with (Some u).
  rewrite (truthy_value_nonempty u Hu).
  change (req_params_committeeId (authenticated u pc bc)) with pc.
  change (req_body_committeeId (authenticated u pc bc)) with bc.
  rewrite Hc, andb_false_r.
  destruct lvl, (highestPermission db u c); reflexivity.
Qed.

Lemma no_roles_no_rows db u c :
  rolesOf db u = [] -> userRole_findMany db u c = [].
Proof.
  unfold rolesOf, userRole_findMany. intros H.
  apply map_eq_nil in H. now rewrite H.
Qed.

Lemma no_roles_NONE db u c :
  rolesOf db u = [] -> highestPermission db u c = NONE.
Proof.
  intros H. unfold highestPermission. now rewrite (no_roles_no_rows db u c H).
Qed.

Lemma not_admin_of_any db u o :
  organization_findFirst_admin db u = None ->
  organization_findFirst_id_admin db o u = None.
Proof.
  unfold organization_findFirst_admin, organization_findFirst_id_admin.
  induction (organizations db) as [|x l IH]; simpl; [reflexivity|].
  destruct (org_adminUserId x =? u); [discriminate|].
  now rewrite andb_false_r.
Qed.

(** ** Callers without roles *)

Lemma no_roles_no_access db u task committee :
  rolesOf db u = [] ->
  organization_findFirst_admin db u = None ->
  hasAccess db u task committee = false /\ isLeader db u task committee = false.
Proof.
  intros Hr Ha. unfold hasAccess, isLeader.
  rewrite (not_admin_of_any db u _ Ha). simpl.
  now rewrite (no_roles_no_rows db u _ Hr).
Qed.


(** ** The administrator *)

(** The handlers that write the check out (GET /committees/:id, GET
    /tasks/:id, PATCH /tasks/:id/status, POST /tasks/:id/comments, DELETE
    /tasks/:id) let the administrator of the owning organization through
    without looking at the roles. *)
Lemma admin_passes_inline_checks db u task committee o :
  organization_findFirst_id_admin db (committee_organizationId committee) u
    = Some o ->
  hasAccess db u task committee = true
  /\ isLeader db u task committee = true
  /\ resolve db u committee = LEADER.
Proof.
  intros H. unfold hasAccess, isLeader, resolve. now rewrite H.
Qed.

(** In those handlers the administrator of another organization is no
    administrator of the committee. *)
Lemma foreign_admin_is_not_admin db u orgId :
  (forall o, In o (organizations db) -> org_adminUserId o = u ->
             org_id o <> orgId) ->
  organization_findFirst_id_admin db orgId u = None.
Proof.
  unfold organization_findFirst_id_admin.
  induction (organizations db) as [|x l IH]; simpl; intros H; [reflexivity|].
  destruct (org_id x =? orgId) eqn:E1; destruct (org_adminUserId x =? u) eqn:E2;
    simpl; try (apply IH; intros o Ho; apply H; now right).
  apply String.eqb_eq in E1, E2. exfalso. exact (H x (or_introl eq_refl) E2 E1).
Qed.

(** C1. The administrator of the organization that owns committee c1, who
    holds no role, is turned away by the middleware: listing the tasks of
    c1 (requirement MEMBER) and creating a task in c1 (requirement LEADER)
    both answer 403, while the handlers that write the check out grant the
    same user LEADER on the same committee. *)
Theorem C1_admin_is_rejected_by_the_middleware :
  organization_findFirst_id_admin db_admin_without_roles "o1" "admin1"
    = Some (mkOrganization "o1" "Student Council" None None "admin1")
  /\ getCommitteeTasks db_admin_without_roles "admin1" "c1"
     = Error 403 "Insufficient permissions. Member access required."
  /\ createTask alwaysValid asWritten db_admin_without_roles "t2" "admin1"
       (mkCreateTaskBody "Order food" None (Some "c1") None None)
     = (db_admin_without_roles,
        Error 403 "Insufficient permissions. Leader access required.")
  /\ status_of (getCommittee db_admin_without_roles "admin1" "c1") = 200
  /\ status_of (snd (updateTaskStatus db_admin_without_roles "admin1" "t1"
                       (mkUpdateTaskStatusBody "DONE" None))) = 200.
Proof. repeat split; reflexivity. Qed.

(** C3. The administrator of organization o1 passes the administrator
    checks of the middleware on a committee of organization o2:
    [checkIsAdmin] lets the deletion of that committee through, which
    removes the committee with its tasks and permission rows, and
    [checkCommitteePermission('ADMIN')] calls [next()]; the handlers that
    write the check out deny the same user. *)
Theorem C3_foreign_admin_passes_the_middleware :
  organization_findFirst_id_admin db_two_organizations "o2" "admin1" = None
  /\ checkCommitteePermission ADMIN db_two_organizations
       (authenticated "admin1" (Some "c2") None)
     = Next (set_isAdmin (authenticated "admin1" (Some "c2") None))
  /\ snd (deleteCommittee db_two_organizations "admin1" "c2")
     = Json 200 "Committee deleted successfully"
  /\ committees (fst (deleteCommittee db_two_organizations "admin1" "c2"))
     = [mkCommittee "c1" "Events" "o1"]
  /\ tasks (fst (deleteCommittee db_two_organizations "admin1" "c2")) = []
  /\ permissions (fst (deleteCommittee db_two_organizations "admin1" "c2")) = []
  /\ getTask db_two_organizations "admin1" "t2" = Error 403 "Access denied".
Proof. repeat split; reflexivity. Qed.

(** ** Setting the permissions of a role *)

Section SetPermissions.
Variable roleId : string.

Let other (p : RoleCommitteePermission) : bool := negb (rcp_roleId p =? roleId).
Let own (p : RoleCommitteePermission) : bool := rcp_roleId p =? roleId.

Lemma filter_other_idem (l : list RoleCommitteePermission) :
  filter other (filter other l) = filter other l.
Proof.
  induction l as [|p l IH]; simpl; [reflexivity|].
  destruct (other p) eqn:E; simpl; [rewrite E|]; now rewrite ?IH.
Qed.

Lemma filter_other_own (l : list RoleCommitteePermission) :
  Forall (fun p => rcp_roleId p = roleId) l -> filter other l = [].
Proof.
  induction 1 as [|p l Hp _ IH]; simpl; [reflexivity|].
  unfold other at 1. now rewrite Hp, String.eqb_refl.
Qed.

Lemma filter_own_other (l : list RoleCommitteePermission) :
  filter own (filter other l) = [].
Proof.
  induction l as [|p l IH]; simpl; [reflexivity|].
  unfold other at 1. destruct (rcp_roleId p =? roleId) eqn:E; simpl; [exact IH|].
  unfold own at 1. now rewrite E.
Qed.

Lemma filter_own_own (l : list RoleCommitteePermission) :
  Forall (fun p => rcp_roleId p = roleId) l -> filter own l = l.
Proof.
  induction 1 as [|p l Hp _ IH]; simpl; [reflexivity|].
  unfold own at 1. now rewrite Hp, String.eqb_refl, IH.
Qed.

Lemma permission_deleteMany_idem db :
  permission_deleteMany (permission_deleteMany db roleId) roleId
  = permission_deleteMany db roleId.
Proof.
  unfold permission_deleteMany, set_permissions; simpl.
  f_equal. apply filter_other_idem.
Qed.

(** Deleting the rows of the role again after a successful insert of
    rows of that role gives back the store of before the insert. *)
Lemma permission_deleteMany_createMany db data db2 :
  Forall (fun p => rcp_roleId p = roleId) data ->
  permission_createMany (permission_deleteMany db roleId) data = Some db2 ->
  permission_deleteMany db2 roleId = permission_deleteMany db roleId.
Proof.
  intros Hown. unfold permission_createMany.
  destruct (_ && _); [|discriminate]. intros [= <-].
  unfold permission_deleteMany, set_permissions; simpl.
  f_equal. rewrite filter_app.
  fold other. rewrite filter_other_idem, (filter_other_own data Hown).
  apply app_nil_r.
Qed.
End SetPermissions.

(** The rows that the handler inserts for the entries of the request. *)
Lemma permissionsToCreate_own roleId (perms : list (string * PermissionLevel)) :
  Forall (fun p => rcp_roleId p = roleId)
         (map (fun p => mkPermission roleId (fst p) (snd p)) perms).
Proof. induction perms; simpl; constructor; auto. Qed.

Lemma permissionsToCreate_not_NONE roleId (perms : list (string * PermissionLevel)) :
  no_NONE_rows
    (map (fun p => mkPermission roleId (fst p) (snd p))
         (filter (fun p => negb (PermissionLevel_eqb (snd p) NONE)) perms)).
Proof.
  unfold no_NONE_rows.
  induction perms as [|[c l] perms IH]; simpl; [constructor|].
  destruct l; simpl; auto; constructor; simpl; auto; discriminate.
Qed.

(** The handler reads the store only through the rows of the other roles. *)
Lemma setPermissions_handler_after_delete o db db' body roleId perms :
  setPermissionsSchema_parse body = Some (roleId, perms) ->
  permission_deleteMany db' roleId = permission_deleteMany db roleId ->
  setPermissions_handler o db' body = setPermissions_handler o db body.
Proof.
  intros Hparse Hdel. unfold setPermissions_handler.
  now rewrite Hparse, Hdel.
Qed.

Lemma setPermissions_handler_delete_again o db body roleId perms :
  setPermissionsSchema_parse body = Some (roleId, perms) ->
  permission_deleteMany (fst (setPermissions_handler o db body)) roleId
  = permission_deleteMany db roleId.
Proof.
  intros Hparse. unfold setPermissions_handler. rewrite Hparse.
  set (data := map _ _).
  destruct (Nat.ltb 0 (List.length data)).
  - destruct (permission_createMany _ data) as [db2|] eqn:E; simpl.
    + apply (permission_deleteMany_createMany roleId db data db2); [|exact E].
      apply permissionsToCreate_own.
    + apply permission_deleteMany_idem.
  - simpl. apply permission_deleteMany_idem.
Qed.

Lemma setPermissions_handler_idempotent o db body :
  setPermissions_handler o (fst (setPermissions_handler o db body)) body
  = setPermissions_handler o db body.
Proof.
  destruct (setPermissionsSchema_parse body) as [[roleId perms]|] eqn:Hparse.
  - apply (setPermissions_handler_after_delete o _ _ body roleId perms Hparse).
    now apply setPermissions_handler_delete_again with (perms := perms).
  - unfold setPermissions_handler. now rewrite Hparse.
Qed.

Lemma setPermissions_handler_organizations o db body :
  organizations (fst (setPermissions_handler o db body)) = organizations db.
Proof.
  unfold setPermissions_handler.
  destruct (setPermissionsSchema_parse body) as [[roleId perms]|]; [|reflexivity].
  set (data := map _ _).
  destruct (Nat.ltb 0 (List.length data)); [|reflexivity].
  unfold permission_createMany.
  destruct (_ && _); reflexivity.
Qed.

Lemma checkIsAdmin_organizations db db' req :
  organizations db' = organizations db ->
  checkIsAdmin db' req = checkIsAdmin db req.
Proof.
  intros H. unfold checkIsAdmin, organization_findFirst_admin. now rewrite H.
Qed.

Lemma checkIsAdmin_Reply db req status error :
  checkIsAdmin db req = Reply status error -> status <> 200.
Proof.
  unfold checkIsAdmin.
  destruct (truthy_value _); [destruct (organization_findFirst_admin _ _)|];
    intros [= <- _]; discriminate.
Qed.

Lemma setPermissions_idempotent o db u body :
  setPermissions o (fst (setPermissions o db u body)) u body = setPermissions o db u body.
Proof.
  unfold setPermissions.
  destruct (checkIsAdmin db _) as [req|status error] eqn:E; simpl.
  - rewrite (checkIsAdmin_organizations db _ _
               (setPermissions_handler_organizations o db body)), E.
    apply setPermissions_handler_idempotent.
  - now rewrite E.
Qed.

Lemma existsb_filter_weaken {A} (g f : A -> bool) (l : list A) :
  existsb g (filter f l) = true -> existsb g l = true.
Proof.
  rewrite !existsb_exists. intros [x [Hin Hg]].
  apply filter_In in Hin as [Hin _]. eauto.
Qed.

Lemma unique_keys_filter f l :
  unique_keys l = true -> unique_keys (filter f l) = true.
Proof.
  induction l as [|p l IH]; simpl; [reflexivity|].
  intros H. apply andb_true_iff in H as [Hp Hl].
  destruct (f p); simpl; [|auto].
  rewrite (IH Hl), andb_true_r.
  apply negb_true_iff in Hp. apply negb_true_iff.
  destruct (existsb (same_key p) (filter f l)) eqn:E; [|reflexivity].
  apply existsb_filter_weaken in E. congruence.
Qed.

Lemma no_NONE_rows_filter f l :
  no_NONE_rows l -> no_NONE_rows (filter f l).
Proof.
  unfold no_NONE_rows. rewrite !Forall_forall.
  intros H p Hin. apply filter_In in Hin as [Hin _]. auto.
Qed.

(** The permission table after the handler: either the table of the
    request's start (validation failed), or the rows of the other roles,
    alone or followed by the rows made from the request. *)
Lemma setPermissions_handler_rows o db body :
  (setPermissionsSchema_parse body = None
   /\ setPermissions_handler o db body = (db, ZodError))
  \/ exists roleId perms,
       setPermissionsSchema_parse body = Some (roleId, perms)
       /\ let kept := filter (fun p => negb (rcp_roleId p =? roleId))
                             (permissions db) in
          let data := map (fun p => mkPermission roleId (fst p) (snd p))
                          (filter (fun p => negb (PermissionLevel_eqb (snd p) NONE))
                                  perms) in
          (permissions (fst (setPermissions_handler o db body)) = kept
           /\ (status_of (snd (setPermissions_handler o db body)) = 200 -> data = []))
          \/ (permissions (fst (setPermissions_handler o db body)) = kept ++ data
              /\ unique_keys (kept ++ data) = true).
Proof.
  unfold setPermissions_handler.
  destruct (setPermissionsSchema_parse body) as [[roleId perms]|];
    [right; exists roleId, perms; split; [reflexivity|] | now left].
  cbv zeta. set (data := map _ _).
  destruct data as [|d data'] eqn:Edata.
  - simpl. left. split; [reflexivity|auto].
  - rewrite <- Edata. replace (Nat.ltb 0 (List.length data)) with true
      by (now rewrite Edata).
    unfold permission_createMany.
    destruct (forallb _ data); simpl.
    + destruct (unique_keys _) eqn:U; simpl.
      * right. split; reflexivity.
      * left. split; [reflexivity|discriminate].
    + left. split; [reflexivity|discriminate].
Qed.

(** C5. Setting the permissions of a role twice with one request leaves
    the store, and the answer, of setting them once.  A store with at most
    one row per role and committee and without rows of level NONE is again
    such a store afterwards, and after an accepted request the rows of the
    role are the entries of the request whose level is not NONE, in the
    order of the request. *)
Theorem C5_setPermissions_is_idempotent :
  forall (o : RowOrder) (db : Db) (userId : string) (body : SetPermissionsBody),
    unique_keys (permissions db) = true ->
    no_NONE_rows (permissions db) ->
    setPermissions o (fst (setPermissions o db userId body)) userId body
      = setPermissions o db userId body
    /\ unique_keys (permissions (fst (setPermissions o db userId body))) = true
    /\ no_NONE_rows (permissions (fst (setPermissions o db userId body)))
    /\ (forall roleId perms,
          setPermissionsSchema_parse body = Some (roleId, perms) ->
          status_of (snd (setPermissions o db userId body)) = 200 ->
          filter (fun p => rcp_roleId p =? roleId)
                 (permissions (fst (setPermissions o db userId body)))
          = map (fun e => mkPermission roleId (fst e) (snd e))
                (filter (fun e => negb (PermissionLevel_eqb (snd e) NONE)) perms)).
Proof.
  intros o db u body Huniq Hnone.
  split; [apply setPermissions_idempotent|].
  unfold setPermissions.
  destruct (checkIsAdmin db _) as [req|status error] eqn:Eadmin; simpl.
  2:{ repeat split; auto. intros roleId perms _ H.
      now destruct (checkIsAdmin_Reply _ _ _ _ Eadmin H). }
  destruct (setPermissions_handler_rows o db body)
    as [[Hparse Heq]|[roleId [perms [Hparse Hrows]]]].
  - rewrite Heq; simpl. repeat split; auto.
    intros r ps H. congruence.
  - cbv zeta in Hrows.
    destruct Hrows as [[Hp Hempty]|[Hp Hu]]; rewrite Hp.
    + split; [now apply unique_keys_filter|].
      split; [now apply no_NONE_rows_filter|].
      intros r ps H Hst. assert (r = roleId /\ ps = perms) as [-> ->]
        by (split; congruence).
      rewrite (Hempty Hst). apply filter_own_other.
    + split; [exact Hu|].
      split.
      * unfold no_NONE_rows. apply Forall_app. split.
        -- now apply no_NONE_rows_filter.
        -- apply permissionsToCreate_not_NONE.
      * intros r ps H _. assert (r = roleId /\ ps = perms) as [-> ->]
          by (split; congruence).
        rewrite filter_app, filter_own_other, filter_own_own; [reflexivity|].
        apply permissionsToCreate_own.
Qed.

Lemma C5_setPermissions_is_idempotent_witness :
  let body := mkSetPermissionsBody "member"
                [mkPermissionEntry "events" "LEADER";
                 mkPermissionEntry "marketing" "NONE"] in
  unique_keys (permissions db_events) = true
  /\ no_NONE_rows (permissions db_events)
  /\ setPermissions reverse_order
       (fst (setPermissions reverse_order db_events "admin1" body)) "admin1" body
     = setPermissions reverse_order db_events "admin1" body
  /\ permissions (fst (setPermissions reverse_order db_events "admin1" body))
     = [mkPermission "chair" "events" LEADER;
        mkPermission "chair" "marketing" MEMBER;
        mkPermission "member" "events" LEADER].
Proof.
  intros body.
  assert (Hnone : no_NONE_rows (permissions db_events))
    by (repeat constructor; discriminate).
  split; [reflexivity|]. split; [exact Hnone|].
  split; [|reflexivity].
  exact (proj1 (C5_setPermissions_is_idempotent reverse_order db_events "admin1" body
                  eq_refl Hnone)).
Defined.

(** ** Access through roles *)

Lemma max_level_LEADER_inv (l : list PermissionLevel) :
  max_level l = LEADER -> In LEADER l.
Proof.
  induction l as [|a l IH]; simpl; [discriminate|].
  fold (max_level l). destruct a; auto; intros H; right; apply IH;
    destruct (max_level l); cbv in H; congruence.
Qed.

Lemma max_level_not_NONE (l : list PermissionLevel) (a : PermissionLevel) :
  In a l -> a <> NONE -> max_level l <> NONE.
Proof.
  intros Hin Ha H. apply max_level_NONE in H.
  rewrite Forall_forall in H. auto.
Qed.

Lemma in_userRole_findMany db u c ur :
  In ur (userRole_findMany db u c) ->
  In (ur_roleId (urp_userRole ur)) (rolesOf db u)
  /\ urp_permissions ur
     = role_permissions_where db (ur_roleId (urp_userRole ur)) c.
Proof.
  unfold userRole_findMany, rolesOf. intros H.
  apply in_map_iff in H as [x [<- Hx]]. simpl. split; [|reflexivity].
  now apply in_map.
Qed.

Lemma userRole_findMany_in db u c r :
  In r (rolesOf db u) ->
  exists ur, In ur (userRole_findMany db u c)
             /\ urp_permissions ur = role_permissions_where db r c.
Proof.
  unfold userRole_findMany, rolesOf. intros H.
  apply in_map_iff in H as [x [<- Hx]].
  exists (mkUserRoleWithPermissions x (role_permissions_where db (ur_roleId x) c)).
  split; [|reflexivity].
  now apply (in_map (fun ur => mkUserRoleWithPermissions ur
                          (role_permissions_where db (ur_roleId ur) c))).
Qed.

Lemma in_role_permissions_where db r c p :
  In p (role_permissions_where db r c) <->
  In p (permissions db) /\ rcp_roleId p = r /\ rcp_committeeId p = c.
Proof.
  unfold role_permissions_where. rewrite filter_In.
  now rewrite andb_true_iff, !String.eqb_eq.
Qed.

(** A LEADER level of the scan comes from a LEADER row of a role. *)
Lemma highestPermission_LEADER_row db u c :
  highestPermission db u c = LEADER ->
  exists r, In r (rolesOf db u) /\ In (mkPermission r c LEADER) (permissions db).
Proof.
  rewrite highestPermission_max. intros H.
  apply max_level_LEADER_inv in H. unfold role_levels in H.
  apply in_map_iff in H as [ur [Hmax Hur]].
  apply max_level_LEADER_inv in Hmax. unfold levels in Hmax.
  apply in_map_iff in Hmax as [p [Hl Hp]].
  apply in_userRole_findMany in Hur as [Hr Heq].
  rewrite Heq in Hp. apply in_role_permissions_where in Hp as [Hin [H1 H2]].
  exists (ur_roleId (urp_userRole ur)). split; [exact Hr|].
  destruct p as [pr pc pl]; simpl in *. now subst.
Qed.

(** A row of a level other than NONE of one of the caller's roles opens
    the handlers that ask for a member. *)
Lemma some_permission_row db u c r lvl :
  In r (rolesOf db u) -> In (mkPermission r c lvl) (permissions db) ->
  lvl <> NONE ->
  some_permission (userRole_findMany db u c) = true
  /\ highestPermission db u c <> NONE.
Proof.
  intros Hr Hp Hl.
  destruct (userRole_findMany_in db u c r Hr) as [ur [Hur Heq]].
  assert (Hin : In (mkPermission r c lvl) (urp_permissions ur)).
  { rewrite Heq. apply in_role_permissions_where. auto. }
  split.
  - unfold some_permission. apply existsb_exists. exists ur. split; [exact Hur|].
    apply existsb_exists. exists (mkPermission r c lvl). split; [exact Hin|].
    simpl. now destruct lvl.
  - rewrite highestPermission_max.
    apply max_level_not_NONE with (a := max_level (levels (urp_permissions ur))).
    + unfold role_levels.
      now apply (in_map (fun ur => max_level (levels (urp_permissions ur)))).
    + apply max_level_not_NONE with (a := lvl); [|exact Hl].
      unfold levels. now apply (in_map rcp_permissionLevel) in Hin.
Qed.

Lemma task_findUnique_with_committee_found db id t committee :
  task_findUnique db id = Some t ->
  committee_findUnique db (task_committeeId t) = Some committee ->
  task_findUnique_with_committee db id = TaskFound t committee.
Proof.
  intros Ht Hc. unfold task_findUnique_with_committee. now rewrite Ht, Hc.
Qed.


(** ** Ordered query results *)

Section OrderByFacts.
Variable A : Type.
Variable leb : A -> A -> bool.

Lemma insert_by_In x a l : In x (insert_by leb a l) <-> x = a \/ In x l.
Proof.
  induction l as [|y l IH]; simpl.
  - intuition.
  - destruct (leb a y); simpl; [intuition|]. rewrite IH. intuition.
Qed.

Lemma orderBy_In x l : In x (orderBy leb l) <-> In x l.
Proof.
  induction l as [|a l IH]; simpl; [tauto|].
  rewrite insert_by_In, IH. intuition.
Qed.

Lemma insert_by_Permutation a l : Permutation (a :: l) (insert_by leb a l).
Proof.
  induction l as [|y l IH]; simpl; [apply Permutation_refl|].
  destruct (leb a y); [apply Permutation_refl|].
  eapply perm_trans; [apply perm_swap|]. now apply perm_skip.
Qed.

Lemma orderBy_Permutation l : Permutation l (orderBy leb l).
Proof.
  induction l as [|a l IH]; simpl; [constructor|].
  eapply perm_trans; [apply perm_skip, IH|apply insert_by_Permutation].
Qed.

Hypothesis leb_total : forall a b, leb a b = true \/ leb b a = true.
Hypothesis leb_trans : forall a b c,
    leb a b = true -> leb b c = true -> leb a c = true.

(** The first row of an ordered result is in the table and comes before
    every row of the table. *)
Lemma orderBy_head l h :
  hd_error (orderBy leb l) = Some h ->
  In h l /\ forall x, In x l -> leb h x = true.
Proof.
  revert h. induction l as [|a l IH]; simpl; [discriminate|].
  intros h. destruct (orderBy leb l) as [|y s] eqn:E; simpl.
  - intros [= Heq]; subst h. destruct l as [|b l'].
    + split; [now left|]. intros x [<-|[]]. now destruct (leb_total a a).
    + exfalso. pose proof (orderBy_In b (b :: l')) as H.
      rewrite E in H. apply H. now left.
  - destruct (IH y eq_refl) as [Hy Hle].
    destruct (leb a y) eqn:Eay; simpl; intros [= Heq]; subst h.
    + split; [now left|]. intros x [<-|Hx].
      * now destruct (leb_total a a).
      * eapply leb_trans; [exact Eay|now apply Hle].
    + split; [now right|]. intros x [<-|Hx]; [|now apply Hle].
      destruct (leb_total a y); congruence.
Qed.

Lemma orderBy_head_None l : hd_error (orderBy leb l) = None -> l = [].
Proof.
  destruct l as [|a l]; [reflexivity|]. intros H. exfalso.
  pose proof (orderBy_In a (a :: l)) as Hin.
  destruct (orderBy leb (a :: l)); [|discriminate].
  apply Hin. now left.
Qed.
End OrderByFacts.

Lemma in_column db c s x :
  In x (column db c s) <->
  In x (tasks db) /\ task_committeeId x = c /\ task_status x = s.
Proof.
  unfold column, task_findMany_committee.
  rewrite filter_In, orderBy_In, filter_In, String.eqb_eq, TaskStatus_eqb_eq.
  tauto.
Qed.

(** The last task of the TODO column of a committee: none when the column
    is empty, else a task of the column of greatest position. *)
Lemma task_findFirst_last_todo_spec db c :
  (task_findFirst_last_todo db c = None /\ column db c TODO = [])
  \/ exists last,
       task_findFirst_last_todo db c = Some last
       /\ In last (column db c TODO)
       /\ forall x, In x (column db c TODO) ->
                    (task_position x <= task_position last)%Z.
Proof.
  unfold task_findFirst_last_todo.
  set (todo := filter _ (tasks db)).
  assert (Hcol : forall x, In x todo <-> In x (column db c TODO)).
  { intros x. rewrite in_column. unfold todo.
    rewrite filter_In, andb_true_iff, String.eqb_eq, TaskStatus_eqb_eq. tauto. }
  destruct (hd_error (orderBy task_position_desc todo)) as [last|] eqn:E.
  - right. exists last. split; [reflexivity|].
    apply orderBy_head in E as [Hin Hle].
    + split; [now apply Hcol|]. intros x Hx. apply Hcol in Hx.
      specialize (Hle x Hx). unfold task_position_desc in Hle.
      now apply Z.leb_le.
    + intros a b. unfold task_position_desc. rewrite !Z.leb_le. lia.
    + intros a b d. unfold task_position_desc. rewrite !Z.leb_le. lia.
  - left. split; [reflexivity|].
    apply orderBy_head_None in E.
    destruct (column db c TODO) as [|x l] eqn:Ecol; [reflexivity|].
    exfalso. assert (H : In x todo) by (apply Hcol; now left).
    now rewrite E in H.
Qed.

Lemma find_app_fresh {A} (f : A -> bool) (l : list A) (x : A) :
  find f l = None -> f x = true -> find f (l ++ [x]) = Some x.
Proof.
  induction l as [|a l IH]; simpl; intros H Hx.
  - now rewrite Hx.
  - destruct (f a); [discriminate|auto].
Qed.

(** A move to a status puts the task into that column of its committee,
    at the new position, and leaves no task of that id in another column. *)
Lemma moved_task_columns db id t c s p :
  task_findUnique db id = Some t ->
  task_committeeId t = c ->
  In (set_status_position t s p) (column (task_update_status db id s p) c s)
  /\ forall s' c' x, s' <> s ->
       In x (column (task_update_status db id s p) c' s') -> task_id x <> id.
Proof.
  intros Hfind Hc. unfold task_findUnique in Hfind.
  apply find_some in Hfind as [Hin Hid]. split.
  - apply in_column. split; [|now split].
    unfold task_update_status; simpl.
    apply in_map_iff. exists t. now rewrite Hid.
  - intros s' c' x Hs Hx. apply in_column in Hx as [Hx [_ Hst]].
    unfold task_update_status in Hx; simpl in Hx.
    apply in_map_iff in Hx as [y [Hy _]].
    destruct (task_id y =? id) eqn:E.
    + subst x. simpl in Hst. congruence.
    + subst x. intros Heq. apply String.eqb_neq in E. contradiction.
Qed.

Lemma leader_row_highest db u c r :
  In r (rolesOf db u) -> In (mkPermission r c LEADER) (permissions db) ->
  highestPermission db u c = LEADER.
Proof.
  intros Hr Hp. rewrite highestPermission_max.
  destruct (userRole_findMany_in db u c r Hr) as [ur [Hur Heq]].
  apply max_level_LEADER. unfold role_levels.
  apply in_map_iff. exists ur. split; [|exact Hur].
  apply max_level_LEADER. unfold levels. rewrite Heq.
  apply in_map_iff. exists (mkPermission r c LEADER). split; [reflexivity|].
  apply in_role_permissions_where. auto.
Qed.

(** The handler of POST /tasks on a request that passes validation and
    the constraints of the schema, in a column whose next position is an
    [Int]. *)
Lemma createTask_handler_accepts isDatetime newDate db newId u c body committee :
  ct_committeeId body = Some c ->
  ct_title body <> "" ->
  (forall d, ct_dueDate body = Some d -> isDatetime d = true) ->
  task_findUnique db newId = None ->
  committee_findUnique db c = Some committee ->
  user_exists db u = true ->
  forallb (user_exists db)
          (match ct_assigneeIds body with Some l => l | None => [] end) = true ->
  nodupb (match ct_assigneeIds body with Some l => l | None => [] end) = true ->
  fitsInt (match task_findFirst_last_todo db c with
           | Some last => task_position last + 1
           | None => 0
           end)%Z = true ->
  exists db1 t,
    createTask_handler isDatetime newDate db newId u body = (db1, Json 201 t)
    /\ t = mkTask newId (ct_title body) (ct_description body) TODO c u
                  (if truthy (ct_dueDate body)
                   then option_map newDate (ct_dueDate body) else None)
                  (match task_findFirst_last_todo db c with
                   | Some last => task_position last + 1
                   | None => 0
                   end)%Z
    /\ tasks db1 = tasks db ++ [t]
    /\ committees db1 = committees db.
Proof.
  intros Hc Htitle Hdue Hfresh Hcom Huser Hasg Hnodup Hfits.
  unfold createTask_handler, createTaskSchema_parse. rewrite Hc.
  destruct (ct_title body =? "") eqn:Et;
    [apply String.eqb_eq in Et; contradiction|].
  assert (Hd : match ct_dueDate body with
               | Some d => negb (isDatetime d)
               | None => false
               end = false).
  { destruct (ct_dueDate body) as [d|]; [|reflexivity].
    now rewrite (Hdue d eq_refl). }
  rewrite Hd. unfold task_create. cbv zeta.
  cbn [task_position task_id task_committeeId task_createdById].
  rewrite Hfits, Hfresh, Hcom, Huser, Hasg, Hnodup. simpl.
  eexists. eexists. repeat split.
Qed.

(** The position that a new task would get is no [Int]: the insert throws,
    the answer is 500 and nothing is stored. *)
Lemma createTask_handler_overflow isDatetime newDate db newId u body
    title description c dueDate assigneeIds :
  createTaskSchema_parse isDatetime body
    = Some (title, description, c, dueDate, assigneeIds) ->
  fitsInt (match task_findFirst_last_todo db c with
           | Some last => task_position last + 1
           | None => 0
           end)%Z = false ->
  createTask_handler isDatetime newDate db newId u body = (db, internalError).
Proof.
  intros Hparse Hfits. unfold createTask_handler. rewrite Hparse.
  cbv zeta. unfold task_create. cbn [task_position]. now rewrite Hfits.
Qed.

(** ** Creating an organization *)

Lemma find_In_Some {A} (f : A -> bool) (l : list A) (x : A) :
  In x l -> f x = true -> exists y, find f l = Some y.
Proof.
  intros Hin Hf. destruct (find f l) as [y|] eqn:E; [eauto|].
  pose proof (find_none f l E x Hin). congruence.
Qed.

Lemma find_None_filter {A} (f : A -> bool) (l : list A) :
  find f l = None -> filter f l = [].
Proof.
  induction l as [|a l IH]; simpl; [reflexivity|].
  destruct (f a); [discriminate|exact IH].
Qed.

Lemma organization_create_one_per_admin db o db' :
  one_organization_per_admin db ->
  organization_findFirst_admin db (org_adminUserId o) = None ->
  organization_create db o = Some db' ->
  one_organization_per_admin db'.
Proof.
  intros Hinv Hnone. unfold organization_create.
  destruct (_ && _); [|discriminate]. intros [= <-] u.
  unfold organizations_of_admin; simpl. rewrite filter_app, length_app; simpl.
  destruct (org_adminUserId o =? u) eqn:E; simpl.
  - apply String.eqb_eq in E. subst u.
    unfold organization_findFirst_admin in Hnone.
    now rewrite (find_None_filter _ _ Hnone).
  - rewrite Nat.add_0_r. apply Hinv.
Qed.

(** C8. A user who administers an organization cannot create another one:
    POST /organizations leaves the store as it is and answers 400, with the
    error of the existing organization when the body is valid.  So every
    POST /organizations keeps a store in which no user administers more
    than one organization. *)
Theorem C8_second_organization_is_refused :
  forall (isUrl : string -> bool) (db : Db) (newId userId : string)
         (body : CreateOrganizationBody),
    one_organization_per_admin db ->
    one_organization_per_admin (fst (createOrganization isUrl db newId userId body))
    /\ ((exists o, In o (organizations db) /\ org_adminUserId o = userId) ->
        fst (createOrganization isUrl db newId userId body) = db
        /\ status_of (snd (createOrganization isUrl db newId userId body)) = 400
        /\ (createOrganizationSchema_parse isUrl body = true ->
            snd (createOrganization isUrl db newId userId body)
            = Error 400 "Organization already exists for this user")).
Proof.
  intros isUrl db newId u body Hinv. unfold createOrganization. split.
  - destruct (negb _); [exact Hinv|].
    destruct (organization_findFirst_admin db u) eqn:Efind; [exact Hinv|].
    destruct (organization_create db _) as [db'|] eqn:Ecreate; [|exact Hinv].
    simpl.
    exact (organization_create_one_per_admin db
             (mkOrganization newId (co_name body) (co_description body)
                             (co_logoUrl body) u)
             db' Hinv Efind Ecreate).
  - intros [o [Hin Hadmin]].
    destruct (find_In_Some (fun o => org_adminUserId o =? u) _ o Hin) as [y Hy];
      [now apply String.eqb_eq|].
    unfold organization_findFirst_admin. rewrite Hy.
    destruct (createOrganizationSchema_parse isUrl body); simpl;
      repeat split; auto; discriminate.
Qed.

Lemma C8_second_organization_is_refused_witness :
  one_organization_per_admin db_events
  /\ createOrganization alwaysValid db_events "o2" "admin1"
       (mkCreateOrganizationBody "Chess Club" None None)
     = (db_events, Error 400 "Organization already exists for this user").
Proof.
  assert (Hinv : one_organization_per_admin db_events).
  { intros u. unfold organizations_of_admin.
    change (organizations db_events)
      with [mkOrganization "o1" "Student Council" None None "admin1"].
    cbn [filter org_adminUserId].
    destruct ("admin1" =? u)%string; cbn [List.length]; lia. }
  split; [exact Hinv|].
  destruct (C8_second_organization_is_refused alwaysValid db_events "o2" "admin1"
              (mkCreateOrganizationBody "Chess Club" None None) Hinv)
    as [_ H].
  destruct H as [Hdb [_ Herr]].
  - exists (mkOrganization "o1" "Student Council" None None "admin1").
    split; [now left|reflexivity].
  - rewrite (surjective_pairing (createOrganization _ _ _ _ _)).
    now rewrite Hdb, Herr.
Defined.

(** ** Moving a task *)

Lemma max_level_not_NONE_inv (l : list PermissionLevel) :
  max_level l <> NONE -> exists a, In a l /\ a <> NONE.
Proof.
  induction l as [|a l IH]; simpl; [congruence|].
  fold (max_level l). destruct a.
  - rewrite level_max_NONE_l. intros H.
    destruct (IH H) as [b [Hin Hb]]. exists b. auto.
  - intros _. exists MEMBER. split; [now left|discriminate].
  - intros _. exists LEADER. split; [now left|discriminate].
Qed.

Lemma max_over_roles_row db u c :
  max_over_roles db u c <> NONE ->
  exists r lvl, In r (rolesOf db u)
                /\ In (mkPermission r c lvl) (permissions db) /\ lvl <> NONE.
Proof.
  unfold max_over_roles. intros H.
  apply max_level_not_NONE_inv in H as [lvl [Hin Hl]].
  apply in_map_iff in Hin as [r [Hlvl Hr]].
  unfold rolePermission in Hlvl.
  destruct (find _ (permissions db)) as [p|] eqn:E; [|congruence].
  apply find_some in E as [Hp Hkey].
  apply andb_true_iff in Hkey as [H1 H2]. apply String.eqb_eq in H1, H2.
  exists r, lvl. split; [exact Hr|]. split; [|exact Hl].
  destruct p as [pr pc pl]; simpl in *. now subst.
Qed.

(** The check of the handlers that ask for a member, in the words of the
    specification: the effective level is at least MEMBER. *)
Lemma member_hasAccess db u task committee :
  committee_id committee = task_committeeId task ->
  level_le MEMBER (resolve db u committee) ->
  hasAccess db u task committee = true.
Proof.
  unfold resolve, hasAccess, level_le. intros Hid.
  destruct (isSome _); [reflexivity|]. rewrite Hid. intros H.
  destruct (max_over_roles_row db u (task_committeeId task))
    as [r [lvl [Hr [Hp Hl]]]].
  - intros E. rewrite E in H. simpl in H. lia.
  - now apply (some_permission_row db u _ r lvl).
Qed.

Lemma committee_findUnique_id db id committee :
  committee_findUnique db id = Some committee -> committee_id committee = id.
Proof.
  unfold committee_findUnique. intros H.
  apply find_some in H as [_ H]. now apply String.eqb_eq.
Qed.

Lemma task_findUnique_id db id t :
  task_findUnique db id = Some t -> task_id t = id.
Proof.
  unfold task_findUnique. intros H.
  apply find_some in H as [_ H]. now apply String.eqb_eq.
Qed.

Lemma task_findUnique_update db id s p :
  task_findUnique (task_update_status db id s p) id
  = option_map (fun t => set_status_position t s p) (task_findUnique db id).
Proof.
  unfold task_findUnique, task_update_status; simpl.
  induction (tasks db) as [|t l IH]; simpl; [reflexivity|].
  destruct (task_id t =? id) eqn:E; simpl; rewrite E; [reflexivity|exact IH].
Qed.

Lemma task_findUnique_update_other db id s p other :
  other <> id ->
  task_findUnique (task_update_status db id s p) other = task_findUnique db other.
Proof.
  intros Hneq. unfold task_findUnique, task_update_status; simpl.
  induction (tasks db) as [|t l IH]; simpl; [reflexivity|].
  destruct (task_id t =? id) eqn:E; simpl.
  - apply String.eqb_eq in E. rewrite E.
    destruct (id =? other) eqn:E2; [|exact IH].
    apply String.eqb_eq in E2. congruence.
  - now rewrite IH.
Qed.


(** C10. A PATCH /tasks/:id/status writes nothing but the status and the
    position of the task: every other table is left as it is, every other
    task is left as it is, the task keeps its id, title, description, due
    date, committee and creator, and it keeps its position when the body
    has none.  An accepted request stores the status of the body, and the
    position of the body when it has one. *)
Theorem C10_status_update_changes_status_and_position_only :
  forall (db db' : Db) (userId id : string) (body : UpdateTaskStatusBody)
         (task : Task) (response : Response Task),
    task_findUnique db id = Some task ->
    updateTaskStatus db userId id body = (db', response) ->
    users db' = users db
    /\ organizations db' = organizations db
    /\ roles db' = roles db
    /\ userRoles db' = userRoles db
    /\ committees db' = committees db
    /\ permissions db' = permissions db
    /\ assignments db' = assignments db
    /\ comments db' = comments db
    /\ (forall other, other <> id ->
          task_findUnique db' other = task_findUnique db other)
    /\ exists task',
         task_findUnique db' id = Some task'
         /\ same_content task task'
         /\ (uts_position body = None -> task_position task' = task_position task)
         /\ (status_of response = 200 ->
             parseTaskStatus (uts_status body) = Some (task_status task')
             /\ forall p, uts_position body = Some p -> task_position task' = p).
Proof.
  intros db db' u id body task response Htask.
  unfold updateTaskStatus, updateTaskStatusSchema_parse.
  assert (Hsame : forall r, (db, r) = (db', response) -> status_of r <> 200 ->
            users db' = users db
            /\ organizations db' = organizations db
            /\ roles db' = roles db
            /\ userRoles db' = userRoles db
            /\ committees db' = committees db
            /\ permissions db' = permissions db
            /\ assignments db' = assignments db
            /\ comments db' = comments db
            /\ (forall other, other <> id ->
                  task_findUnique db' other = task_findUnique db other)
            /\ exists task',
                 task_findUnique db' id = Some task'
                 /\ same_content task task'
                 /\ (uts_position body = None ->
                     task_position task' = task_position task)
                 /\ (status_of response = 200 ->
                     parseTaskStatus (uts_status body) = Some (task_status task')
                     /\ forall p, uts_position body = Some p ->
                                  task_position task' = p)).
  { intros r [= <- <-] Hr. do 8 (split; [reflexivity|]).
    split; [reflexivity|]. exists task. split; [exact Htask|].
    split; [now repeat split|]. split; [reflexivity|]. intros H. contradiction. }
  destruct (parseTaskStatus (uts_status body)) as [s|] eqn:Eparse;
    [|intros H; apply (Hsame _ H); discriminate].
  unfold task_findUnique_with_committee. rewrite Htask.
  destruct (committee_findUnique db (task_committeeId task)) as [committee|];
    [|intros H; apply (Hsame _ H); discriminate].
  destruct (negb (hasAccess db u task committee));
    [intros H; apply (Hsame _ H); discriminate|].
  cbv zeta.
  destruct (match uts_position body with
            | Some p => fitsInt p
            | None => true
            end);
    [|intros H; apply (Hsame _ H); discriminate].
  intros [= <- <-]. do 8 (split; [reflexivity|]).
  split; [intros other Hneq; now apply task_findUnique_update_other|].
  eexists. split; [rewrite task_findUnique_update, Htask; reflexivity|].
  split; [now repeat split|].
  split.
  - intros Hpos. now rewrite Hpos.
  - intros _. split; [reflexivity|]. intros p Hp. now rewrite Hp.
Qed.

Lemma C10_status_update_changes_status_and_position_only_witness :
  task_findUnique db_events "t2"
    = Some (mkTask "t2" "Print flyers" None TODO "events" "jane" None 4)
  /\ task_findUnique
       (fst (updateTaskStatus db_events "bob" "t2"
               (mkUpdateTaskStatusBody "IN_PROGRESS" None))) "t2"
     = Some (mkTask "t2" "Print flyers" None IN_PROGRESS "events" "jane" None 4)
  /\ comments (fst (updateTaskStatus db_events "bob" "t2"
                      (mkUpdateTaskStatusBody "IN_PROGRESS" None)))
     = comments db_events.
Proof.
  split; [reflexivity|]. split; [reflexivity|].
  exact (proj1 (proj2 (proj2 (proj2 (proj2 (proj2 (proj2 (proj2
    (C10_status_update_changes_status_and_position_only
       db_events _ "bob" "t2" (mkUpdateTaskStatusBody "IN_PROGRESS" None)
       (mkTask "t2" "Print flyers" None TODO "events" "jane" None 4) _
       eq_refl
       (surjective_pairing
          (updateTaskStatus db_events "bob" "t2"
             (mkUpdateTaskStatusBody "IN_PROGRESS" None)))))))))))).
Defined.


(* ================================================================== *)
(** * Further properties of the routes *)

(** ** The list of committees *)

Lemma find_filter {A} (f g : A -> bool) (l : list A) :
  find g (filter f l) = find (fun x => f x && g x) l.
Proof.
  induction l as [|a l IH]; simpl; [reflexivity|].
  destruct (f a); simpl; [destruct (g a)|]; auto.
Qed.

Lemma max_level_cons a l : max_level (a :: l) = level_max a (max_level l).
Proof. reflexivity. Qed.

Lemma scanUserRoles_find_max rows c h :
  scanUserRoles_find rows c h
  = level_max h
      (max_level
         (map (fun ur =>
                 match find (fun p => rcp_committeeId p =? c) (urp_permissions ur) with
                 | Some p => rcp_permissionLevel p
                 | None => NONE
                 end)
              rows)).
Proof.
  revert h. induction rows as [|ur rows IH]; intros h.
  - simpl. now rewrite level_max_NONE_r.
  - cbn [scanUserRoles_find map]. rewrite max_level_cons.
    destruct (find _ (urp_permissions ur)) as [p|].
    + destruct (rcp_permissionLevel p), h; simpl; rewrite ?IH;
        match goal with |- context [max_level ?l] => destruct (max_level l) end;
        reflexivity.
    + rewrite IH. now rewrite level_max_NONE_l.
Qed.

Lemma filter_map_commute {A B} (f : A -> B) (p : B -> bool) (l : list A) :
  filter p (map f l) = map f (filter (fun x => p (f x)) l).
Proof.
  induction l as [|a l IH]; simpl; [reflexivity|].
  destruct (p (f a)); simpl; now rewrite IH.
Qed.

Lemma filter_filter_and {A} (f g : A -> bool) (l : list A) :
  filter g (filter f l) = filter (fun x => f x && g x) l.
Proof.
  induction l as [|a l IH]; simpl; [reflexivity|].
  destruct (f a); simpl; [destruct (g a)|]; now rewrite ?IH.
Qed.


(** ** Callers outside every organization *)

Lemma no_roles_no_first_row o db u :
  rolesOf db u = [] -> userRole_findFirst o db u = None.
Proof.
  unfold rolesOf, userRole_findFirst. intros H. apply map_eq_nil in H.
  rewrite H.
  now rewrite (Permutation_nil (Permutation_sym (ordered_userRoles_perm o []))).
Qed.

(** X3. A caller who administers no organization and holds no role
    belongs to no organization: GET /committees, GET /roles and GET
    /organizations/me answer 404. *)
Theorem X3_caller_without_organization_gets_404 :
  forall (o : RowOrder) (db : Db) (userId : string),
    organization_findFirst_admin db userId = None ->
    rolesOf db userId = [] ->
    getCommittees o db userId = Error 404 "No organization found"
    /\ getRoles o db userId = Error 404 "No organization found"
    /\ getMyOrganization o db userId = Error 404 "No organization found".
Proof.
  intros o db u Hadmin Hroles.
  pose proof (no_roles_no_first_row o db u Hroles) as Hfirst.
  unfold getCommittees, caller_organizationId, getRoles, getMyOrganization.
  now rewrite Hadmin, Hfirst.
Qed.

Lemma X3_caller_without_organization_gets_404_witness :
  organization_findFirst_admin db_with_guest "walt" = None
  /\ rolesOf db_with_guest "walt" = []
  /\ getCommittees reverse_order db_with_guest "walt"
     = Error 404 "No organization found".
Proof.
  split; [reflexivity|]. split; [reflexivity|].
  exact (proj1 (X3_caller_without_organization_gets_404 reverse_order
                  db_with_guest "walt" eq_refl eq_refl)).
Defined.

(** ** The checks of the handlers and the resolver *)

Lemma existsb_false_forall {A} (f : A -> bool) (l : list A) :
  existsb f l = false <-> forall x, In x l -> f x = false.
Proof.
  induction l as [|a l IH]; simpl.
  - split; [intros _ x []|reflexivity].
  - rewrite orb_false_iff, IH. split.
    + intros [Ha Hl] x [<-|Hx]; auto.
    + intros H. split; [apply H; now left|intros x Hx; apply H; now right].
Qed.

Lemma some_permission_iff rows :
  some_permission rows = negb (PermissionLevel_eqb (scanUserRoles rows NONE) NONE).
Proof.
  rewrite scanUserRoles_max, level_max_NONE_l.
  destruct (some_permission rows) eqn:E.
  - unfold some_permission in E. apply existsb_exists in E as [ur [Hur E]].
    apply existsb_exists in E as [p [Hp E]].
    symmetry. apply negb_true_iff.
    destruct (PermissionLevel_eqb (max_level (role_levels rows)) NONE) eqn:E2;
      [|reflexivity].
    apply PermissionLevel_eqb_eq in E2. exfalso.
    revert E2.
    apply max_level_not_NONE with (a := max_level (levels (urp_permissions ur))).
    + unfold role_levels.
      now apply (in_map (fun ur => max_level (levels (urp_permissions ur)))).
    + apply max_level_not_NONE with (a := rcp_permissionLevel p).
      * unfold levels. now apply in_map.
      * intros H. now rewrite H in E.
  - symmetry. apply negb_false_iff. apply PermissionLevel_eqb_eq.
    apply max_level_NONE. apply Forall_forall. intros l Hl.
    unfold role_levels in Hl. apply in_map_iff in Hl as [ur [<- Hur]].
    apply max_level_NONE. apply Forall_forall. intros x Hx.
    unfold levels in Hx. apply in_map_iff in Hx as [p [<- Hp]].
    unfold some_permission in E.
    rewrite existsb_false_forall in E. specialize (E ur Hur).
    rewrite existsb_false_forall in E. specialize (E p Hp).
    apply negb_false_iff in E. now apply PermissionLevel_eqb_eq.
Qed.

Lemma some_leader_permission_iff rows :
  some_leader_permission rows = PermissionLevel_eqb (scanUserRoles rows NONE) LEADER.
Proof.
  rewrite scanUserRoles_max, level_max_NONE_l.
  destruct (some_leader_permission rows) eqn:E.
  - unfold some_leader_permission in E. apply existsb_exists in E as [ur [Hur E]].
    apply existsb_exists in E as [p [Hp E]].
    apply PermissionLevel_eqb_eq in E.
    symmetry. apply PermissionLevel_eqb_eq. apply max_level_LEADER.
    unfold role_levels. apply in_map_iff. exists ur. split; [|exact Hur].
    apply max_level_LEADER. unfold levels. rewrite <- E. now apply in_map.
  - symmetry.
    destruct (PermissionLevel_eqb (max_level (role_levels rows)) LEADER) eqn:E2;
      [|reflexivity].
    apply PermissionLevel_eqb_eq in E2. apply max_level_LEADER_inv in E2.
    unfold role_levels in E2. apply in_map_iff in E2 as [ur [H Hur]].
    apply max_level_LEADER_inv in H. unfold levels in H.
    apply in_map_iff in H as [p [Hl Hp]].
    unfold some_leader_permission in E.
    rewrite existsb_false_forall in E. specialize (E ur Hur).
    rewrite existsb_false_forall in E. specialize (E p Hp).
    rewrite Hl in E. discriminate.
Qed.

(** X4. The permission checks that the handlers write out agree with the
    loop of the middleware: for a caller who is not the administrator of
    the owning organization, the member check of GET /tasks/:id, PATCH
    /tasks/:id/status and POST /tasks/:id/comments holds exactly when the
    loop ends above NONE, and the leader check of PUT and DELETE /tasks/:id
    exactly when it ends at LEADER; the middleware lets a level
    requirement pass exactly when the loop reaches it. *)
Theorem X4_inline_checks_agree_with_the_middleware :
  forall (db : Db) (userId : string) (task : Task) (committee : Committee),
    userId <> "" -> task_committeeId task <> "" ->
    organization_findFirst_id_admin db (committee_organizationId committee) userId
      = None ->
    hasAccess db userId task committee
      = negb (PermissionLevel_eqb
                (highestPermission db userId (task_committeeId task)) NONE)
    /\ isLeader db userId task committee
       = PermissionLevel_eqb
           (highestPermission db userId (task_committeeId task)) LEADER
    /\ (forall lvl,
          (exists req,
              checkCommitteePermission (Level lvl) db
                (authenticated userId (Some (task_committeeId task)) None)
              = Next req)
          <-> level_le lvl (highestPermission db userId (task_committeeId task))).
Proof.
  intros db u task committee Hu Hc Hadmin.
  unfold hasAccess, isLeader. rewrite Hadmin. simpl.
  split; [apply some_permission_iff|]. split; [apply some_leader_permission_iff|].
  intros lvl.
  rewrite (checkCommitteePermission_Level lvl db u (Some (task_committeeId task))
             None (task_committeeId task) Hu (js_or_params _ None Hc)).
  unfold level_le.
  destruct (Nat.leb _ _) eqn:E.
  - apply Nat.leb_le in E. split; [auto|]. intros _. eauto.
  - apply Nat.leb_gt in E. split; [intros [req H]; discriminate|lia].
Qed.

Lemma X4_inline_checks_agree_with_the_middleware_witness :
  organization_findFirst_id_admin db_events "o1" "bob" = None
  /\ hasAccess db_events "bob"
       (mkTask "t1" "Book venue" None TODO "events" "jane" None 0)
       (mkCommittee "events" "Events" "o1") = true
  /\ isLeader db_events "bob"
       (mkTask "t1" "Book venue" None TODO "events" "jane" None 0)
       (mkCommittee "events" "Events" "o1") = false.
Proof.
  split; [reflexivity|].
  assert (Hu : "bob" <> "") by discriminate.
  assert (Hc : "events" <> "") by discriminate.
  destruct (X4_inline_checks_agree_with_the_middleware db_events "bob"
              (mkTask "t1" "Book venue" None TODO "events" "jane" None 0)
              (mkCommittee "events" "Events" "o1") Hu Hc eq_refl)
    as [H1 [H2 _]].
  split; [rewrite H1|rewrite H2]; reflexivity.
Defined.

(** ** Deleting a committee or a task *)

Lemma find_ext_in {A} (f g : A -> bool) (l : list A) :
  (forall x, In x l -> f x = g x) -> find f l = find g l.
Proof.
  induction l as [|a l IH]; simpl; intros H; [reflexivity|].
  rewrite (H a (or_introl eq_refl)). destruct (g a); [reflexivity|].
  apply IH. intros x Hx. apply H. now right.
Qed.

Lemma find_all_false {A} (f : A -> bool) (l : list A) :
  (forall x, In x l -> f x = false) -> find f l = None.
Proof.
  induction l as [|a l IH]; simpl; intros H; [reflexivity|].
  rewrite (H a (or_introl eq_refl)). apply IH. intros x Hx. apply H. now right.
Qed.

Lemma find_removed (A : Type) (key : A -> string) (id : string) (l : list A) :
  find (fun x => key x =? id) (filter (fun x => negb (key x =? id)) l) = None.
Proof.
  apply find_all_false. intros x Hx. apply filter_In in Hx as [_ Hx].
  now apply negb_true_iff in Hx.
Qed.

Lemma find_kept (A : Type) (key : A -> string) (id other : string) (l : list A) :
  other <> id ->
  find (fun x => key x =? other) (filter (fun x => negb (key x =? id)) l)
  = find (fun x => key x =? other) l.
Proof.
  intros Hneq. rewrite find_filter. apply find_ext_in. intros x _.
  destruct (key x =? other) eqn:E; [|apply andb_false_r].
  apply String.eqb_eq in E. rewrite E.
  apply String.eqb_neq in Hneq. now rewrite Hneq.
Qed.

Lemma checkIsAdmin_passes db u org :
  u <> "" ->
  organization_findFirst_admin db u = Some org ->
  checkIsAdmin db (authenticated u None None)
  = Next (set_isAdmin (authenticated u None None)).
Proof.
  intros Hu Horg. unfold checkIsAdmin, authenticated; simpl.
  now rewrite (truthy_value_nonempty u Hu), Horg.
Qed.

Lemma checkIsAdmin_refuses db u :
  u <> "" ->
  organization_findFirst_admin db u = None ->
  checkIsAdmin db (authenticated u None None) = Reply 403 "Admin access required".
Proof.
  intros Hu Horg. unfold checkIsAdmin, authenticated; simpl.
  now rewrite (truthy_value_nonempty u Hu), Horg.
Qed.

(** Without a permission row on a committee nobody has a level on it. *)
Lemma no_rows_NONE db u c :
  (forall p, In p (permissions db) -> rcp_committeeId p <> c) ->
  highestPermission db u c = NONE.
Proof.
  intros H. rewrite highestPermission_max. apply max_level_NONE.
  apply Forall_forall. intros l Hl. unfold role_levels in Hl.
  apply in_map_iff in Hl as [ur [<- Hur]].
  apply in_userRole_findMany in Hur as [_ ->].
  replace (role_permissions_where db _ c) with (@nil RoleCommitteePermission);
    [reflexivity|].
  symmetry. unfold role_permissions_where.
  induction (permissions db) as [|p l IH]; simpl; [reflexivity|].
  destruct (rcp_committeeId p =? c) eqn:E.
  - apply String.eqb_eq in E. destruct (H p (or_introl eq_refl) E).
  - rewrite andb_false_r. apply IH. intros q Hq. apply H. now right.
Qed.

(** X5. DELETE /committees/:id by an administrator removes the committee
    with everything that hangs on it, its permission rows, its tasks and
    the assignments and comments of those tasks, and nothing else.
    Afterwards the page of the committee answers 404, and the listing of
    its tasks answers 403 to every caller, for no role has a row on it.
    On an id that is no committee the answer is 500 and nothing changes. *)
Theorem X5_deleting_a_committee_cascades :
  forall (db : Db) (userId id : string) (org : Organization),
    userId <> "" ->
    organization_findFirst_admin db userId = Some org ->
    (committee_findUnique db id = None ->
     deleteCommittee db userId id = (db, internalError))
    /\ (forall committee,
          committee_findUnique db id = Some committee ->
          exists db',
            deleteCommittee db userId id
              = (db', Json 200 "Committee deleted successfully")
            /\ committee_findUnique db' id = None
            /\ (forall other, other <> id ->
                  committee_findUnique db' other = committee_findUnique db other)
            /\ (forall p, In p (permissions db')
                          <-> In p (permissions db) /\ rcp_committeeId p <> id)
            /\ (forall t, In t (tasks db')
                          <-> In t (tasks db) /\ task_committeeId t <> id)
            /\ (forall a, In a (assignments db')
                          <-> In a (assignments db)
                              /\ forall t, In t (tasks db) ->
                                           task_id t = ta_taskId a ->
                                           task_committeeId t <> id)
            /\ (forall c, In c (comments db')
                          <-> In c (comments db)
                              /\ forall t, In t (tasks db) ->
                                           task_id t = comment_taskId c ->
                                           task_committeeId t <> id)
            /\ users db' = users db /\ organizations db' = organizations db
            /\ roles db' = roles db /\ userRoles db' = userRoles db
            /\ (forall caller,
                  getCommittee db' caller id = Error 404 "Committee not found")
            /\ (forall caller,
                  caller <> "" -> id <> "" ->
                  getCommitteeTasks db' caller id
                  = Error 403 "Insufficient permissions. Member access required.")).
Proof.
  intros db u id org Hu Hadmin.
  unfold deleteCommittee. rewrite (checkIsAdmin_passes db u org Hu Hadmin).
  unfold committee_delete. split.
  - intros H. now rewrite H.
  - intros committee H. rewrite H. eexists. split; [reflexivity|]. simpl.
    assert (Hgone : forall taskId,
               existsb (fun t => (task_id t =? taskId) && (task_committeeId t =? id))
                       (tasks db) = false
               <-> forall t, In t (tasks db) -> task_id t = taskId ->
                             task_committeeId t <> id).
    { intros taskId. rewrite existsb_false_forall. split.
      - intros Hf t Ht Hid Hc. specialize (Hf t Ht).
        now rewrite Hid, Hc, !String.eqb_refl in Hf.
      - intros Hf t Ht.
        destruct (task_id t =? taskId) eqn:E1; [|reflexivity].
        destruct (task_committeeId t =? id) eqn:E2; [|reflexivity].
        apply String.eqb_eq in E1, E2. destruct (Hf t Ht E1 E2). }
    assert (Hneq : forall s, negb (s =? id) = true <-> s <> id).
    { intros s. rewrite negb_true_iff. apply String.eqb_neq. }
    split; [apply (find_removed Committee committee_id)|].
    split; [intros other Hother; now apply (find_kept Committee committee_id)|].
    split; [intros p; now rewrite filter_In, Hneq|].
    split; [intros t; now rewrite filter_In, Hneq|].
    split; [intros a; now rewrite filter_In, negb_true_iff, Hgone|].
    split; [intros c; now rewrite filter_In, negb_true_iff, Hgone|].
    do 4 (split; [reflexivity|]).
    split.
    + intros caller. unfold getCommittee, committee_findUnique. simpl.
      now rewrite (find_removed Committee committee_id).
    + intros caller Hcaller Hid. unfold getCommitteeTasks.
      rewrite (checkCommitteePermission_Level MEMBER _ caller (Some id) None id
                 Hcaller (js_or_params id None Hid)).
      rewrite no_rows_NONE; [reflexivity|].
      simpl. intros p Hp. apply filter_In in Hp as [_ Hp]. now apply Hneq.
Qed.

Lemma X5_deleting_a_committee_cascades_witness :
  organization_findFirst_admin db_events "admin1"
    = Some (mkOrganization "o1" "Student Council" None None "admin1")
  /\ snd (deleteCommittee db_events "admin1" "events")
     = Json 200 "Committee deleted successfully"
  /\ tasks (fst (deleteCommittee db_events "admin1" "events")) = [].
Proof.
  split; [reflexivity|].
  assert (Hu : "admin1" <> "") by discriminate.
  destruct (proj2 (X5_deleting_a_committee_cascades db_events "admin1" "events"
                     _ Hu eq_refl)
                  (mkCommittee "events" "Events" "o1") eq_refl)
    as [db' [Heq _]].
  rewrite Heq. split; [reflexivity|].
  assert (H : fst (deleteCommittee db_events "admin1" "events")
              = fst (db', @Json string 200 "Committee deleted successfully"))
    by now rewrite Heq.
  simpl in H. rewrite <- H. reflexivity.
Defined.

Lemma task_findUnique_with_committee_task db id task committee :
  task_findUnique_with_committee db id = TaskFound task committee ->
  task_findUnique db id = Some task
  /\ committee_findUnique db (task_committeeId task) = Some committee.
Proof.
  unfold task_findUnique_with_committee.
  destruct (task_findUnique db id) as [t|]; [|discriminate].
  destruct (committee_findUnique db (task_committeeId t)) as [c|] eqn:E;
    [|discriminate].
  intros [= <- <-]. now split.
Qed.

(** X6. DELETE /tasks/:id asks for the leader check: a caller who fails
    it gets 403 and the store stays as it is; a caller who passes removes
    the task with its assignments and comments, and nothing else. *)
Theorem X6_deleting_a_task_cascades :
  forall (db : Db) (userId id : string) (task : Task) (committee : Committee),
    task_findUnique_with_committee db id = TaskFound task committee ->
    (isLeader db userId task committee = false ->
     deleteTask db userId id
     = (db, Error 403 "Insufficient permissions. Leader access required."))
    /\ (isLeader db userId task committee = true ->
        exists db',
          deleteTask db userId id = (db', Json 200 "Task deleted successfully")
          /\ task_findUnique db' id = None
          /\ (forall other, other <> id ->
                task_findUnique db' other = task_findUnique db other)
          /\ (forall a, In a (assignments db')
                        <-> In a (assignments db) /\ ta_taskId a <> id)
          /\ (forall c, In c (comments db')
                        <-> In c (comments db) /\ comment_taskId c <> id)
          /\ users db' = users db /\ organizations db' = organizations db
          /\ roles db' = roles db /\ userRoles db' = userRoles db
          /\ committees db' = committees db /\ permissions db' = permissions db).
Proof.
  intros db u id task committee Hfind. unfold deleteTask. rewrite Hfind. split.
  - intros H. now rewrite H.
  - intros H. rewrite H. eexists. split; [reflexivity|]. simpl.
    assert (Hneq : forall s, negb (s =? id) = true <-> s <> id).
    { intros s. rewrite negb_true_iff. apply String.eqb_neq. }
    split; [apply (find_removed Task task_id)|].
    split; [intros other Hother; now apply (find_kept Task task_id)|].
    split; [intros a; now rewrite filter_In, Hneq|].
    split; [intros c; now rewrite filter_In, Hneq|].
    repeat split.
Qed.

Lemma X6_deleting_a_task_cascades_witness :
  task_findUnique_with_committee db_events "t1"
    = TaskFound (mkTask "t1" "Book venue" None TODO "events" "jane" None 0)
                (mkCommittee "events" "Events" "o1")
  /\ deleteTask db_events "bob" "t1"
     = (db_events, Error 403 "Insufficient permissions. Leader access required.")
  /\ status_of (snd (deleteTask db_events "jane" "t1")) = 200.
Proof.
  split; [reflexivity|].
  destruct (X6_deleting_a_task_cascades db_events "bob" "t1" _ _ eq_refl)
    as [Hbob _].
  destruct (X6_deleting_a_task_cascades db_events "jane" "t1" _ _ eq_refl)
    as [_ Hjane].
  split; [now apply Hbob|].
  destruct (Hjane eq_refl) as [db' [Heq _]]. now rewrite Heq.
Defined.

(** ** Ids that are no task *)

(** X7. On an id that is no task every task route answers 404 and writes
    nothing, whoever calls; validation of the body comes first, the
    permission check never runs. *)
Theorem X7_unknown_task_is_404 :
  forall (isDatetime : string -> bool) (newDate : string -> string)
         (o : RowOrder) (db : Db) (userId id : string),
    task_findUnique db id = None ->
    getTask db userId id = Error 404 "Task not found"
    /\ deleteTask db userId id = (db, Error 404 "Task not found")
    /\ (forall body,
          updateTaskStatus db userId id body
          = (db, if isSome (updateTaskStatusSchema_parse body)
                 then Error 404 "Task not found" else ZodError))
    /\ (forall content,
          addComment db userId id content
          = (db, if content =? "" then ZodError else Error 404 "Task not found"))
    /\ (forall body,
          updateTask isDatetime newDate o db userId id body
          = (db, if isSome (updateTaskSchema_parse isDatetime body)
                 then Error 404 "Task not found" else ZodError)).
Proof.
  intros isDatetime newDate o db u id Hnone.
  assert (H : task_findUnique_with_committee db id = TaskMissing).
  { unfold task_findUnique_with_committee. now rewrite Hnone. }
  unfold getTask, deleteTask, updateTaskStatus, addComment, updateTask.
  rewrite H. repeat split.
  - intros body. now destruct (updateTaskStatusSchema_parse body) as [[s p]|].
  - intros content. now destruct (content =? "").
  - intros body. now destruct (updateTaskSchema_parse isDatetime body).
Qed.

Lemma X7_unknown_task_is_404_witness :
  task_findUnique db_events "t404" = None
  /\ updateTaskStatus db_events "admin1" "t404" (mkUpdateTaskStatusBody "DONE" None)
     = (db_events, Error 404 "Task not found").
Proof.
  split; [reflexivity|].
  exact (proj1 (proj2 (proj2
    (X7_unknown_task_is_404 alwaysValid asWritten insertion_order
       db_events "admin1" "t404" eq_refl)))
    (mkUpdateTaskStatusBody "DONE" None)).
Defined.

(** ** Editing a task *)

Section TaskRowUpdate.
Variable f : Task -> Task.
Hypothesis f_id : forall t, task_id (f t) = task_id t.

Lemma find_task_updated (l : list Task) (id : string) :
  find (fun t => task_id t =? id)
       (map (fun t => if task_id t =? id then f t else t) l)
  = option_map f (find (fun t => task_id t =? id) l).
Proof.
  induction l as [|t l IH]; simpl; [reflexivity|].
  destruct (task_id t =? id) eqn:E; simpl.
  - now rewrite f_id, E.
  - now rewrite E.
Qed.

Lemma find_task_other (l : list Task) (id other : string) :
  other <> id ->
  find (fun t => task_id t =? other)
       (map (fun t => if task_id t =? id then f t else t) l)
  = find (fun t => task_id t =? other) l.
Proof.
  intros Hneq. induction l as [|t l IH]; simpl; [reflexivity|].
  destruct (task_id t =? id) eqn:E; simpl.
  - rewrite f_id. apply String.eqb_eq in E. rewrite E.
    destruct (id =? other) eqn:E2; [|exact IH].
    apply String.eqb_eq in E2. congruence.
  - now rewrite IH.
Qed.
End TaskRowUpdate.

Lemma map_id_ext {A} (f : A -> A) (l : list A) :
  (forall x, f x = x) -> map f l = l.
Proof.
  intros H. induction l as [|a l IH]; simpl; [reflexivity|]. now rewrite H, IH.
Qed.

Lemma task_with_data_nothing t : task_with_data t None None None None None = t.
Proof. now destruct t. Qed.

Lemma set_tasks_same db : set_tasks db (tasks db) = db.
Proof. now destruct db. Qed.

Lemma unique_assignments_filter f l :
  unique_assignments l = true -> unique_assignments (filter f l) = true.
Proof.
  induction l as [|a l IH]; simpl; [reflexivity|].
  intros H. apply andb_true_iff in H as [Ha Hl].
  destruct (f a); simpl; [|auto].
  rewrite (IH Hl), andb_true_r.
  apply negb_true_iff in Ha. apply negb_true_iff.
  destruct (existsb (same_assignment a) (filter f l)) eqn:E; [|reflexivity].
  apply existsb_filter_weaken in E. congruence.
Qed.

Lemma unique_assignments_app l1 l2 :
  unique_assignments (l1 ++ l2) = true <->
  unique_assignments l1 = true /\ unique_assignments l2 = true
  /\ forall a b, In a l1 -> In b l2 -> same_assignment a b = false.
Proof.
  induction l1 as [|x l1 IH]; simpl.
  - split; [intros H; repeat split; auto; intros a b []|tauto].
  - rewrite !andb_true_iff, !negb_true_iff, IH, existsb_app, orb_false_iff.
    rewrite (existsb_false_forall (same_assignment x) l2). split.
    + intros [[H1 H2] [H3 [H4 H5]]]. repeat split; auto.
      intros a b [<-|Ha] Hb; auto.
    + intros [[H1 H2] [H3 H4]]. repeat split; auto.
Qed.

Lemma existsb_same_assignment id x l :
  existsb (same_assignment (mkTaskAssignment id x))
          (map (fun a => mkTaskAssignment id a) l)
  = existsb (String.eqb x) l.
Proof.
  induction l as [|y l IH]; simpl; [reflexivity|].
  unfold same_assignment at 1. simpl. rewrite String.eqb_refl. simpl.
  now rewrite IH.
Qed.

Lemma unique_assignments_of_task id l :
  unique_assignments (map (fun a => mkTaskAssignment id a) l) = nodupb l.
Proof.
  induction l as [|x l IH]; simpl; [reflexivity|].
  now rewrite IH, existsb_same_assignment.
Qed.

Lemma assignments_of_task_deleted id asg :
  filter (fun a => ta_taskId a =? id)
         (filter (fun a => negb (ta_taskId a =? id)) asg) = [].
Proof.
  induction asg as [|a asg IH]; simpl; [reflexivity|].
  destruct (ta_taskId a =? id) eqn:E; simpl; [exact IH|]. now rewrite E.
Qed.

Lemma assignments_of_task_after_replace id asg l :
  filter (fun a => ta_taskId a =? id)
         (filter (fun a => negb (ta_taskId a =? id)) asg
            ++ map (fun a => mkTaskAssignment id a) l)
  = map (fun a => mkTaskAssignment id a) l.
Proof.
  rewrite filter_app.
  replace (filter _ (filter _ asg)) with (@nil TaskAssignment).
  - simpl. induction l as [|x l IH]; simpl; [reflexivity|].
    now rewrite String.eqb_refl, IH.
  - symmetry. induction asg as [|a asg IH]; simpl; [reflexivity|].
    destruct (ta_taskId a =? id) eqn:E; simpl; [exact IH|]. now rewrite E.
Qed.

Lemma map_userId_of_task id l :
  map ta_userId (map (fun a => mkTaskAssignment id a) l) = l.
Proof. rewrite map_map. simpl. apply map_id. Qed.

Lemma forallb_assignment_users db db' id l :
  users db' = users db ->
  isSome (task_findUnique db' id) = true ->
  forallb (fun a => isSome (task_findUnique db' (ta_taskId a))
                    && user_exists db' (ta_userId a))
          (map (fun a => mkTaskAssignment id a) l)
  = forallb (user_exists db) l.
Proof.
  intros Hu Ht. induction l as [|x l IH]; simpl; [reflexivity|].
  rewrite Ht, IH. unfold user_exists. now rewrite Hu.
Qed.



(** ** Assigning and removing roles *)

Lemma level_le_max_level a l : In a l -> level_le a (max_level l).
Proof.
  unfold level_le. induction l as [|b l IH]; simpl; [tauto|].
  fold (max_level l). intros [<-|H].
  - destruct b, (max_level l); simpl; lia.
  - specialize (IH H). destruct a, b, (max_level l); simpl in *; lia.
Qed.

Lemma max_level_le_bound x l :
  (forall a, In a l -> level_le a x) -> level_le (max_level l) x.
Proof.
  unfold level_le. induction l as [|b l IH]; simpl; intros H; [lia|].
  fold (max_level l).
  assert (Hb := H b (or_introl eq_refl)).
  assert (Hl : level_rank (max_level l) <= level_rank x)
    by (apply IH; intros a Ha; apply H; now right).
  destruct b, (max_level l), x; simpl in *; lia.
Qed.

Lemma max_level_incl l1 l2 :
  incl l1 l2 -> level_le (max_level l1) (max_level l2).
Proof.
  intros H. apply max_level_le_bound. intros a Ha.
  apply level_le_max_level. now apply H.
Qed.

Lemma level_le_level_max_l a b : level_le a (level_max a b).
Proof. unfold level_le. destruct a, b; simpl; lia. Qed.

Lemma set_userRoles_same db : set_userRoles db (userRoles db) = db.
Proof. now destruct db. Qed.

Lemma not_holding_iff db target roleId :
  existsb (fun x => (ur_userId x =? target) && (ur_roleId x =? roleId))
          (userRoles db) = false
  <-> ~ In roleId (rolesOf db target).
Proof.
  rewrite existsb_false_forall. unfold rolesOf. split.
  - intros H Hin. apply in_map_iff in Hin as [ur [Hr Hur]].
    apply filter_In in Hur as [Hur Hu].
    specialize (H ur Hur). rewrite Hu in H. simpl in H.
    apply String.eqb_neq in H. contradiction.
  - intros H ur Hur.
    destruct (ur_userId ur =? target) eqn:E1; [|reflexivity].
    destruct (ur_roleId ur =? roleId) eqn:E2; [|reflexivity].
    exfalso. apply H. apply String.eqb_eq in E2. rewrite <- E2.
    apply in_map. apply filter_In. now split.
Qed.

(** X11. POST /roles/assign by an administrator, of a role that is a role
    to a user who is a user and does not hold it, adds the role at the end
    of the user's roles.  The level of the user on every committee becomes
    the maximum of the old level and the level of the new role's rows, so
    it never falls, and nobody else's roles or levels change. *)
Theorem X11_assigning_a_role_raises_levels_to_the_maximum :
  forall (db : Db) (userId target roleId : string) (org : Organization),
    userId <> "" ->
    organization_findFirst_admin db userId = Some org ->
    user_exists db target = true ->
    isSome (role_findUnique db roleId) = true ->
    ~ In roleId (rolesOf db target) ->
    exists db',
      assignRole db userId target roleId = (db', Json 201 (mkUserRole target roleId))
      /\ rolesOf db' target = rolesOf db target ++ [roleId]
      /\ (forall v, v <> target -> rolesOf db' v = rolesOf db v)
      /\ (forall c,
            highestPermission db' target c
            = level_max (highestPermission db target c)
                        (max_level (levels (role_permissions_where db roleId c))))
      /\ (forall c, level_le (highestPermission db target c)
                             (highestPermission db' target c))
      /\ (forall v c, v <> target ->
            highestPermission db' v c = highestPermission db v c).
Proof.
  intros db u target r org Hu Hadmin Huser Hrole Hnot.
  unfold assignRole. rewrite (checkIsAdmin_passes db u org Hu Hadmin).
  unfold userRole_create. simpl ur_userId. simpl ur_roleId.
  rewrite Huser, Hrole. apply not_holding_iff in Hnot. rewrite Hnot. simpl.
  eexists. split; [reflexivity|].
  assert (Hroles : forall v,
             filter (fun ur => ur_userId ur =? v)
                    (userRoles db ++ [mkUserRole target r])
             = filter (fun ur => ur_userId ur =? v) (userRoles db)
                 ++ (if target =? v then [mkUserRole target r] else [])).
  { intros v. rewrite filter_app. simpl. now destruct (target =? v). }
  assert (Hmax : forall c,
             highestPermission
               (set_userRoles db (userRoles db ++ [mkUserRole target r])) target c
             = level_max (highestPermission db target c)
                         (max_level (levels (role_permissions_where db r c)))).
  { intros c. rewrite !highestPermission_max.
    unfold userRole_findMany. simpl userRoles.
    rewrite Hroles, String.eqb_refl, map_app. unfold role_levels.
    rewrite map_app, max_level_app. simpl.
    now rewrite level_max_NONE_r. }
  split.
  { unfold rolesOf. simpl. now rewrite Hroles, String.eqb_refl, map_app. }
  split.
  { intros v Hv. unfold rolesOf. simpl. rewrite Hroles.
    apply not_eq_sym in Hv. apply String.eqb_neq in Hv. rewrite Hv.
    now rewrite app_nil_r. }
  split; [exact Hmax|].
  split; [intros c; rewrite Hmax; apply level_le_level_max_l|].
  intros v c Hv. unfold highestPermission, userRole_findMany. simpl userRoles.
  rewrite Hroles. apply not_eq_sym in Hv. apply String.eqb_neq in Hv.
  now rewrite Hv, app_nil_r.
Qed.

Lemma X11_assigning_a_role_raises_levels_to_the_maximum_witness :
  ~ In "chair" (rolesOf db_events "bob")
  /\ highestPermission db_events "bob" "marketing" = NONE
  /\ highestPermission (fst (assignRole db_events "admin1" "bob" "chair"))
       "bob" "marketing" = MEMBER.
Proof.
  assert (Hnot : ~ In "chair" (rolesOf db_events "bob")).
  { intros [H|[]]. discriminate. }
  split; [exact Hnot|]. split; [reflexivity|].
  assert (Hu : "admin1" <> "") by discriminate.
  destruct (X11_assigning_a_role_raises_levels_to_the_maximum db_events
              "admin1" "bob" "chair" _ Hu eq_refl eq_refl eq_refl Hnot)
    as [db' [Heq [_ [_ [Hmax _]]]]].
  rewrite Heq. simpl fst. now rewrite Hmax.
Defined.

Lemma filter_all_true {A} (f : A -> bool) (l : list A) :
  (forall x, In x l -> f x = true) -> filter f l = l.
Proof.
  induction l as [|a l IH]; simpl; intros H; [reflexivity|].
  rewrite (H a (or_introl eq_refl)). f_equal. apply IH. intros x Hx. apply H.
  now right.
Qed.

(** X12. POST /roles/assign has no answer of its own for a refused
    assignment: a role that the user already holds, a user that is no
    user and a role that is no role all give 500, and the store stays as
    it is.  After an accepted assignment DELETE /roles/assign/:userId/:roleId
    brings the store back to what it was. *)
Theorem X12_assignment_is_refused_or_undone_by_removal :
  forall (db : Db) (userId target roleId : string) (org : Organization),
    userId <> "" ->
    organization_findFirst_admin db userId = Some org ->
    (In roleId (rolesOf db target) \/ user_exists db target = false
     \/ role_findUnique db roleId = None ->
     assignRole db userId target roleId = (db, internalError))
    /\ (forall db' r,
          assignRole db userId target roleId = (db', Json 201 r) ->
          removeRole db' userId target roleId
          = (db, Json 200 "Role removed from user successfully")).
Proof.
  intros db u target r org Hu Hadmin.
  unfold assignRole. rewrite (checkIsAdmin_passes db u org Hu Hadmin).
  unfold userRole_create. simpl ur_userId. simpl ur_roleId. split.
  - intros [H|[H|H]].
    + destruct (existsb _ (userRoles db)) eqn:E.
      * now rewrite andb_false_r.
      * apply not_holding_iff in E. contradiction.
    + now rewrite H.
    + now rewrite H, andb_false_r.
  - intros db' ur.
    destruct (user_exists db target); [|discriminate].
    destruct (isSome (role_findUnique db r)); [|discriminate].
    destruct (existsb _ (userRoles db)) eqn:E; [discriminate|].
    simpl. intros [= <- _]. unfold removeRole.
    rewrite (checkIsAdmin_passes
               (set_userRoles db (userRoles db ++ [mkUserRole target r]))
               u org Hu Hadmin).
    f_equal. simpl. rewrite filter_app. simpl. rewrite !String.eqb_refl. simpl.
    rewrite app_nil_r, filter_all_true.
    + now destruct db.
    + rewrite existsb_false_forall in E. intros x Hx. now rewrite (E x Hx).
Qed.

Lemma X12_assignment_is_refused_or_undone_by_removal_witness :
  In "member" (rolesOf db_events "bob")
  /\ assignRole db_events "admin1" "bob" "member" = (db_events, internalError)
  /\ removeRole (fst (assignRole db_events "admin1" "bob" "chair"))
                "admin1" "bob" "chair"
     = (db_events, Json 200 "Role removed from user successfully").
Proof.
  assert (Hin : In "member" (rolesOf db_events "bob")) by now left.
  assert (Hu : "admin1" <> "") by discriminate.
  destruct (X12_assignment_is_refused_or_undone_by_removal db_events
              "admin1" "bob" "member" _ Hu eq_refl) as [Hrefused _].
  destruct (X12_assignment_is_refused_or_undone_by_removal db_events
              "admin1" "bob" "chair" _ Hu eq_refl) as [_ Hundo].
  split; [exact Hin|]. split; [apply Hrefused; now left|].
  apply (Hundo _ (mkUserRole "bob" "chair")). reflexivity.
Defined.

Lemma role_levels_incl db db' v c :
  (forall ur, In ur (userRoles db') -> In ur (userRoles db)) ->
  (forall ur, In ur (userRoles db') ->
     role_permissions_where db' (ur_roleId ur) c
     = role_permissions_where db (ur_roleId ur) c) ->
  incl (role_levels (userRole_findMany db' v c))
       (role_levels (userRole_findMany db v c)).
Proof.
  intros Hsub Hperm l Hl. unfold role_levels, userRole_findMany in *.
  rewrite map_map in *. apply in_map_iff in Hl as [ur [<- Hur]].
  apply filter_In in Hur as [Hur Hv]. simpl. rewrite (Hperm ur Hur).
  apply (in_map (fun x => max_level (levels (role_permissions_where db (ur_roleId x) c)))).
  apply filter_In. split; [now apply Hsub|exact Hv].
Qed.

(** X13. DELETE /roles/assign/:userId/:roleId by an administrator always
    answers 200, whether the user held the role or not.  Afterwards the
    user does not hold the role, keeps the other roles, and nobody's level
    on any committee has risen; removing a role that the user does not
    hold changes nothing. *)
Theorem X13_removing_a_role_never_raises_a_level :
  forall (db : Db) (userId target roleId : string) (org : Organization),
    userId <> "" ->
    organization_findFirst_admin db userId = Some org ->
    exists db',
      removeRole db userId target roleId
      = (db', Json 200 "Role removed from user successfully")
      /\ rolesOf db' target
         = filter (fun r => negb (r =? roleId)) (rolesOf db target)
      /\ ~ In roleId (rolesOf db' target)
      /\ (forall v, v <> target -> rolesOf db' v = rolesOf db v)
      /\ (forall v c, level_le (highestPermission db' v c)
                               (highestPermission db v c))
      /\ (~ In roleId (rolesOf db target) -> db' = db).
Proof.
  intros db u target r org Hu Hadmin.
  unfold removeRole. rewrite (checkIsAdmin_passes db u org Hu Hadmin).
  eexists. split; [reflexivity|].
  assert (Htarget : rolesOf (set_userRoles db
                      (filter (fun ur => negb ((ur_userId ur =? target)
                                               && (ur_roleId ur =? r)))
                              (userRoles db))) target
                    = filter (fun x => negb (x =? r)) (rolesOf db target)).
  { unfold rolesOf. simpl. rewrite filter_map_commute, !filter_filter_and.
    f_equal. apply filter_ext. intros ur.
    destruct (ur_userId ur =? target), (ur_roleId ur =? r); reflexivity. }
  split; [exact Htarget|].
  split.
  { rewrite Htarget. intros H. apply filter_In in H as [_ H].
    now rewrite String.eqb_refl in H. }
  split.
  { intros v Hv. unfold rolesOf. simpl. rewrite filter_filter_and.
    f_equal. apply filter_ext_in. intros ur _.
    destruct (ur_userId ur =? target) eqn:E1; simpl; [|apply andb_true_l].
    apply String.eqb_eq in E1. rewrite E1.
    apply not_eq_sym in Hv. apply String.eqb_neq in Hv. rewrite Hv.
    now rewrite andb_false_r. }
  split.
  { intros v c. rewrite !highestPermission_max. apply max_level_incl.
    apply role_levels_incl.
    - simpl. intros ur Hur. now apply filter_In in Hur.
    - reflexivity. }
  intros Hnot. apply not_holding_iff in Hnot.
  rewrite existsb_false_forall in Hnot.
  rewrite filter_all_true; [apply set_userRoles_same|].
  intros x Hx. now rewrite (Hnot x Hx).
Qed.

Lemma X13_removing_a_role_never_raises_a_level_witness :
  organization_findFirst_admin db_events "admin1"
    = Some (mkOrganization "o1" "Student Council" None None "admin1")
  /\ rolesOf (fst (removeRole db_events "admin1" "jane" "chair")) "jane"
     = ["member"]
  /\ highestPermission (fst (removeRole db_events "admin1" "jane" "chair"))
       "jane" "events" = MEMBER.
Proof.
  split; [reflexivity|].
  assert (Hu : "admin1" <> "") by discriminate.
  destruct (X13_removing_a_role_never_raises_a_level db_events
              "admin1" "jane" "chair" _ Hu eq_refl)
    as [db' [Heq [Hroles _]]].
  rewrite Heq. simpl fst. rewrite Hroles. split; [reflexivity|].
  assert (H : db' = fst (removeRole db_events "admin1" "jane" "chair"))
    by now rewrite Heq.
  rewrite H. reflexivity.
Defined.


(** X14. DELETE /roles/:id by an administrator removes the role with its
    [user_roles] rows and its permission rows, and nothing else: no user
    holds the role any more, the other roles of every user and the rows of
    the other roles stay, and nobody's level on any committee has risen.
    On an id that is no role the answer is 500 and nothing changes. *)
Theorem X14_deleting_a_role_cascades :
  forall (db : Db) (userId id : string) (org : Organization),
    userId <> "" ->
    organization_findFirst_admin db userId = Some org ->
    (role_findUnique db id = None -> deleteRole db userId id = (db, internalError))
    /\ (forall role,
          role_findUnique db id = Some role ->
          exists db',
            deleteRole db userId id = (db', Json 200 "Role deleted successfully")
            /\ role_findUnique db' id = None
            /\ (forall other, other <> id ->
                  role_findUnique db' other = role_findUnique db other)
            /\ (forall v, rolesOf db' v
                          = filter (fun r => negb (r =? id)) (rolesOf db v))
            /\ (forall p, In p (permissions db')
                          <-> In p (permissions db) /\ rcp_roleId p <> id)
            /\ (forall v c, level_le (highestPermission db' v c)
                                     (highestPermission db v c))
            /\ users db' = users db /\ organizations db' = organizations db
            /\ committees db' = committees db /\ tasks db' = tasks db
            /\ assignments db' = assignments db /\ comments db' = comments db).
Proof.
  intros db u id org Hu Hadmin.
  unfold deleteRole. rewrite (checkIsAdmin_passes db u org Hu Hadmin).
  unfold role_delete. split.
  - intros H. now rewrite H.
  - intros role H. rewrite H. eexists. split; [reflexivity|]. simpl.
    split; [apply (find_removed Role role_id)|].
    split; [intros other Hother; now apply (find_kept Role role_id)|].
    split.
    { intros v. unfold rolesOf. simpl.
      rewrite filter_map_commute, !filter_filter_and. f_equal.
      apply filter_ext. intros ur. apply andb_comm. }
    split.
    { intros p. now rewrite filter_In, negb_true_iff, String.eqb_neq. }
    split; [|repeat split].
    intros v c. rewrite !highestPermission_max. apply max_level_incl.
    apply role_levels_incl; simpl.
    + intros ur Hur. now apply filter_In in Hur.
    + intros ur Hur. apply filter_In in Hur as [_ Hne].
      unfold role_permissions_where. simpl. rewrite filter_filter_and.
      apply filter_ext. intros p.
      destruct (rcp_roleId p =? ur_roleId ur) eqn:E; simpl;
        [|apply andb_false_r].
      apply String.eqb_eq in E. rewrite E. now rewrite Hne.
Qed.

Lemma X14_deleting_a_role_cascades_witness :
  role_findUnique db_events "chair" = Some (mkRole "chair" "Committee Chair" "o1")
  /\ rolesOf (fst (deleteRole db_events "admin1" "chair")) "jane" = ["member"]
  /\ permissions (fst (deleteRole db_events "admin1" "chair"))
     = [mkPermission "member" "events" MEMBER].
Proof.
  split; [reflexivity|].
  assert (Hu : "admin1" <> "") by discriminate.
  destruct (proj2 (X14_deleting_a_role_cascades db_events "admin1" "chair" _
                     Hu eq_refl) _ eq_refl)
    as [db' [Heq [_ [_ [Hroles _]]]]].
  rewrite Heq. simpl fst. rewrite Hroles. split; [reflexivity|].
  assert (H : db' = fst (deleteRole db_events "admin1" "chair"))
    by now rewrite Heq.
  rewrite H. reflexivity.
Defined.

(** ** From the permissions of a role to the level of its holders *)

Lemma unique_find_in l p :
  unique_keys l = true -> In p l ->
  find (row_for (rcp_roleId p) (rcp_committeeId p)) l = Some p.
Proof.
  induction l as [|q l IH]; simpl; [tauto|].
  intros H Hin. apply andb_true_iff in H as [Hq Hl].
  apply negb_true_iff in Hq. rewrite existsb_false_forall in Hq.
  destruct Hin as [->|Hin].
  - unfold row_for. now rewrite !String.eqb_refl.
  - destruct (row_for _ _ q) eqn:E; [|auto].
    apply row_for_spec in E as [E1 E2]. specialize (Hq p Hin).
    unfold same_key in Hq. now rewrite E1, E2, !String.eqb_refl in Hq.
Qed.

Lemma setPermissions_handler_userRoles o db body :
  userRoles (fst (setPermissions_handler o db body)) = userRoles db.
Proof.
  unfold setPermissions_handler.
  destruct (setPermissionsSchema_parse body) as [[roleId perms]|]; [|reflexivity].
  cbv zeta. destruct (Nat.ltb 0 _); [|reflexivity].
  unfold permission_createMany.
  destruct (_ && _); reflexivity.
Qed.

(** X15. After an accepted POST /roles/permissions a user whose only role
    is the role of the request has, on each committee, the level that the
    request names for it: the level of the entry when that is MEMBER or
    LEADER, and NONE on a committee for which every entry says NONE or
    none exists. *)
Theorem X15_set_permissions_decides_the_level_of_the_holders :
  forall (o : RowOrder) (db : Db) (userId : string) (body : SetPermissionsBody)
         (roleId : string) (perms : list (string * PermissionLevel))
         (holder committeeId : string),
    setPermissionsSchema_parse body = Some (roleId, perms) ->
    status_of (snd (setPermissions o db userId body)) = 200 ->
    rolesOf db holder = [roleId] ->
    (forall level,
        In (committeeId, level) perms -> level <> NONE ->
        highestPermission (fst (setPermissions o db userId body)) holder committeeId
        = level)
    /\ ((forall level, In (committeeId, level) perms -> level = NONE) ->
        highestPermission (fst (setPermissions o db userId body)) holder committeeId
        = NONE).
Proof.
  intros o db u body r perms holder c Hparse Hstatus Hroles.
  unfold setPermissions in *.
  destruct (checkIsAdmin db _) as [req|st err] eqn:Eadmin.
  2:{ simpl in Hstatus. now destruct (checkIsAdmin_Reply _ _ _ _ Eadmin). }
  set (db' := fst (setPermissions_handler o db body)) in *.
  set (data := map (fun p => mkPermission r (fst p) (snd p))
                   (filter (fun p => negb (PermissionLevel_eqb (snd p) NONE)) perms)).
  assert (Hrows : unique_keys (filter (row_for r c) (permissions db')) = true
                  /\ forall p, In p (filter (row_for r c) (permissions db'))
                               <-> In p data /\ rcp_committeeId p = c).
  { destruct (setPermissions_handler_rows o db body)
      as [[Hnone _]|[r' [perms' [Hp Hrows]]]]; [congruence|].
    assert (r' = r /\ perms' = perms) as [-> ->] by (split; congruence).
    cbv zeta in Hrows. fold data in Hrows. fold db' in Hrows.
    assert (Hkept : forall p,
               In p (filter (fun p => negb (rcp_roleId p =? r)) (permissions db)) ->
               row_for r c p = false).
    { intros p Hp'. apply filter_In in Hp' as [_ Hp'].
      apply negb_true_iff in Hp'. unfold row_for. now rewrite Hp'. }
    assert (Hdata : forall p, In p data ->
                              (row_for r c p = true <-> rcp_committeeId p = c)).
    { intros p Hp'. unfold data in Hp'. apply in_map_iff in Hp' as [e [<- _]].
      unfold row_for. simpl. rewrite String.eqb_refl. simpl.
      apply String.eqb_eq. }
    destruct Hrows as [[Heq Hempty]|[Heq Hu]]; rewrite Heq.
    - rewrite (Hempty Hstatus). split.
      + replace (filter _ _) with (@nil RoleCommitteePermission); [reflexivity|].
        symmetry. apply find_None_filter. apply find_all_false. exact Hkept.
      + intros p. rewrite filter_In. split; [|intros [[] _]].
        intros [Hin Hrow]. rewrite (Hkept p Hin) in Hrow. discriminate.
    - split; [now apply unique_keys_filter|].
      intros p. rewrite filter_In, in_app_iff. split.
      + intros [[Hin|Hin] Hrow].
        * rewrite (Hkept p Hin) in Hrow. discriminate.
        * split; [exact Hin|]. now apply (Hdata p Hin).
      + intros [Hin Hc]. split; [now right|]. now apply (Hdata p Hin). }
  destruct Hrows as [Huniq Hin].
  assert (Hlevel : highestPermission db' holder c
                   = max_level (levels (filter (row_for r c) (permissions db')))).
  { rewrite highestPermission_max, role_levels_findMany.
    unfold rolesOf in *. unfold db'.
    rewrite setPermissions_handler_userRoles, Hroles. simpl.
    apply level_max_NONE_r. }
  simpl fst. fold db'. rewrite Hlevel. split.
  - intros level Hentry Hlevel'.
    assert (Hp : In (mkPermission r c level) (filter (row_for r c) (permissions db'))).
    { apply Hin. split; [|reflexivity]. unfold data.
      apply (in_map (fun p => mkPermission r (fst p) (snd p)) _ (c, level)).
      apply filter_In. split; [exact Hentry|]. simpl. now destruct level. }
    pose proof (unique_find_in _ _ Huniq Hp) as Hfind. simpl in Hfind.
    pose proof (unique_row_is_found _ r c Huniq) as Hmax.
    rewrite Hfind in Hmax. simpl in Hmax.
    rewrite <- Hmax. f_equal. f_equal.
    symmetry. apply filter_all_true. intros x Hx. now apply filter_In in Hx.
  - intros Hall. apply max_level_NONE. apply Forall_forall. intros l Hl.
    unfold levels in Hl. apply in_map_iff in Hl as [p [<- Hp]].
    apply Hin in Hp as [Hp Hc]. unfold data in Hp.
    apply in_map_iff in Hp as [[c' l'] [<- He]]. simpl in *.
    apply filter_In in He as [He _]. subst c'. now apply Hall.
Qed.

Lemma X15_set_permissions_decides_the_level_of_the_holders_witness :
  let body := mkSetPermissionsBody "member"
                [mkPermissionEntry "events" "NONE";
                 mkPermissionEntry "marketing" "LEADER"] in
  status_of (snd (setPermissions insertion_order db_events "admin1" body)) = 200
  /\ rolesOf db_events "bob" = ["member"]
  /\ highestPermission (fst (setPermissions insertion_order db_events "admin1" body))
       "bob" "marketing" = LEADER
  /\ highestPermission (fst (setPermissions insertion_order db_events "admin1" body))
       "bob" "events" = NONE.
Proof.
  intros body. split; [reflexivity|]. split; [reflexivity|].
  destruct (X15_set_permissions_decides_the_level_of_the_holders insertion_order db_events
              "admin1" body "member" [("events", NONE); ("marketing", LEADER)]
              "bob" "marketing" eq_refl eq_refl eq_refl) as [Hset _].
  destruct (X15_set_permissions_decides_the_level_of_the_holders insertion_order db_events
              "admin1" body "member" [("events", NONE); ("marketing", LEADER)]
              "bob" "events" eq_refl eq_refl eq_refl) as [_ Hnone].
  split.
  - apply Hset; [right; now left|discriminate].
  - apply Hnone. intros level [H|[H|[]]]; congruence.
Defined.


(** ** Creating organizations, committees and roles *)

(** X16. A user who administers nothing, with a valid body and an id that
    no organization has, creates an organization with POST /organizations:
    the answer is 201, the table grows by that one row, GET
    /organizations/me then answers with it, the user passes the
    administrator check, and a second POST /organizations is refused. *)
Theorem X16_created_organization_makes_its_admin :
  forall (isUrl : string -> bool) (db : Db) (newId userId : string)
         (body : CreateOrganizationBody),
    userId <> "" ->
    organization_findFirst_admin db userId = None ->
    createOrganizationSchema_parse isUrl body = true ->
    organization_findUnique db newId = None ->
    user_exists db userId = true ->
    let organization :=
      mkOrganization newId (co_name body) (co_description body)
                     (co_logoUrl body) userId in
    exists db',
      createOrganization isUrl db newId userId body = (db', Json 201 organization)
      /\ organizations db' = organizations db ++ [organization]
      /\ (forall o, getMyOrganization o db' userId = Json 200 organization)
      /\ checkIsAdmin db' (authenticated userId None None)
         = Next (set_isAdmin (authenticated userId None None))
      /\ (forall newId' body',
            createOrganizationSchema_parse isUrl body' = true ->
            createOrganization isUrl db' newId' userId body'
            = (db', Error 400 "Organization already exists for this user")).
Proof.
  intros isUrl db newId u body Hu Hadmin Hparse Hfresh Huser organization.
  unfold createOrganization. rewrite Hparse, Hadmin. simpl negb. cbv iota.
  unfold organization_create. simpl org_id. simpl org_adminUserId.
  assert (Hex : existsb (fun o' => org_id o' =? newId) (organizations db) = false).
  { destruct (existsb _ _) eqn:E; [|reflexivity].
    apply existsb_exists in E as [o [Hin Ho]].
    unfold organization_findUnique in Hfresh.
    pose proof (find_none _ _ Hfresh o Hin). simpl in *. congruence. }
  rewrite Hex, Huser. simpl.
  set (db' := mkDb (users db) (organizations db ++ [organization]) (roles db)
                   (userRoles db) (committees db) (permissions db)
                   (tasks db) (assignments db) (comments db)).
  assert (Hnow : organization_findFirst_admin db' u = Some organization).
  { unfold organization_findFirst_admin in *. simpl.
    apply find_app_fresh; [exact Hadmin|]. simpl. apply String.eqb_refl. }
  exists db'. split; [reflexivity|]. split; [reflexivity|].
  split; [intros o; unfold getMyOrganization; now rewrite Hnow|].
  split; [now apply checkIsAdmin_passes with (org := organization)|].
  intros newId' body' Hparse'. now rewrite Hparse', Hnow.
Qed.

Lemma X16_created_organization_makes_its_admin_witness :
  organization_findFirst_admin db_events "bob" = None
  /\ status_of (snd (createOrganization alwaysValid db_events "o9" "bob"
                       (mkCreateOrganizationBody "Chess Club" None None))) = 201
  /\ getMyOrganization reverse_order
       (fst (createOrganization alwaysValid db_events "o9" "bob"
               (mkCreateOrganizationBody "Chess Club" None None))) "bob"
     = Json 200 (mkOrganization "o9" "Chess Club" None None "bob").
Proof.
  split; [reflexivity|].
  assert (Hu : "bob" <> "") by discriminate.
  destruct (X16_created_organization_makes_its_admin alwaysValid db_events
              "o9" "bob" (mkCreateOrganizationBody "Chess Club" None None)
              Hu eq_refl eq_refl eq_refl eq_refl)
    as [db' [Heq [_ [Hme _]]]].
  rewrite Heq. split; [reflexivity|exact (Hme reverse_order)].
Defined.


(** ** Users *)





Section UserRowUpdate.
Variable f : User -> User.
Hypothesis f_id : forall u, user_id (f u) = user_id u.

Lemma find_user_updated (l : list User) (id : string) :
  find (fun u => user_id u =? id)
       (map (fun u => if user_id u =? id then f u else u) l)
  = option_map f (find (fun u => user_id u =? id) l).
Proof.
  induction l as [|u l IH]; simpl; [reflexivity|].
  destruct (user_id u =? id) eqn:E; simpl.
  - now rewrite f_id, E.
  - now rewrite E.
Qed.

Lemma find_user_other (l : list User) (id other : string) :
  other <> id ->
  find (fun u => user_id u =? other)
       (map (fun u => if user_id u =? id then f u else u) l)
  = find (fun u => user_id u =? other) l.
Proof.
  intros Hneq. induction l as [|u l IH]; simpl; [reflexivity|].
  destruct (user_id u =? id) eqn:E; simpl.
  - rewrite f_id. apply String.eqb_eq in E. rewrite E.
    destruct (id =? other) eqn:E2; [|exact IH].
    apply String.eqb_eq in E2. congruence.
  - now rewrite IH.
Qed.
End UserRowUpdate.

(** X18. PUT /users/:id lets a user rename themselves and lets the
    administrator of any organization rename anybody; everybody else gets
    403 and the store stays as it is.  An accepted request writes the name
    of the body, or nothing when the body has none, and leaves the id, the
    email, the active flag, every other user and every other table. *)
Theorem X18_profile_update_is_for_self_or_admin :
  forall (db : Db) (userId id : string) (name : option string),
    (forall n, name = Some n -> n <> "") ->
    (organization_findFirst_admin db userId = None -> id <> userId ->
     updateUser db userId id name
     = (db, Error 403 "You can only update your own profile"))
    /\ (organization_findFirst_admin db userId <> None \/ id = userId ->
        (user_findUnique db id = None ->
         updateUser db userId id name = (db, internalError))
        /\ (forall user,
              user_findUnique db id = Some user ->
              exists db',
                updateUser db userId id name = (db', Json 200 (set_name name user))
                /\ user_findUnique db' id = Some (set_name name user)
                /\ user_email (set_name name user) = user_email user
                /\ user_isActive (set_name name user) = user_isActive user
                /\ (name = None -> set_name name user = user)
                /\ (forall other, other <> id ->
                      user_findUnique db' other = user_findUnique db other)
                /\ organizations db' = organizations db
                /\ roles db' = roles db /\ userRoles db' = userRoles db
                /\ committees db' = committees db
                /\ permissions db' = permissions db /\ tasks db' = tasks db
                /\ assignments db' = assignments db /\ comments db' = comments db)).
Proof.
  intros db u id name Hvalid.
  assert (Hparse : match name with Some n => n =? "" | None => false end = false).
  { destruct name as [n|]; [|reflexivity]. apply String.eqb_neq. now apply Hvalid. }
  unfold updateUser. rewrite Hparse. split.
  - intros Hadmin Hid. rewrite Hadmin. apply String.eqb_neq in Hid.
    now rewrite Hid.
  - intros Hallowed.
    assert (Hgate : negb (isSome (organization_findFirst_admin db u))
                    && negb (id =? u) = false).
    { destruct Hallowed as [H| ->].
      - destruct (organization_findFirst_admin db u); [reflexivity|congruence].
      - now rewrite String.eqb_refl, andb_false_r. }
    rewrite Hgate. unfold user_update. split.
    + intros H. now rewrite H.
    + intros user H. rewrite H. eexists. split; [reflexivity|].
      assert (Hf : forall x, user_id (set_name name x) = user_id x) by reflexivity.
      unfold user_findUnique in *. simpl.
      split; [now rewrite (find_user_updated (set_name name) Hf), H|].
      do 2 (split; [reflexivity|]).
      split; [intros ->; now destruct user|].
      split; [intros other Ho; now apply (find_user_other (set_name name) Hf)|].
      repeat split.
Qed.

Lemma X18_profile_update_is_for_self_or_admin_witness :
  updateUser db_events "bob" "jane" (Some "Janet")
  = (db_events, Error 403 "You can only update your own profile")
  /\ option_map user_name
       (user_findUnique (fst (updateUser db_events "bob" "bob" (Some "Robert")))
                        "bob")
     = Some "Robert".
Proof.
  assert (Hjanet : forall n, Some "Janet" = Some n -> n <> "")
    by (intros n [= <-]; discriminate).
  assert (Hrobert : forall n, Some "Robert" = Some n -> n <> "")
    by (intros n [= <-]; discriminate).
  destruct (X18_profile_update_is_for_self_or_admin db_events "bob" "jane"
              (Some "Janet") Hjanet) as [Hdenied _].
  destruct (X18_profile_update_is_for_self_or_admin db_events "bob" "bob"
              (Some "Robert") Hrobert) as [_ Hself].
  split; [apply Hdenied; [reflexivity|discriminate]|].
  destruct (proj2 (Hself (or_intror eq_refl)) _ eq_refl) as [db' [Heq [Hfound _]]].
  rewrite Heq. simpl fst. now rewrite Hfound.
Defined.


Lemma usersMap_has_In m id :
  usersMap_has m id = true <-> In id (map (fun e => user_id (uli_user e)) m).
Proof.
  unfold usersMap_has. rewrite existsb_exists, in_map_iff. split.
  - intros [e [He Hid]]. apply String.eqb_eq in Hid. eauto.
  - intros [e [Hid He]]. exists e. split; [exact He|]. now apply String.eqb_eq.
Qed.

Lemma usersMap_push_ids m u r :
  map (fun e => user_id (uli_user e)) (usersMap_push m u r)
  = if usersMap_has m (user_id u)
    then map (fun e => user_id (uli_user e)) m
    else map (fun e => user_id (uli_user e)) m ++ [user_id u].
Proof.
  unfold usersMap_push. rewrite map_map.
  assert (H : forall l,
             map (fun x => user_id (uli_user
                      (if user_id (uli_user x) =? user_id u
                       then mkUserListItem (uli_user x) (uli_roles x ++ [r])
                                           (uli_isAdmin x)
                       else x))) l
             = map (fun e => user_id (uli_user e)) l).
  { intros l. apply map_ext. intros x. now destruct (_ =? _). }
  rewrite H. destruct (usersMap_has m (user_id u)); [reflexivity|].
  now rewrite map_app.
Qed.

(** ** The order of the listings *)

Section OrderBySorted.
Variable A : Type.
Variable leb : A -> A -> bool.
Hypothesis leb_total : forall a b, leb a b = true \/ leb b a = true.
Hypothesis leb_trans : forall a b c,
    leb a b = true -> leb b c = true -> leb a c = true.

Lemma insert_by_sorted x l :
  StronglySorted (fun a b => leb a b = true) l ->
  StronglySorted (fun a b => leb a b = true) (insert_by leb x l).
Proof.
  induction 1 as [|y l Hl IH Hy]; simpl.
  - repeat constructor.
  - destruct (leb x y) eqn:E.
    + constructor; [now constructor|]. constructor; [exact E|].
      rewrite Forall_forall in *. intros z Hz. eapply leb_trans; eauto.
    + constructor; [exact IH|]. rewrite Forall_forall in *.
      intros z Hz. apply insert_by_In in Hz as [->|Hz]; [|auto].
      destruct (leb_total x y); congruence.
Qed.

Lemma orderBy_sorted l :
  StronglySorted (fun a b => leb a b = true) (orderBy leb l).
Proof.
  induction l as [|a l IH]; simpl; [constructor|]. now apply insert_by_sorted.
Qed.
End OrderBySorted.

Lemma task_status_position_leb_spec a b :
  task_status_position_leb a b = true <-> listing_before a b.
Proof.
  unfold task_status_position_leb, listing_before.
  destruct (task_status a), (task_status b); simpl;
    rewrite ?Z.leb_le; split; intros H;
    try (left; lia); try (right; split; [reflexivity|exact H]);
    try reflexivity; try discriminate;
    try (destruct H as [H|[H H']]; [simpl in H; lia|congruence]);
    try (destruct H as [H|[H H']]; [simpl in H; lia|exact H']).
Qed.

Lemma task_position_asc_total a b :
  task_position_asc a b = true \/ task_position_asc b a = true.
Proof. unfold task_position_asc. rewrite !Z.leb_le. lia. Qed.

Lemma task_position_asc_trans a b c :
  task_position_asc a b = true -> task_position_asc b c = true ->
  task_position_asc a c = true.
Proof. unfold task_position_asc. rewrite !Z.leb_le. lia. Qed.

Lemma StronglySorted_impl {A} (R S : A -> A -> Prop) l :
  (forall a b, R a b -> S a b) -> StronglySorted R l -> StronglySorted S l.
Proof.
  intros H. induction 1 as [|a l Hl IH Ha]; constructor; [exact IH|].
  rewrite Forall_forall in *. auto.
Qed.

(** X20. The listing of GET /tasks/committee/:committeeId holds the tasks
    of the committee, each as often as the table has it, ordered by the
    text of the status and then by position: the DONE tasks come first,
    then those IN_PROGRESS, then those TODO. *)
Theorem X20_task_listing_is_ordered_by_status_text_then_position :
  forall (db : Db) (userId committeeId : string) (listing : list Task),
    getCommitteeTasks db userId committeeId = Json 200 listing ->
    Permutation (filter (fun t => task_committeeId t =? committeeId) (tasks db))
                listing
    /\ StronglySorted listing_before listing
    /\ (forall before t after,
          listing = before ++ t :: after ->
          forall t', In t' after ->
            status_rank (task_status t) <= status_rank (task_status t')).
Proof.
  intros db u c listing. unfold getCommitteeTasks.
  destruct (checkCommitteePermission _ _ _); [|discriminate].
  intros [= <-]. unfold task_findMany_committee.
  assert (Hsorted : StronglySorted listing_before
            (orderBy task_status_position_leb
               (filter (fun t => task_committeeId t =? c) (tasks db)))).
  { apply StronglySorted_impl
      with (R := fun a b => task_status_position_leb a b = true).
    - intros a b. apply task_status_position_leb_spec.
    - apply orderBy_sorted.
      + intros a b. rewrite !task_status_position_leb_spec.
        unfold listing_before.
        destruct (task_status a), (task_status b); simpl;
          try (left; left; lia); try (right; left; lia);
          destruct (Z.le_ge_cases (task_position a) (task_position b));
          [left|right| left|right| left|right]; right; split; auto; lia.
      + intros a b d. rewrite !task_status_position_leb_spec.
        unfold listing_before. intros [H1|[H1 H1']] [H2|[H2 H2']].
        * left; lia.
        * left. rewrite <- H2. exact H1.
        * left. rewrite H1. exact H2.
        * right. split; [congruence|lia]. }
  split; [apply orderBy_Permutation|]. split; [exact Hsorted|].
  intros before t after Heq t' Ht'. rewrite Heq in Hsorted.
  clear Heq. induction before as [|x before IH]; simpl in Hsorted.
  - inversion Hsorted as [|? ? _ Hall]; subst.
    rewrite Forall_forall in Hall. destruct (Hall t' Ht') as [H|[H _]];
      [lia|rewrite H; lia].
  - inversion Hsorted; subst. auto.
Qed.

Lemma X20_task_listing_is_ordered_by_status_text_then_position_witness :
  getCommitteeTasks db_events "bob" "events"
  = Json 200 [mkTask "t3" "Send invites" None DONE "events" "jane" None 1;
              mkTask "t1" "Book venue" None TODO "events" "jane" None 0;
              mkTask "t2" "Print flyers" None TODO "events" "jane" None 4]
  /\ StronglySorted listing_before
       [mkTask "t3" "Send invites" None DONE "events" "jane" None 1;
        mkTask "t1" "Book venue" None TODO "events" "jane" None 0;
        mkTask "t2" "Print flyers" None TODO "events" "jane" None 4].
Proof.
  split; [reflexivity|].
  exact (proj1 (proj2
    (X20_task_listing_is_ordered_by_status_text_then_position
       db_events "bob" "events" _ eq_refl))).
Defined.

Lemma filter_status_partition (l : list Task) :
  Permutation l
    (filter (fun t => TaskStatus_eqb (task_status t) TODO) l
     ++ filter (fun t => TaskStatus_eqb (task_status t) IN_PROGRESS) l
     ++ filter (fun t => TaskStatus_eqb (task_status t) DONE) l).
Proof.
  induction l as [|t l IH]; simpl; [constructor|].
  destruct (task_status t); simpl.
  - now constructor.
  - eapply perm_trans; [apply perm_skip, IH|]. apply Permutation_middle.
  - eapply perm_trans; [apply perm_skip, IH|].
    rewrite !app_assoc. apply Permutation_middle.
Qed.

(** X21. The three columns of the board, [getTasksByStatus] at TODO,
    IN_PROGRESS and DONE, share out the tasks it is given: together they
    hold every task exactly as often as the input.  A column holds only
    tasks of its status and is sorted by position. *)
Theorem X21_board_columns_share_out_the_tasks :
  forall (tasks : list Task),
    Permutation tasks
      (getTasksByStatus tasks TODO ++ getTasksByStatus tasks IN_PROGRESS
       ++ getTasksByStatus tasks DONE)
    /\ (forall status t,
          In t (getTasksByStatus tasks status)
          <-> In t tasks /\ task_status t = status)
    /\ (forall status,
          StronglySorted (fun a b => (task_position a <= task_position b)%Z)
                         (getTasksByStatus tasks status)).
Proof.
  intros tasks. unfold getTasksByStatus. split.
  - eapply perm_trans; [apply filter_status_partition|].
    repeat apply Permutation_app; apply orderBy_Permutation.
  - split.
    + intros status t. now rewrite orderBy_In, filter_In, TaskStatus_eqb_eq.
    + intros status.
      apply StronglySorted_impl with (R := fun a b => task_position_asc a b = true).
      * intros a b. unfold task_position_asc. apply Z.leb_le.
      * apply orderBy_sorted;
          [apply task_position_asc_total|apply task_position_asc_trans].
Qed.


(** ** The client *)

Lemma TaskStatus_to_string_inj a b :
  TaskStatus_to_string a = TaskStatus_to_string b -> a = b.
Proof. destruct a, b; simpl; congruence. Qed.



Lemma nodupb_NoDup l : nodupb l = true <-> NoDup l.
Proof.
  induction l as [|x l IH]; simpl.
  - split; [constructor|reflexivity].
  - rewrite andb_true_iff, negb_true_iff, IH. split.
    + intros [Hx Hl]. constructor; [|exact Hl]. intros Hin.
      rewrite existsb_false_forall in Hx. specialize (Hx x Hin).
      now rewrite String.eqb_refl in Hx.
    + intros H. inversion H as [|? ? Hx Hl]; subst. split; [|exact Hl].
      apply existsb_false_forall. intros y Hy. apply String.eqb_neq.
      intros ->. contradiction.
Qed.

Lemma toggleAssignee_In prev userId y :
  In y (toggleAssignee prev userId)
  <-> (y = userId /\ ~ In userId prev) \/ (y <> userId /\ In y prev).
Proof.
  unfold toggleAssignee. destruct (existsb _ prev) eqn:E.
  - apply existsb_exists in E as [z [Hz E]]. apply String.eqb_eq in E. subst z.
    rewrite filter_In, negb_true_iff, String.eqb_neq. split.
    + intros [H1 H2]. right. now split.
    + intros [[-> H]|[H1 H2]]; [contradiction|now split].
  - rewrite existsb_false_forall in E.
    assert (Hnot : ~ In userId prev).
    { intros H. specialize (E userId H). now rewrite String.eqb_refl in E. }
    rewrite in_app_iff. simpl. split.
    + intros [H|[<-|[]]]; [right; split; [intros ->; contradiction|exact H]|].
      left. now split.
    + intros [[-> _]|[_ H]]; [right; now left|now left].
Qed.

Lemma toggleAssignee_NoDup prev userId :
  NoDup prev -> NoDup (toggleAssignee prev userId).
Proof.
  intros H. unfold toggleAssignee. destruct (existsb _ prev) eqn:E.
  - now apply NoDup_filter.
  - apply NoDup_app; [exact H|repeat constructor; intros []|].
    intros x Hx [Heq|[]]. subst x. rewrite existsb_false_forall in E.
    specialize (E userId Hx). now rewrite String.eqb_refl in E.
Qed.

(** X23. [toggleAssignee] flips the selection of one user and leaves the
    others: the user is selected afterwards exactly when they were not
    before.  However the boxes are clicked, starting from the empty
    selection, no user is selected twice, so the [assigneeIds] that the
    form posts never break the unique index on (task, user); with nobody
    selected the form posts no [assigneeIds]. *)
Theorem X23_assignee_selection_has_no_duplicates :
  forall (clicks : list string) (title description committeeId : string),
    let selected := fold_left toggleAssignee clicks [] in
    nodupb selected = true
    /\ (forall userId y,
          In y (toggleAssignee selected userId)
          <-> (y = userId /\ ~ In userId selected)
              \/ (y <> userId /\ In y selected))
    /\ nodupb (match ct_assigneeIds
                       (handleCreateTask_body title description committeeId selected)
               with Some l => l | None => [] end) = true
    /\ (selected = [] ->
        ct_assigneeIds (handleCreateTask_body title description committeeId selected)
        = None).
Proof.
  intros clicks title description c selected.
  assert (Hnd : NoDup selected).
  { unfold selected. generalize (NoDup_nil string).
    generalize (@nil string) as start.
    induction clicks as [|x clicks IH]; simpl; intros start Hs; [exact Hs|].
    apply IH. now apply toggleAssignee_NoDup. }
  split; [now apply nodupb_NoDup|].
  split; [intros userId y; apply toggleAssignee_In|].
  unfold handleCreateTask_body. simpl. split.
  - destruct (Nat.ltb 0 (List.length selected)); [now apply nodupb_NoDup|reflexivity].
  - now intros ->.
Qed.

(** ** Requirements that the middleware never refuses *)

(** X24. The middleware refuses nobody on the requirements ADMIN and NONE:
    an authenticated request with a committee id always proceeds.  On
    ADMIN an administrator is marked [isAdmin]; every other caller goes
    through just the same, with the level found in the roles noted in the
    request. *)
Theorem X24_requirement_ADMIN_refuses_nobody :
  forall (db : Db) (userId committeeId : string),
    userId <> "" -> committeeId <> "" ->
    let req := authenticated userId (Some committeeId) None in
    checkCommitteePermission (Level NONE) db req
      = Next (set_userPermission req (highestPermission db userId committeeId))
    /\ (organization_findFirst_admin db userId <> None ->
        checkCommitteePermission ADMIN db req = Next (set_isAdmin req))
    /\ (organization_findFirst_admin db userId = None ->
        checkCommitteePermission ADMIN db req
        = Next (set_userPermission req (highestPermission db userId committeeId))).
Proof.
  intros db u c Hu Hc req. unfold checkCommitteePermission, req, authenticated.
  simpl req_userId. simpl req_params_committeeId. simpl req_body_committeeId.
  rewrite (truthy_value_nonempty u Hu), (js_or_params c None Hc).
  split; [now rewrite andb_false_r|]. split.
  - intros H. destruct (organization_findFirst_admin db u); [reflexivity|congruence].
  - intros H. now rewrite H.
Qed.

Lemma X24_requirement_ADMIN_refuses_nobody_witness :
  organization_findFirst_admin db_events "walt" = None
  /\ checkCommitteePermission ADMIN db_events
       (authenticated "walt" (Some "events") None)
     = Next (set_userPermission (authenticated "walt" (Some "events") None) NONE).
Proof.
  split; [reflexivity|].
  assert (Hu : "walt" <> "") by discriminate.
  assert (Hc : "events" <> "") by discriminate.
  exact (proj2 (proj2 (X24_requirement_ADMIN_refuses_nobody db_events
                         "walt" "events" Hu Hc)) eq_refl).
Defined.

(** X25. In a store whose permission rows all point to committees, an id
    that is no committee is closed to everybody: the resolver finds NONE,
    the listing of tasks and the creation of a task answer 403, before a
    look at the committee table, and the page of the committee answers
    404. *)
Theorem X25_unknown_committee_is_closed :
  forall (db : Db) (userId committeeId : string),
    userId <> "" -> committeeId <> "" ->
    (forall p, In p (permissions db) ->
               committee_findUnique db (rcp_committeeId p) <> None) ->
    committee_findUnique db committeeId = None ->
    highestPermission db userId committeeId = NONE
    /\ getCommitteeTasks db userId committeeId
       = Error 403 "Insufficient permissions. Member access required."
    /\ (forall isDatetime newDate newId body,
          ct_committeeId body = Some committeeId ->
          createTask isDatetime newDate db newId userId body
          = (db, Error 403 "Insufficient permissions. Leader access required."))
    /\ getCommittee db userId committeeId = Error 404 "Committee not found".
Proof.
  intros db u c Hu Hc Hfk Hnone.
  assert (Hlevel : highestPermission db u c = NONE).
  { apply no_rows_NONE. intros p Hp Heq. apply (Hfk p Hp). now rewrite Heq. }
  split; [exact Hlevel|]. split; [|split].
  - unfold getCommitteeTasks.
    rewrite (checkCommitteePermission_Level MEMBER db u (Some c) None c Hu
               (js_or_params c None Hc)).
    now rewrite Hlevel.
  - intros isDatetime newDate newId body Hbody. unfold createTask.
    rewrite (checkCommitteePermission_Level LEADER db u None
               (ct_committeeId body) c Hu)
      by (rewrite Hbody; now apply truthy_value_nonempty).
    now rewrite Hlevel.
  - unfold getCommittee. now rewrite Hnone.
Qed.

Lemma X25_unknown_committee_is_closed_witness :
  committee_findUnique db_events "c404" = None
  /\ getCommitteeTasks db_events "jane" "c404"
     = Error 403 "Insufficient permissions. Member access required.".
Proof.
  split; [reflexivity|].
  assert (Hu : "jane" <> "") by discriminate.
  assert (Hc : "c404" <> "") by discriminate.
  refine (proj1 (proj2 (X25_unknown_committee_is_closed db_events "jane" "c404"
                          Hu Hc _ eq_refl))).
  intros p [<-|[<-|[<-|[]]]]; discriminate.
Defined.


(* ================================================================== *)
(** * The routes under every order of the database and within the range
      of [Int] *)

(** ** A position outside the range of [Int] *)

(** PATCH /tasks/:id/status with a position that is no [Int]: the update
    throws, the answer is 500 and nothing is written. *)
Lemma updateTaskStatus_position_out_of_range db u id task committee status p :
  task_findUnique_with_committee db id = TaskFound task committee ->
  hasAccess db u task committee = true ->
  fitsInt p = false ->
  updateTaskStatus db u id
    (mkUpdateTaskStatusBody (TaskStatus_to_string status) (Some p))
  = (db, internalError).
Proof.
  intros Hfind Hacc Hp. unfold updateTaskStatus, updateTaskStatusSchema_parse.
  cbn [uts_status uts_position].
  now rewrite parseTaskStatus_to_string, Hfind, Hacc, Hp.
Qed.

(** An accepted move, told by what the store and the answer hold
    afterwards. *)
Lemma updateTaskStatus_moves db u id task committee status position :
  task_findUnique_with_committee db id = TaskFound task committee ->
  hasAccess db u task committee = true ->
  (forall p, position = Some p -> fitsInt p = true) ->
  exists db' moved,
    updateTaskStatus db u id
      (mkUpdateTaskStatusBody (TaskStatus_to_string status) position)
    = (db', Json 200 moved)
    /\ db' = task_update_status db id status
               (match position with Some p => p | None => task_position task end)
    /\ task_findUnique db' id = Some moved
    /\ task_status moved = status
    /\ task_position moved
       = match position with Some p => p | None => task_position task end
    /\ same_content task moved
    /\ (forall other, other <> id ->
          task_findUnique db' other = task_findUnique db other)
    /\ users db' = users db /\ committees db' = committees db
    /\ assignments db' = assignments db /\ comments db' = comments db.
Proof.
  intros Hfind Hacc Hpos.
  destruct (task_findUnique_with_committee_task db id task committee Hfind)
    as [Htask _].
  unfold updateTaskStatus, updateTaskStatusSchema_parse.
  cbn [uts_status uts_position].
  rewrite parseTaskStatus_to_string, Hfind, Hacc. cbv zeta. simpl negb. cbv iota.
  assert (Hfits : match position with Some p => fitsInt p | None => true end
                  = true).
  { destruct position as [p|]; [now apply Hpos|reflexivity]. }
  rewrite Hfits.
  eexists. eexists. split; [reflexivity|]. split; [reflexivity|].
  split; [now rewrite task_findUnique_update, Htask|].
  split; [reflexivity|]. split; [reflexivity|].
  split; [now repeat split|].
  split; [intros other Hneq; now apply task_findUnique_update_other|].
  now repeat split.
Qed.

(** ** Members *)

(** C6. A user whose roles grant MEMBER and never LEADER on a committee
    cannot create a task in it: the answer is 403 and the store is
    untouched.  The user can move a task of the committee to any status,
    with no position or with a position that is an [Int]: the answer is
    200 with the task, which the store then holds under the new status and
    position, unchanged otherwise, as is every other task.  And the user
    can comment on the task: the answer is 201 and the comment is the last
    row of the table. *)
Theorem C6_member_moves_and_comments_but_does_not_create :
  forall (db : Db) (userId committeeId id : string) (task : Task)
         (committee : Committee),
    userId <> "" -> committeeId <> "" ->
    (exists r, In r (rolesOf db userId)
               /\ In (mkPermission r committeeId MEMBER) (permissions db)) ->
    (forall r, In r (rolesOf db userId) ->
               ~ In (mkPermission r committeeId LEADER) (permissions db)) ->
    user_exists db userId = true ->
    task_findUnique db id = Some task ->
    task_committeeId task = committeeId ->
    committee_findUnique db committeeId = Some committee ->
    (forall isDatetime newDate newId body,
        ct_committeeId body = Some committeeId ->
        createTask isDatetime newDate db newId userId body
        = (db, Error 403 "Insufficient permissions. Leader access required."))
    /\ (forall status position,
          (forall p, position = Some p -> fitsInt p = true) ->
          exists db' moved,
            updateTaskStatus db userId id
              (mkUpdateTaskStatusBody (TaskStatus_to_string status) position)
            = (db', Json 200 moved)
            /\ task_findUnique db' id = Some moved
            /\ task_status moved = status
            /\ task_position moved
               = match position with
                 | Some p => p
                 | None => task_position task
                 end
            /\ same_content task moved
            /\ (forall other, other <> id ->
                  task_findUnique db' other = task_findUnique db other)
            /\ assignments db' = assignments db
            /\ comments db' = comments db)
    /\ (forall content,
          content <> "" ->
          exists db',
            addComment db userId id content
              = (db', Json 201 (mkComment content id userId))
            /\ comments db' = comments db ++ [mkComment content id userId]
            /\ tasks db' = tasks db).
Proof.
  intros db u c id task committee Hu Hc [r [Hr Hrow]] Hnolead Huser Htask Hcid
         Hcom.
  assert (Hfind : task_findUnique_with_committee db id = TaskFound task committee).
  { apply task_findUnique_with_committee_found; [exact Htask|]. now rewrite Hcid. }
  assert (Hacc : hasAccess db u task committee = true).
  { unfold hasAccess.
    destruct (isSome (organization_findFirst_id_admin db _ u)); [reflexivity|].
    rewrite Hcid. unfold some_permission. apply existsb_exists.
    destruct (userRole_findMany_in db u c r Hr) as [ur [Hur Heq]].
    exists ur. split; [exact Hur|]. apply existsb_exists.
    exists (mkPermission r c MEMBER). split; [|reflexivity].
    rewrite Heq. apply in_role_permissions_where. auto. }
  split; [|split].
  - intros isDatetime newDate newId body Hbody. unfold createTask.
    rewrite (checkCommitteePermission_Level LEADER db u None
               (ct_committeeId body) c Hu)
      by (rewrite Hbody; now apply truthy_value_nonempty).
    destruct (highestPermission db u c) eqn:E; try reflexivity.
    apply highestPermission_LEADER_row in E as [r' [Hr' Hrow']].
    now destruct (Hnolead r' Hr').
  - intros status position Hpos.
    destruct (updateTaskStatus_moves db u id task committee status position
                Hfind Hacc Hpos)
      as [db' [moved [Heq [_ [H1 [H2 [H3 [H4 [H5 [_ [_ [H6 H7]]]]]]]]]]]].
    exists db', moved. repeat split; auto; apply H4.
  - intros content Hcontent. unfold addComment.
    destruct (content =? "") eqn:E; [apply String.eqb_eq in E; contradiction|].
    rewrite Hfind, Hacc. simpl. unfold comment_create. simpl.
    rewrite Htask, Huser. simpl. eexists. repeat split.
Qed.

Lemma C6_member_moves_and_comments_but_does_not_create_witness :
  createTask alwaysValid asWritten db_events "t9" "bob"
    (mkCreateTaskBody "Order food" None (Some "events") None None)
  = (db_events, Error 403 "Insufficient permissions. Leader access required.")
  /\ (exists db' moved,
        updateTaskStatus db_events "bob" "t1"
          (mkUpdateTaskStatusBody "DONE" (Some 7%Z)) = (db', Json 200 moved)
        /\ task_findUnique db' "t1" = Some moved
        /\ task_status moved = DONE
        /\ task_position moved = 7%Z)
  /\ status_of (snd (addComment db_events "bob" "t1" "Venue is booked")) = 201.
Proof.
  assert (Hu : "bob" <> "") by discriminate.
  assert (Hc : "events" <> "") by discriminate.
  assert (Hmember : exists r, In r (rolesOf db_events "bob")
             /\ In (mkPermission r "events" MEMBER) (permissions db_events)).
  { exists "member". split; simpl; auto. }
  assert (Hnolead : forall r, In r (rolesOf db_events "bob") ->
             ~ In (mkPermission r "events" LEADER) (permissions db_events)).
  { intros r [<-|[]] [H|[H|[H|[]]]]; discriminate. }
  destruct (C6_member_moves_and_comments_but_does_not_create
              db_events "bob" "events" "t1"
              (mkTask "t1" "Book venue" None TODO "events" "jane" None 0)
              (mkCommittee "events" "Events" "o1")
              Hu Hc Hmember Hnolead eq_refl eq_refl eq_refl eq_refl)
    as [Hcreate [Hmove Hcomment]].
  split; [apply Hcreate; reflexivity|].
  split.
  - destruct (Hmove DONE (Some 7%Z)) as [db' [moved [H1 [H2 [H3 [H4 _]]]]]].
    + intros p [= <-]. reflexivity.
    + exists db', moved. auto.
  - destruct (Hcomment "Venue is booked") as [db' [Heq _]]; [discriminate|].
    now rewrite Heq.
Defined.

(** Not every move by a member succeeds: a position above the greatest
    [Int] is answered 500 and nothing is written, the greatest [Int]
    itself is accepted. *)
Lemma C6_member_moves_and_comments_but_does_not_create_counterexample :
  rolesOf db_events "bob" = ["member"]
  /\ highestPermission db_events "bob" "events" = MEMBER
  /\ option_map task_committeeId (task_findUnique db_events "t1") = Some "events"
  /\ updateTaskStatus db_events "bob" "t1"
       (mkUpdateTaskStatusBody "DONE" (Some 2147483648%Z))
     = (db_events, Error 500 "Internal server error")
  /\ status_of (snd (updateTaskStatus db_events "bob" "t1"
                       (mkUpdateTaskStatusBody "DONE" (Some 2147483647%Z))))
     = 200.
Proof. repeat split. Qed.

(** ** The position of a new task and of a moved one *)

(** C7. POST /tasks by a user with a LEADER row on the committee, in a
    column whose next position is an [Int], is accepted and stores the
    task with status TODO and a position one above the greatest position
    of the committee's TODO column, 0 when the column is empty.  A later
    PATCH /tasks/:id/status to DONE with a position of the caller that is
    an [Int] is accepted and puts the task into the DONE column of the
    listing at that position, and no TODO column lists it any more. *)
Theorem C7_created_task_is_last_in_TODO_then_moves_to_DONE :
  forall (isDatetime : string -> bool) (newDate : string -> string) (db : Db)
         (newId userId committeeId : string) (body : CreateTaskBody)
         (committee : Committee),
    userId <> "" -> committeeId <> "" ->
    (exists r, In r (rolesOf db userId)
               /\ In (mkPermission r committeeId LEADER) (permissions db)) ->
    ct_committeeId body = Some committeeId ->
    ct_title body <> "" ->
    (forall d, ct_dueDate body = Some d -> isDatetime d = true) ->
    task_findUnique db newId = None ->
    committee_findUnique db committeeId = Some committee ->
    user_exists db userId = true ->
    forallb (user_exists db)
            (match ct_assigneeIds body with Some l => l | None => [] end) = true ->
    nodupb (match ct_assigneeIds body with Some l => l | None => [] end) = true ->
    (forall last, In last (column db committeeId TODO) ->
                  (task_position last < 2147483647)%Z) ->
    (forall x, In x (column db committeeId TODO) ->
               (-2147483648 <= task_position x)%Z) ->
    exists db1 t,
      createTask isDatetime newDate db newId userId body = (db1, Json 201 t)
      /\ task_id t = newId
      /\ task_status t = TODO
      /\ task_committeeId t = committeeId
      /\ ((column db committeeId TODO = [] /\ task_position t = 0%Z)
          \/ exists last,
               In last (column db committeeId TODO)
               /\ (forall x, In x (column db committeeId TODO) ->
                             (task_position x <= task_position last)%Z)
               /\ task_position t = (task_position last + 1)%Z)
      /\ In t (column db1 committeeId TODO)
      /\ task_findUnique_with_committee db1 newId = TaskFound t committee
      /\ (forall db' caller position t' committee',
            task_findUnique_with_committee db' newId = TaskFound t' committee' ->
            task_committeeId t' = committeeId ->
            hasAccess db' caller t' committee' = true ->
            fitsInt position = true ->
            exists db2 moved,
              updateTaskStatus db' caller newId
                (mkUpdateTaskStatusBody "DONE" (Some position))
                = (db2, Json 200 moved)
              /\ task_id moved = newId
              /\ task_status moved = DONE
              /\ task_position moved = position
              /\ In moved (column db2 committeeId DONE)
              /\ task_findUnique db2 newId = Some moved
              /\ forall c x, In x (column db2 c TODO) -> task_id x <> newId).
Proof.
  intros isDatetime newDate db newId u c body committee Hu Hc [r [Hr Hrow]]
         Hbody Htitle Hdue Hfresh Hcom Huser Hasg Hnodup Hmax Hmin.
  assert (Hfits : fitsInt (match task_findFirst_last_todo db c with
                           | Some last => task_position last + 1
                           | None => 0
                           end)%Z = true).
  { unfold fitsInt.
    destruct (task_findFirst_last_todo_spec db c)
      as [[Hnone _]|[last [Hsome [Hin _]]]].
    - rewrite Hnone. reflexivity.
    - rewrite Hsome. pose proof (Hmax last Hin). pose proof (Hmin last Hin).
      apply andb_true_iff. split; apply Z.leb_le; lia. }
  destruct (createTask_handler_accepts isDatetime newDate db newId u c body
              committee Hbody Htitle Hdue Hfresh Hcom Huser Hasg Hnodup Hfits)
    as [db1 [t [Hcreate [Ht [Htasks Hcoms]]]]].
  exists db1, t.
  split.
  { unfold createTask.
    rewrite (checkCommitteePermission_Level LEADER db u None
               (ct_committeeId body) c Hu)
      by (rewrite Hbody; now apply truthy_value_nonempty).
    now rewrite (leader_row_highest db u c r Hr Hrow). }
  split; [now rewrite Ht|]. split; [now rewrite Ht|]. split; [now rewrite Ht|].
  split.
  { destruct (task_findFirst_last_todo_spec db c)
      as [[Hnone Hempty]|[last [Hsome [Hin Hle]]]].
    - left. split; [exact Hempty|]. now rewrite Ht, Hnone.
    - right. exists last. split; [exact Hin|]. split; [exact Hle|].
      now rewrite Ht, Hsome. }
  assert (Hfind1 : task_findUnique db1 newId = Some t).
  { unfold task_findUnique in *. rewrite Htasks.
    apply find_app_fresh; [exact Hfresh|].
    rewrite Ht. simpl. apply String.eqb_refl. }
  split.
  { apply in_column. rewrite Htasks. split; [|now rewrite Ht].
    apply in_or_app. right. now left. }
  split.
  { apply task_findUnique_with_committee_found; [exact Hfind1|].
    unfold committee_findUnique in *. rewrite Hcoms.
    now rewrite Ht. }
  intros db' caller position t' committee' Hfind' Hc' Hacc Hpos.
  destruct (updateTaskStatus_moves db' caller newId t' committee' DONE
              (Some position) Hfind' Hacc)
    as [db2 [moved [Heq [Hdb2 [Hf2 [Hst [Hp [Hsame _]]]]]]]].
  { intros p [= <-]. exact Hpos. }
  exists db2, moved. split; [exact Heq|].
  destruct (task_findUnique_with_committee_task db' newId t' committee' Hfind')
    as [Hf _].
  split; [rewrite (proj1 Hsame); now apply (task_findUnique_id db' newId)|].
  split; [exact Hst|]. split; [exact Hp|].
  destruct (moved_task_columns db' newId t' c DONE position Hf Hc')
    as [Hin Hout].
  rewrite <- Hdb2 in Hin, Hout.
  assert (Hmoved : moved = set_status_position t' DONE position).
  { rewrite Hdb2, task_findUnique_update, Hf in Hf2. simpl in Hf2. congruence. }
  split; [now rewrite Hmoved|]. split; [exact Hf2|].
  intros c0 x Hx. apply (Hout TODO c0 x); [discriminate|exact Hx].
Qed.

Lemma C7_created_task_is_last_in_TODO_then_moves_to_DONE_witness :
  let body := mkCreateTaskBody "Order food" None (Some "events") None
                               (Some ["bob"]) in
  task_findUnique db_events "t9" = None
  /\ user_exists db_events "jane" = true
  /\ exists db1 t,
       createTask alwaysValid asWritten db_events "t9" "jane" body
       = (db1, Json 201 t)
       /\ task_status t = TODO
       /\ task_position t = 5%Z
       /\ exists db2 moved,
            updateTaskStatus db1 "bob" "t9"
              (mkUpdateTaskStatusBody "DONE" (Some 2%Z))
              = (db2, Json 200 moved)
            /\ task_position moved = 2%Z
            /\ In moved (column db2 "events" DONE).
Proof.
  intros body.
  split; [reflexivity|]. split; [reflexivity|].
  assert (Hu : "jane" <> "") by discriminate.
  assert (Hc : "events" <> "") by discriminate.
  assert (Hleader : exists r, In r (rolesOf db_events "jane")
             /\ In (mkPermission r "events" LEADER) (permissions db_events)).
  { exists "chair". split; simpl; auto. }
  assert (Htitle : ct_title body <> "") by discriminate.
  assert (Hdue : forall d, ct_dueDate body = Some d -> alwaysValid d = true)
    by reflexivity.
  assert (Hcol : column db_events "events" TODO
                 = [mkTask "t1" "Book venue" None TODO "events" "jane" None 0;
                    mkTask "t2" "Print flyers" None TODO "events" "jane" None 4])
    by reflexivity.
  assert (Hmax : forall last, In last (column db_events "events" TODO) ->
                              (task_position last < 2147483647)%Z).
  { rewrite Hcol. intros last [<-|[<-|[]]]; simpl; lia. }
  assert (Hmin : forall x, In x (column db_events "events" TODO) ->
                           (-2147483648 <= task_position x)%Z).
  { rewrite Hcol. intros last [<-|[<-|[]]]; simpl; lia. }
  destruct (C7_created_task_is_last_in_TODO_then_moves_to_DONE
              alwaysValid asWritten db_events "t9" "jane" "events" body
              (mkCommittee "events" "Events" "o1")
              Hu Hc Hleader eq_refl Htitle Hdue eq_refl eq_refl eq_refl
              eq_refl eq_refl Hmax Hmin)
    as [db1 [t [Hcreate [Hid [Hst [Hcom [Hpos [Hin [Hfind Hmove]]]]]]]]].
  exists db1, t. split; [exact Hcreate|]. split; [exact Hst|].
  assert (Heq : t = mkTask "t9" "Order food" None TODO "events" "jane" None 5
                /\ db1 = set_tasks_assignments db_events
                           (tasks db_events
                              ++ [mkTask "t9" "Order food" None TODO "events"
                                         "jane" None 5])
                           (assignments db_events
                              ++ [mkTaskAssignment "t9" "bob"])).
  { assert (H : createTask alwaysValid asWritten db_events "t9" "jane" body
                = (set_tasks_assignments db_events
                     (tasks db_events
                        ++ [mkTask "t9" "Order food" None TODO "events"
                                   "jane" None 5])
                     (assignments db_events ++ [mkTaskAssignment "t9" "bob"]),
                   Json 201 (mkTask "t9" "Order food" None TODO "events"
                                    "jane" None 5))) by reflexivity.
    rewrite Hcreate in H. injection H as H1 H2. now split. }
  destruct Heq as [Ht Hdb].
  split; [now rewrite Ht|].
  destruct (Hmove db1 "bob" 2%Z t (mkCommittee "events" "Events" "o1") Hfind Hcom)
    as [db2 [moved [Hupd [_ [_ [Hp [Hdone _]]]]]]].
  { rewrite Ht, Hdb. reflexivity. }
  { reflexivity. }
  exists db2, moved. auto.
Defined.

(** Not every new task gets the position after the last one, and not
    every move to DONE takes the position of the caller: when the last
    task of the TODO column stands at the greatest [Int], POST /tasks is
    answered 500 and stores nothing; and a move of the new task to DONE
    with a position above the greatest [Int] is answered 500, the task
    stays in the TODO column. *)
Lemma C7_created_task_is_last_in_TODO_then_moves_to_DONE_counterexample :
  let full := fst (updateTaskStatus db_events "bob" "t2"
                     (mkUpdateTaskStatusBody "TODO" (Some 2147483647%Z))) in
  let body := mkCreateTaskBody "Order food" None (Some "events") None None in
  let db1 := fst (createTask alwaysValid asWritten db_events "t9" "jane" body) in
  map task_position (column full "events" TODO) = [0%Z; 2147483647%Z]
  /\ highestPermission full "jane" "events" = LEADER
  /\ createTask alwaysValid asWritten full "t9" "jane" body
     = (full, Error 500 "Internal server error")
  /\ map task_id (column db1 "events" TODO) = ["t1"; "t2"; "t9"]
  /\ updateTaskStatus db1 "jane" "t9"
       (mkUpdateTaskStatusBody "DONE" (Some 2147483648%Z))
     = (db1, Error 500 "Internal server error")
  /\ map task_id (column db1 "events" DONE) = ["t3"].
Proof. repeat split. Qed.

(** ** Transitions of the status *)

(** C9. A user whose effective level on the committee of a task is at
    least MEMBER can move the task from its status, whatever it is, to any
    of the three statuses, its own included, with no position or with a
    position that is an [Int]: the request is answered 200 and the task is
    stored with the new status. *)
Theorem C9_any_status_transition_is_accepted :
  forall (db : Db) (userId id : string) (task : Task) (committee : Committee)
         (from to : TaskStatus) (position : option Z),
    task_findUnique db id = Some task ->
    task_status task = from ->
    committee_findUnique db (task_committeeId task) = Some committee ->
    level_le MEMBER (resolve db userId committee) ->
    (forall p, position = Some p -> fitsInt p = true) ->
    exists db' moved,
      updateTaskStatus db userId id
        (mkUpdateTaskStatusBody (TaskStatus_to_string to) position)
      = (db', Json 200 moved)
      /\ task_findUnique db' id = Some moved
      /\ task_status moved = to
      /\ task_position moved
         = match position with Some p => p | None => task_position task end
      /\ same_content task moved
      /\ (forall other, other <> id ->
            task_findUnique db' other = task_findUnique db other).
Proof.
  intros db u id task committee from to position Htask _ Hcom Hlevel Hpos.
  assert (Hfind : task_findUnique_with_committee db id = TaskFound task committee)
    by now apply task_findUnique_with_committee_found.
  assert (Hacc : hasAccess db u task committee = true).
  { apply member_hasAccess; [|exact Hlevel].
    eapply committee_findUnique_id; eauto. }
  destruct (updateTaskStatus_moves db u id task committee to position
              Hfind Hacc Hpos)
    as [db' [moved [Heq [_ [H1 [H2 [H3 [H4 [H5 _]]]]]]]]].
  exists db', moved. repeat split; auto; apply H4.
Qed.

Lemma C9_any_status_transition_is_accepted_witness :
  level_le MEMBER (resolve db_events "bob" (mkCommittee "events" "Events" "o1"))
  /\ exists db' moved,
       updateTaskStatus db_events "bob" "t3"
         (mkUpdateTaskStatusBody "TODO" (Some 2147483647%Z))
       = (db', Json 200 moved)
       /\ task_findUnique db' "t3" = Some moved
       /\ task_status moved = TODO.
Proof.
  assert (H : level_le MEMBER
                (resolve db_events "bob" (mkCommittee "events" "Events" "o1")))
    by (unfold level_le; simpl; lia).
  split; [exact H|].
  destruct (C9_any_status_transition_is_accepted db_events "bob" "t3"
              (mkTask "t3" "Send invites" None DONE "events" "jane" None 1)
              (mkCommittee "events" "Events" "o1") DONE TODO
              (Some 2147483647%Z) eq_refl eq_refl eq_refl H)
    as [db' [moved [H1 [H2 [H3 _]]]]].
  - intros p [= <-]. reflexivity.
  - exists db', moved. auto.
Defined.

(** The permission is not the only guard of a move: a leader who moves a
    task with a position below the least [Int] is answered 500, and 200
    with the least [Int] itself. *)
Lemma C9_any_status_transition_is_accepted_counterexample :
  resolve db_events "jane" (mkCommittee "events" "Events" "o1") = LEADER
  /\ option_map task_status (task_findUnique db_events "t1") = Some TODO
  /\ updateTaskStatus db_events "jane" "t1"
       (mkUpdateTaskStatusBody "IN_PROGRESS" (Some (-2147483649)%Z))
     = (db_events, Error 500 "Internal server error")
  /\ status_of (snd (updateTaskStatus db_events "jane" "t1"
                       (mkUpdateTaskStatusBody "IN_PROGRESS"
                          (Some (-2147483648)%Z))))
     = 200.
Proof. repeat split. Qed.

(** ** Callers without roles *)

(** C4. A user who holds no role and administers no organization resolves
    to NONE on every committee and is served by no operation behind a
    permission check, none of which writes to the store.  The routes
    behind [checkCommitteePermission] answer 403 for every committee id
    that is not empty, and the routes behind [checkIsAdmin] answer 403.
    The routes that look a task or a committee up and then check the
    caller answer 403 when the body is valid and the task or committee
    exists; validation answers 400 and the lookup 404 before the check.
    GET /committees answers 404, for the user belongs to no
    organization. *)
Theorem C4_user_without_roles_is_denied :
  forall (db : Db) (userId : string),
    userId <> "" ->
    rolesOf db userId = [] ->
    organization_findFirst_admin db userId = None ->
    (forall c, highestPermission db userId c = NONE)
    /\ (forall committee, resolve db userId committee = NONE)
    /\ (forall c,
          getCommitteeTasks db userId c
          = if c =? "" then Error 400 "Committee ID required"
            else Error 403 "Insufficient permissions. Member access required.")
    /\ (forall isDatetime newDate newId body,
          createTask isDatetime newDate db newId userId body
          = (db, match truthy_value (ct_committeeId body) with
                 | Some _ =>
                     Error 403 "Insufficient permissions. Leader access required."
                 | None => Error 400 "Committee ID required"
                 end))
    /\ (forall id, getTask db userId id = refusal_after_lookup db id "Access denied")
    /\ (forall id body,
          updateTaskStatus db userId id body
          = (db, if isSome (updateTaskStatusSchema_parse body)
                 then refusal_after_lookup db id "Access denied"
                 else ZodError))
    /\ (forall id content,
          addComment db userId id content
          = (db, if content =? "" then ZodError
                 else refusal_after_lookup db id "Access denied"))
    /\ (forall isDatetime newDate o id body,
          updateTask isDatetime newDate o db userId id body
          = (db, if isSome (updateTaskSchema_parse isDatetime body)
                 then refusal_after_lookup db id
                        "Insufficient permissions. Leader access required."
                 else ZodError))
    /\ (forall id,
          deleteTask db userId id
          = (db, refusal_after_lookup db id
                   "Insufficient permissions. Leader access required."))
    /\ (forall id,
          getCommittee db userId id
          = match committee_findUnique db id with
            | Some _ => Error 403 "Access denied"
            | None => Error 404 "Committee not found"
            end)
    /\ (forall o, getCommittees o db userId = Error 404 "No organization found")
    /\ (forall newId body,
          createCommittee db newId userId body
          = (db, Error 403 "Admin access required"))
    /\ (forall id body,
          updateCommittee db userId id body
          = (db, Error 403 "Admin access required"))
    /\ (forall id,
          deleteCommittee db userId id = (db, Error 403 "Admin access required"))
    /\ (forall newId body,
          createRole db newId userId body = (db, Error 403 "Admin access required"))
    /\ (forall o id body,
          updateRole o db userId id body = (db, Error 403 "Admin access required"))
    /\ (forall id,
          deleteRole db userId id = (db, Error 403 "Admin access required"))
    /\ (forall target roleId,
          assignRole db userId target roleId
          = (db, Error 403 "Admin access required")
          /\ removeRole db userId target roleId
             = (db, Error 403 "Admin access required"))
    /\ (forall o body,
          setPermissions o db userId body = (db, Error 403 "Admin access required"))
    /\ (forall isUrl id body,
          updateOrganization isUrl db userId id body
          = (db, Error 403 "Admin access required"))
    /\ (forall o, getUsers o db userId = Error 403 "Admin access required")
    /\ (forall active id,
          setUserActive active db userId id
          = (db, Error 403 "Admin access required")).
Proof.
  intros db u Hu Hroles Hadmin.
  assert (Hnone : forall c, highestPermission db u c = NONE)
    by (intros c; now apply no_roles_NONE).
  assert (Hchecks : forall task committee,
             hasAccess db u task committee = false
             /\ isLeader db u task committee = false)
    by (intros task committee; now apply no_roles_no_access).
  assert (Hcheck : checkIsAdmin db (authenticated u None None)
                   = Reply 403 "Admin access required")
    by now apply checkIsAdmin_refuses.
  split; [exact Hnone|].
  split.
  { intros committee. unfold resolve.
    rewrite (not_admin_of_any db u _ Hadmin). simpl.
    unfold max_over_roles. now rewrite Hroles. }
  split.
  { intros c. unfold getCommitteeTasks.
    destruct (c =? "") eqn:E.
    - apply String.eqb_eq in E. subst c. unfold checkCommitteePermission.
      cbn [req_userId authenticated]. now rewrite (truthy_value_nonempty u Hu).
    - apply String.eqb_neq in E.
      rewrite (checkCommitteePermission_Level MEMBER db u (Some c) None c Hu
                 (js_or_params c None E)).
      now rewrite Hnone. }
  split.
  { intros isDatetime newDate newId body. unfold createTask.
    destruct (truthy_value (ct_committeeId body)) as [c|] eqn:E.
    - rewrite (checkCommitteePermission_Level LEADER db u None
                 (ct_committeeId body) c Hu E).
      now rewrite Hnone.
    - unfold checkCommitteePermission.
      cbn [req_userId req_params_committeeId req_body_committeeId authenticated].
      rewrite (truthy_value_nonempty u Hu).
      change (js_or None (ct_committeeId body)) with (ct_committeeId body).
      now rewrite E. }
  unfold refusal_after_lookup.
  split.
  { intros id. unfold getTask.
    destruct (task_findUnique_with_committee db id) as [t c| |]; try reflexivity.
    now rewrite (proj1 (Hchecks t c)). }
  split.
  { intros id body. unfold updateTaskStatus.
    destruct (updateTaskStatusSchema_parse body) as [[s p]|]; [|reflexivity].
    destruct (task_findUnique_with_committee db id) as [t c| |]; try reflexivity.
    now rewrite (proj1 (Hchecks t c)). }
  split.
  { intros id content. unfold addComment.
    destruct (content =? ""); [reflexivity|].
    destruct (task_findUnique_with_committee db id) as [t c| |]; try reflexivity.
    now rewrite (proj1 (Hchecks t c)). }
  split.
  { intros isDatetime newDate o id body. unfold updateTask.
    destruct (updateTaskSchema_parse isDatetime body); [|reflexivity].
    destruct (task_findUnique_with_committee db id) as [t c| |]; try reflexivity.
    now rewrite (proj2 (Hchecks t c)). }
  split.
  { intros id. unfold deleteTask.
    destruct (task_findUnique_with_committee db id) as [t c| |]; try reflexivity.
    now rewrite (proj2 (Hchecks t c)). }
  split.
  { intros id. unfold getCommittee.
    destruct (committee_findUnique db id) as [committee|]; [|reflexivity].
    rewrite (not_admin_of_any db u _ Hadmin). simpl.
    now rewrite (no_roles_no_rows db u id Hroles). }
  split.
  { intros o. unfold getCommittees, caller_organizationId.
    now rewrite Hadmin, (no_roles_no_first_row o db u Hroles). }
  unfold createCommittee, updateCommittee, deleteCommittee, createRole,
    updateRole, deleteRole, assignRole, removeRole, setPermissions,
    updateOrganization, getUsers, setUserActive.
  rewrite Hcheck. repeat split.
Qed.

Lemma C4_user_without_roles_is_denied_witness :
  "walt" <> ""
  /\ rolesOf db_with_guest "walt" = []
  /\ organization_findFirst_admin db_with_guest "walt" = None
  /\ getCommitteeTasks db_with_guest "walt" "events"
     = Error 403 "Insufficient permissions. Member access required."
  /\ deleteTask db_with_guest "walt" "t1"
     = (db_with_guest,
        Error 403 "Insufficient permissions. Leader access required.").
Proof.
  assert (Hu : "walt" <> "") by discriminate.
  split; [exact Hu|]. split; [reflexivity|]. split; [reflexivity|].
  destruct (C4_user_without_roles_is_denied db_with_guest "walt"
              Hu eq_refl eq_refl)
    as [_ [_ [Hlist [_ [_ [_ [_ [_ [Hdelete _]]]]]]]]].
  split; [exact (Hlist "events")|exact (Hdelete "t1")].
Defined.

(** Not every operation behind a permission check answers the user
    without roles with 403: a task that does not exist is answered 404, a
    body that fails validation 400, and GET /committees 404. *)
Lemma C4_user_without_roles_is_denied_counterexample :
  rolesOf db_with_guest "walt" = []
  /\ organization_findFirst_admin db_with_guest "walt" = None
  /\ getTask db_with_guest "walt" "t404" = Error 404 "Task not found"
  /\ updateTaskStatus db_with_guest "walt" "t1"
       (mkUpdateTaskStatusBody "BLOCKED" None)
     = (db_with_guest, ZodError)
  /\ getCommittees insertion_order db_with_guest "walt"
     = Error 404 "No organization found".
Proof. repeat split. Qed.

(** ** The list of committees, whatever the order of the rows *)

Lemma level_max_comm a b : level_max a b = level_max b a.
Proof. now destruct a, b. Qed.

Lemma max_level_Permutation l l' :
  Permutation l l' -> max_level l = max_level l'.
Proof.
  induction 1 as [|x l l' _ IH|x y l|l l' l'' _ IH1 _ IH2]; simpl.
  - reflexivity.
  - fold (max_level l) (max_level l'). now rewrite IH.
  - fold (max_level l).
    now rewrite !level_max_assoc, (level_max_comm y x).
  - congruence.
Qed.

(** Under the unique index two rows of one role for one committee are one
    row. *)
Lemma unique_keys_In_eq l p q :
  unique_keys l = true -> In p l -> In q l -> same_key p q = true -> p = q.
Proof.
  induction l as [|x l IH]; simpl; [intros _ []|].
  intros H Hp Hq Hk. apply andb_true_iff in H as [Hx Hl].
  apply negb_true_iff in Hx. rewrite existsb_false_forall in Hx.
  destruct Hp as [<-|Hp], Hq as [<-|Hq]; auto.
  - rewrite (Hx q Hq) in Hk. discriminate.
  - specialize (Hx p Hp). unfold same_key in *.
    rewrite (String.eqb_sym (rcp_roleId x)), (String.eqb_sym (rcp_committeeId x))
      in Hx. congruence.
Qed.

(** [find] on rows of which at most one passes does not depend on their
    order. *)
Lemma find_Permutation_unique {A} (f : A -> bool) (l l' : list A) :
  Permutation l l' ->
  (forall x y, In x l -> In y l -> f x = true -> f y = true -> x = y) ->
  find f l' = find f l.
Proof.
  intros Hperm Huniq.
  destruct (find f l) as [x|] eqn:E.
  - apply find_some in E as [Hin Hf].
    destruct (find_In_Some f l' x (Permutation_in x Hperm Hin) Hf) as [y Hy].
    rewrite Hy. apply find_some in Hy as [Hy Hfy].
    f_equal. apply Huniq; auto.
    apply (Permutation_in y (Permutation_sym Hperm) Hy).
  - apply find_all_false. intros x Hx.
    apply (find_none f l E).
    apply (Permutation_in x (Permutation_sym Hperm) Hx).
Qed.

(** The level that the loop of GET /committees finds for a committee is
    the level of the resolver, in whatever order the database hands the
    roles and their rows over. *)
Lemma scanUserRoles_find_resolver o db u c :
  unique_keys (permissions db) = true ->
  scanUserRoles_find (userRole_findMany_all o db u) c NONE
  = highestPermission db u c
  /\ highestPermission db u c = max_over_roles db u c.
Proof.
  intros Huniq.
  pose proof (highestPermission_max_over_roles db u c Huniq) as Hmax.
  split; [|exact Hmax]. rewrite Hmax.
  rewrite scanUserRoles_find_max, level_max_NONE_l.
  unfold max_over_roles, userRole_findMany_all, rolesOf. rewrite !map_map.
  transitivity
    (max_level
       (map (fun ur => rolePermission db (ur_roleId ur) c)
            (ordered_userRoles o
               (filter (fun ur => ur_userId ur =? u) (userRoles db))))).
  - f_equal. apply map_ext. intros ur. cbn [urp_permissions].
    unfold rolePermission.
    rewrite (find_Permutation_unique _ _ _
               (Permutation_sym (ordered_permissions_perm o _))).
    + now rewrite find_filter.
    + intros x y Hx Hy Hfx Hfy.
      apply filter_In in Hx as [Hx Hrx], Hy as [Hy Hry].
      apply (unique_keys_In_eq (permissions db) x y Huniq Hx Hy).
      apply String.eqb_eq in Hrx, Hry, Hfx, Hfy. unfold same_key.
      now rewrite Hrx, Hry, Hfx, Hfy, !String.eqb_refl.
  - apply max_level_Permutation, Permutation_map, ordered_userRoles_perm.
Qed.

(** What [findFirst] answers with is a row of the user. *)
Lemma userRole_findFirst_In o db u ur :
  userRole_findFirst o db u = Some ur ->
  In ur (userRoles db) /\ ur_userId ur = u /\ In (ur_roleId ur) (rolesOf db u).
Proof.
  unfold userRole_findFirst. intros H.
  assert (Hin : In ur (filter (fun ur => ur_userId ur =? u) (userRoles db))).
  { apply (Permutation_in ur (ordered_userRoles_perm o _)).
    destruct (ordered_userRoles o _); [discriminate|].
    injection H as ->. now left. }
  split; [now apply filter_In in Hin|].
  split; [apply filter_In in Hin as [_ H']; now apply String.eqb_eq|].
  unfold rolesOf. now apply in_map.
Qed.

(** The answer of GET /committees to a caller who administers nothing. *)
Lemma getCommittees_of_roles o db u org :
  organization_findFirst_admin db u = None ->
  caller_organizationId o db u = Some (Some org) ->
  org <> "" ->
  getCommittees o db u
  = Json 200
      (filter (fun i => negb (PermissionLevel_eqb (cli_userPermission i) NONE))
         (map (fun c =>
                 mkCommitteeListItem c
                   (committee_task_summaries o db (committee_id c))
                   (scanUserRoles_find (userRole_findMany_all o db u)
                                       (committee_id c) NONE))
              (ordered_committees o
                 (filter (fun c => committee_organizationId c =? org)
                         (committees db))))).
Proof.
  intros Hadmin Horg Ho.
  unfold getCommittees. now rewrite Horg, (truthy_value_nonempty org Ho), Hadmin.
Qed.

Lemma committee_task_summaries_Permutation o db c :
  Permutation (committee_task_summaries o db c)
    (map (fun t => (task_id t, task_status t))
         (filter (fun t => task_committeeId t =? c) (tasks db))).
Proof.
  unfold committee_task_summaries. apply Permutation_map, ordered_tasks_perm.
Qed.

Lemma Permutation_filter {A} (f : A -> bool) (l l' : list A) :
  Permutation l l' -> Permutation (filter f l) (filter f l').
Proof.
  induction 1 as [|x l l' _ IH|x y l|l l' l'' _ IH1 _ IH2]; simpl.
  - constructor.
  - destruct (f x); [now constructor|exact IH].
  - destruct (f x), (f y); try reflexivity. constructor.
  - now transitivity (filter f l').
Qed.

(** X1. For a caller who administers no organization, GET /committees
    answers with the committees, each once and in the order of the
    database, of one organization: the organization of the role of the
    [user_roles] row that [findFirst] meets.  It lists the committees of
    that organization on which the level of the resolver is not NONE,
    each with that level as [userPermission], which is the maximum over
    the caller's roles, and with the id and status of its tasks. *)
Theorem X1_committee_list_shows_the_accessible_committees :
  forall (o : RowOrder) (db : Db) (userId organizationId : string),
    unique_keys (permissions db) = true ->
    organization_findFirst_admin db userId = None ->
    caller_organizationId o db userId = Some (Some organizationId) ->
    organizationId <> "" ->
    exists items,
      getCommittees o db userId = Json 200 items
      /\ Permutation (map cli_committee items)
           (filter (fun c => (committee_organizationId c =? organizationId)
                             && negb (PermissionLevel_eqb
                                        (highestPermission db userId
                                           (committee_id c))
                                        NONE))
                   (committees db))
      /\ (forall item,
            In item items ->
            cli_userPermission item
            = highestPermission db userId (committee_id (cli_committee item))
            /\ cli_userPermission item
               = max_over_roles db userId (committee_id (cli_committee item))
            /\ Permutation (cli_tasks item)
                 (map (fun t => (task_id t, task_status t))
                      (filter (fun t => task_committeeId t
                                          =? committee_id (cli_committee item))
                              (tasks db))))
      /\ (exists r role,
            In r (rolesOf db userId)
            /\ role_findUnique db r = Some role
            /\ role_organizationId role = organizationId).
Proof.
  intros o db u org Huniq Hadmin Horg Ho.
  rewrite (getCommittees_of_roles o db u org Hadmin Horg Ho).
  eexists. split; [reflexivity|].
  assert (Hscan : forall c,
             scanUserRoles_find (userRole_findMany_all o db u) c NONE
             = highestPermission db u c)
    by (intros c; now apply scanUserRoles_find_resolver).
  split; [|split].
  - rewrite filter_map_commute, map_map. cbn [cli_userPermission cli_committee].
    rewrite map_id.
    erewrite filter_ext by (intros c; now rewrite Hscan).
    rewrite <- filter_filter_and.
    apply Permutation_filter, ordered_committees_perm.
  - intros item Hitem. apply filter_In in Hitem as [Hitem _].
    apply in_map_iff in Hitem as [c [<- _]].
    cbn [cli_userPermission cli_committee cli_tasks].
    split; [apply Hscan|].
    split; [rewrite Hscan; now apply scanUserRoles_find_resolver|].
    apply committee_task_summaries_Permutation.
  - unfold caller_organizationId in Horg. rewrite Hadmin in Horg.
    destruct (userRole_findFirst o db u) as [ur|] eqn:Efirst; [|discriminate].
    destruct (role_findUnique db (ur_roleId ur)) as [role|] eqn:Erole;
      [|discriminate].
    exists (ur_roleId ur), role.
    split; [now apply (userRole_findFirst_In o db u ur)|].
    split; [exact Erole|congruence].
Qed.

Lemma X1_committee_list_shows_the_accessible_committees_witness :
  unique_keys (permissions db_events) = true
  /\ organization_findFirst_admin db_events "jane" = None
  /\ caller_organizationId reverse_order db_events "jane" = Some (Some "o1")
  /\ exists items,
       getCommittees reverse_order db_events "jane" = Json 200 items
       /\ map (fun i => (committee_id (cli_committee i), cli_userPermission i))
              items
          = [("marketing", MEMBER); ("events", LEADER)]
       /\ Permutation (map cli_committee items)
            [mkCommittee "events" "Events" "o1";
             mkCommittee "marketing" "Marketing" "o1"].
Proof.
  split; [reflexivity|]. split; [reflexivity|]. split; [reflexivity|].
  assert (Ho : "o1" <> "") by discriminate.
  destruct (X1_committee_list_shows_the_accessible_committees
              reverse_order db_events "jane" "o1" eq_refl eq_refl eq_refl Ho)
    as [items [Heq [Hperm _]]].
  exists items. split; [exact Heq|]. split; [|exact Hperm].
  assert (H : getCommittees reverse_order db_events "jane"
              = Json 200
                  [mkCommitteeListItem (mkCommittee "marketing" "Marketing" "o1")
                     [] MEMBER;
                   mkCommitteeListItem (mkCommittee "events" "Events" "o1")
                     [("t3", DONE); ("t2", TODO); ("t1", TODO)] LEADER])
    by reflexivity.
  rewrite Heq in H. injection H as ->. reflexivity.
Defined.



(** ** Editing a task *)

Lemma position_accepted (position : option Z) :
  (forall p, position = Some p -> fitsInt p = true) ->
  match position with Some p => negb (fitsInt p) | None => false end = false.
Proof.
  intros H. destruct position as [p|]; [|reflexivity]. now rewrite (H p eq_refl).
Qed.

(** X8. PUT /tasks/:id asks for the leader check: a caller who fails it
    gets 403 and the store stays as it is.  For a caller who passes, a
    body without [assigneeIds] whose position, if it has one, is an [Int]
    rewrites the fields it names and no other: the task keeps its id,
    committee and creator, a field that the body leaves out keeps its
    value, the due date can be set, to the date that [new Date] makes of
    the string, but not cleared, every other task, the assignments and the
    comments stay, and the empty body changes nothing.  The answer is the
    task with its assignees, in the order of the database. *)
Theorem X8_editing_a_task_writes_the_named_fields :
  forall (isDatetime : string -> bool) (newDate : string -> string)
         (o : RowOrder) (db : Db) (userId id : string)
         (body : UpdateTaskBody) (task : Task) (committee : Committee)
         (status : option TaskStatus),
    task_findUnique_with_committee db id = TaskFound task committee ->
    updateTaskSchema_parse isDatetime body = Some status ->
    (isLeader db userId task committee = false ->
     updateTask isDatetime newDate o db userId id body
     = (db, Error 403 "Insufficient permissions. Leader access required."))
    /\ (isLeader db userId task committee = true ->
        ut_assigneeIds body = None ->
        (forall p, ut_position body = Some p -> fitsInt p = true) ->
        exists db' task' assignees,
          updateTask isDatetime newDate o db userId id body
          = (db', Json 200 (Some (mkTaskView task' assignees)))
          /\ Permutation assignees
               (map ta_userId
                    (filter (fun a => ta_taskId a =? id) (assignments db)))
          /\ task_findUnique db' id = Some task'
          /\ task_id task' = task_id task
          /\ task_committeeId task' = task_committeeId task
          /\ task_createdById task' = task_createdById task
          /\ task_title task'
             = match ut_title body with Some v => v | None => task_title task end
          /\ task_description task'
             = match ut_description body with
               | Some v => Some v
               | None => task_description task
               end
          /\ task_status task'
             = match status with Some v => v | None => task_status task end
          /\ task_dueDate task'
             = match truthy_value (ut_dueDate body) with
               | Some d => Some (newDate d)
               | None => task_dueDate task
               end
          /\ task_position task'
             = match ut_position body with
               | Some v => v
               | None => task_position task
               end
          /\ (forall other, other <> id ->
                task_findUnique db' other = task_findUnique db other)
          /\ assignments db' = assignments db
          /\ comments db' = comments db
          /\ (ut_title body = None -> ut_description body = None ->
              ut_status body = None -> ut_dueDate body = None ->
              ut_position body = None -> db' = db)).
Proof.
  intros isDatetime newDate o db u id body task committee status Hfind Hparse.
  destruct (task_findUnique_with_committee_task db id task committee Hfind)
    as [Htask _].
  unfold updateTask. rewrite Hparse, Hfind. split.
  - intros H. now rewrite H.
  - intros H Hasg Hpos. cbv zeta.
    rewrite H, Hasg, (position_accepted _ Hpos). simpl negb. cbv iota.
    pose (f := fun t => task_with_data t (ut_title body) (ut_description body)
                          status
                          (if truthy (ut_dueDate body)
                           then option_map newDate (ut_dueDate body) else None)
                          (ut_position body)).
    assert (Hf : forall t, task_id (f t) = task_id t) by reflexivity.
    pose proof (find_task_updated f Hf (tasks db) id) as Hupd.
    pose proof (fun other => find_task_other f Hf (tasks db) id other) as Hother.
    unfold f in Hupd, Hother. cbv beta in Hupd, Hother.
    unfold task_findUnique in Htask. rewrite Htask in Hupd. simpl in Hupd.
    eexists. eexists. eexists. split.
    + unfold task_findUnique_view, task_findUnique. simpl.
      rewrite Hupd. reflexivity.
    + split; [apply Permutation_map, ordered_assignments_perm|].
      split; [exact Hupd|]. do 6 (split; [reflexivity|]).
      split.
      { cbn [task_dueDate task_with_data]. unfold truthy_value.
        destruct (ut_dueDate body) as [d|]; [|reflexivity].
        now destruct (truthy (Some d)). }
      split; [reflexivity|].
      split; [exact Hother|].
      do 2 (split; [reflexivity|]).
      intros H1 H2 H3 H4 H5.
      assert (Hst : status = None).
      { unfold updateTaskSchema_parse in Hparse.
        rewrite H1, H3, H4 in Hparse. congruence. }
      transitivity (set_tasks db (tasks db)); [|apply set_tasks_same].
      f_equal. apply map_id_ext. intros t. destruct (task_id t =? id); [|reflexivity].
      rewrite H1, H2, H4, H5, Hst. simpl.
      apply task_with_data_nothing.
Qed.

Lemma X8_editing_a_task_writes_the_named_fields_witness :
  let body := mkUpdateTaskBody (Some "Book the hall") None (Some "IN_PROGRESS")
                               (Some "2026-01-31T18:00:00.000Z") (Some 3%Z)
                               None in
  task_findUnique_with_committee db_events "t1"
    = TaskFound (mkTask "t1" "Book venue" None TODO "events" "jane" None 0)
                (mkCommittee "events" "Events" "o1")
  /\ updateTaskSchema_parse alwaysValid body = Some (Some IN_PROGRESS)
  /\ task_findUnique
       (fst (updateTask alwaysValid asWritten reverse_order db_events
               "jane" "t1" body)) "t1"
     = Some (mkTask "t1" "Book the hall" None IN_PROGRESS "events" "jane"
                    (Some "2026-01-31T18:00:00.000Z") 3)
  /\ updateTask alwaysValid asWritten reverse_order db_events "bob" "t1" body
     = (db_events, Error 403 "Insufficient permissions. Leader access required.").
Proof.
  intros body. split; [reflexivity|]. split; [reflexivity|].
  destruct (X8_editing_a_task_writes_the_named_fields alwaysValid asWritten
              reverse_order db_events "jane" "t1" body _ _ _ eq_refl eq_refl)
    as [_ Hjane].
  destruct (X8_editing_a_task_writes_the_named_fields alwaysValid asWritten
              reverse_order db_events "bob" "t1" body _ _ _ eq_refl eq_refl)
    as [Hbob _].
  split; [|now apply Hbob].
  destruct (Hjane eq_refl eq_refl) as [db' [task' [asg [Heq [_ [Hfound _]]]]]].
  - intros p [= <-]. reflexivity.
  - rewrite Heq. simpl fst. rewrite Hfound. f_equal.
    assert (H : updateTask alwaysValid asWritten reverse_order db_events
                  "jane" "t1" body
                = (set_tasks db_events
                     [mkTask "t1" "Book the hall" None IN_PROGRESS "events" "jane"
                             (Some "2026-01-31T18:00:00.000Z") 3;
                      mkTask "t2" "Print flyers" None TODO "events" "jane" None 4;
                      mkTask "t3" "Send invites" None DONE "events" "jane" None 1],
                   Json 200
                     (Some (mkTaskView
                              (mkTask "t1" "Book the hall" None IN_PROGRESS
                                      "events" "jane"
                                      (Some "2026-01-31T18:00:00.000Z") 3)
                              [])))) by reflexivity.
    rewrite Heq in H. now injection H as _ ->.
Defined.

(** X9. For a caller who passes the leader check, PUT /tasks/:id with
    [assigneeIds], and with a position that is an [Int] if it has one,
    replaces the assignees of the task: when the ids are users and no id
    comes twice, the task is assigned to exactly the users of the body,
    whom the answer lists in the order of the database, and the empty list
    clears the assignees; the assignments of the other tasks stay. *)
Theorem X9_editing_a_task_replaces_its_assignees :
  forall (isDatetime : string -> bool) (newDate : string -> string)
         (o : RowOrder) (db : Db) (userId id : string)
         (body : UpdateTaskBody) (task : Task) (committee : Committee)
         (status : option TaskStatus) (assigneeIds : list string),
    task_findUnique_with_committee db id = TaskFound task committee ->
    updateTaskSchema_parse isDatetime body = Some status ->
    isLeader db userId task committee = true ->
    ut_assigneeIds body = Some assigneeIds ->
    (forall p, ut_position body = Some p -> fitsInt p = true) ->
    forallb (user_exists db) assigneeIds = true ->
    nodupb assigneeIds = true ->
    unique_assignments (assignments db) = true ->
    exists db' task' listed,
      updateTask isDatetime newDate o db userId id body
      = (db', Json 200 (Some (mkTaskView task' listed)))
      /\ Permutation listed assigneeIds
      /\ task_findUnique db' id = Some task'
      /\ (forall u, In (mkTaskAssignment id u) (assignments db')
                    <-> In u assigneeIds)
      /\ Permutation
           (map ta_userId (filter (fun a => ta_taskId a =? id) (assignments db')))
           assigneeIds
      /\ (forall a, ta_taskId a <> id ->
            (In a (assignments db') <-> In a (assignments db)))
      /\ unique_assignments (assignments db') = true
      /\ comments db' = comments db.
Proof.
  intros isDatetime newDate o db u id body task committee status l
         Hfind Hparse Hlead Hasg Hpos Husers Hnodup Huniq.
  destruct (task_findUnique_with_committee_task db id task committee Hfind)
    as [Htask _].
  unfold updateTask.
  rewrite Hparse, Hfind, Hlead, Hasg, (position_accepted _ Hpos).
  simpl negb. cbv iota.
  pose (f := fun t => task_with_data t (ut_title body) (ut_description body)
                        status
                        (if truthy (ut_dueDate body)
                         then option_map newDate (ut_dueDate body) else None)
                        (ut_position body)).
  assert (Hf : forall t, task_id (f t) = task_id t) by reflexivity.
  pose proof (find_task_updated f Hf (tasks db) id) as Hupd.
  unfold f in Hupd. cbv beta in Hupd.
  unfold task_findUnique in Htask. rewrite Htask in Hupd. simpl in Hupd.
  assert (Hkeep : forall a, ta_taskId a <> id ->
             (In a (filter (fun a => negb (ta_taskId a =? id)) (assignments db))
              <-> In a (assignments db))).
  { intros a Ha. rewrite filter_In, negb_true_iff, String.eqb_neq. tauto. }
  assert (Hgone : forall v,
             ~ In (mkTaskAssignment id v)
                  (filter (fun a => negb (ta_taskId a =? id)) (assignments db))).
  { intros v Hv. apply filter_In in Hv as [_ Hv]. simpl in Hv.
    now rewrite String.eqb_refl in Hv. }
  destruct l as [|x l].
  - simpl. eexists. eexists. eexists. split.
    + unfold task_findUnique_view, task_findUnique. simpl. rewrite Hupd.
      reflexivity.
    + split.
      { rewrite assignments_of_task_deleted.
        rewrite (Permutation_nil
                   (Permutation_sym (ordered_assignments_perm o []))).
        constructor. }
      split; [exact Hupd|]. simpl.
      split; [intros v; split; [intros Hv; now apply Hgone in Hv|intros []]|].
      split; [now rewrite assignments_of_task_deleted|].
      split; [exact Hkeep|].
      split; [now apply unique_assignments_filter|reflexivity].
  - set (data := map (fun a => mkTaskAssignment id a) (x :: l)).
    replace (Nat.ltb 0 (List.length (x :: l))) with true by reflexivity.
    unfold assignment_createMany.
    rewrite (forallb_assignment_users db _ id (x :: l)); [|reflexivity|].
    2:{ unfold task_findUnique. simpl. now rewrite Hupd. }
    rewrite Husers. simpl andb.
    assert (Hu : unique_assignments
                   (filter (fun a => negb (ta_taskId a =? id)) (assignments db)
                      ++ data) = true).
    { apply unique_assignments_app. split; [now apply unique_assignments_filter|].
      split; [unfold data; now rewrite unique_assignments_of_task|].
      intros a b Ha Hb. apply filter_In in Ha as [_ Ha].
      unfold data in Hb. apply in_map_iff in Hb as [y [<- _]].
      unfold same_assignment. simpl. apply negb_true_iff in Ha. now rewrite Ha. }
    simpl assignments. rewrite Hu.
    eexists. eexists. eexists. split.
    + unfold task_findUnique_view, task_findUnique. simpl tasks. rewrite Hupd.
      simpl assignments. unfold data.
      rewrite assignments_of_task_after_replace. reflexivity.
    + split.
      { rewrite <- (map_userId_of_task id (x :: l)) at 2.
        apply Permutation_map, ordered_assignments_perm. }
      split; [exact Hupd|].
      cbn [assignments comments set_assignments assignment_deleteMany set_tasks].
      split.
      { intros v. rewrite in_app_iff. split.
        - intros [Hv|Hv]; [now apply Hgone in Hv|].
          unfold data in Hv. apply in_map_iff in Hv as [y [Hy Hin]].
          now injection Hy as <-.
        - intros Hv. right. unfold data.
          now apply (in_map (fun a => mkTaskAssignment id a)). }
      split; [unfold data;
              now rewrite assignments_of_task_after_replace, map_userId_of_task|].
      split; [|split; [exact Hu|reflexivity]].
      intros a Ha. rewrite in_app_iff, (Hkeep a Ha). split; [|tauto].
      intros [H|H]; [exact H|].
      unfold data in H. apply in_map_iff in H as [y [<- _]]. now destruct Ha.
Qed.

Lemma X9_editing_a_task_replaces_its_assignees_witness :
  let body := mkUpdateTaskBody None None None None None (Some ["jane"; "bob"]) in
  unique_assignments (assignments db_events) = true
  /\ nodupb ["jane"; "bob"] = true
  /\ snd (updateTask alwaysValid asWritten reverse_order db_events
            "jane" "t1" body)
     = Json 200
         (Some (mkTaskView
                  (mkTask "t1" "Book venue" None TODO "events" "jane" None 0)
                  ["bob"; "jane"]))
  /\ exists db' task' listed,
       updateTask alwaysValid asWritten reverse_order db_events "jane" "t1" body
       = (db', Json 200 (Some (mkTaskView task' listed)))
       /\ Permutation listed ["jane"; "bob"].
Proof.
  intros body. split; [reflexivity|]. split; [reflexivity|].
  split; [reflexivity|].
  destruct (X9_editing_a_task_replaces_its_assignees alwaysValid asWritten
              reverse_order db_events "jane" "t1" body _ _ _ ["jane"; "bob"]
              eq_refl eq_refl eq_refl eq_refl)
    as [db' [task' [listed [Heq [Hperm _]]]]]; try reflexivity.
  - intros p [=].
  - exists db', task', listed. auto.
Defined.



(** ** The flags of the users and the routes *)



Section SameUsers.
(** Two stores that differ in the table of users only, and there in no id. *)
Variable db : Db.
Variable us' : list User.
Hypothesis same_ids :
  forall v, user_exists (set_users db us') v = user_exists db v.










End SameUsers.



Lemma X17_deactivation_changes_no_permission_decision_example :
  option_map user_isActive
    (user_findUnique (fst (deactivateUser db_events "admin1" "bob")) "bob")
  = Some false
  /\ status_of (snd (updateTaskStatus (fst (deactivateUser db_events "admin1" "bob"))
                       "bob" "t1" (mkUpdateTaskStatusBody "DONE" None))) = 200.
Proof. split; reflexivity. Qed.

(** ** The list of users *)

(** The rows of [userRole.findMany] with their user and role. *)
Lemma joined_rows db (l : list UserRole) (rows : list (User * Role)) :
  fold_right
    (fun ur acc =>
       match role_findUnique db (ur_roleId ur),
             user_findUnique db (ur_userId ur), acc with
       | Some r, Some u, Some rows => Some ((u, r) :: rows)
       | _, _, _ => None
       end)
    (Some []) l = Some rows ->
  forall u r,
    In (u, r) rows
    <-> exists ur, In ur l
                   /\ role_findUnique db (ur_roleId ur) = Some r
                   /\ user_findUnique db (ur_userId ur) = Some u.
Proof.
  revert rows. induction l as [|x l IH]; simpl; intros rows.
  - intros [= <-] u r. split; [intros []|intros [ur [[] _]]].
  - destruct (role_findUnique db (ur_roleId x)) as [rx|] eqn:Er; [|discriminate].
    destruct (user_findUnique db (ur_userId x)) as [ux|] eqn:Eu; [|discriminate].
    destruct (fold_right _ _ l) as [rows'|]; [|discriminate].
    intros [= <-] u r. simpl. rewrite (IH rows' eq_refl u r). split.
    + intros [[= <- <-]|[ur [Hin H]]]; [exists x; auto|exists ur; auto].
    + intros [ur [[<-|Hin] [H1 H2]]]; [left; congruence|right; exists ur; auto].
Qed.

Lemma userRole_findMany_organization_rows o db org rows :
  userRole_findMany_organization o db org = Some rows ->
  forall u r,
    In (u, r) rows
    <-> exists ur, In ur (userRoles db)
                   /\ role_findUnique db (ur_roleId ur) = Some r
                   /\ role_organizationId r = org
                   /\ user_findUnique db (ur_userId ur) = Some u.
Proof.
  unfold userRole_findMany_organization. intros H u r.
  rewrite (joined_rows db _ rows H u r). split.
  - intros [ur [Hin [Hr Hu]]]. exists ur.
    apply (Permutation_in ur (ordered_userRoles_perm o _)) in Hin.
    apply filter_In in Hin as [Hin Horg]. unfold role_in_organization in Horg.
    rewrite Hr in Horg. apply String.eqb_eq in Horg. auto.
  - intros [ur [Hin [Hr [Horg Hu]]]]. exists ur. split; [|auto].
    apply (Permutation_in ur (Permutation_sym (ordered_userRoles_perm o _))).
    apply filter_In. split; [exact Hin|]. unfold role_in_organization.
    rewrite Hr. now apply String.eqb_eq.
Qed.

(** A row that the organization's user roles can hold without the ORM
    throwing: every lookup of a user and of a role succeeds. *)
Lemma userRole_findMany_organization_complete o db org rows ur r :
  userRole_findMany_organization o db org = Some rows ->
  In ur (userRoles db) ->
  role_findUnique db (ur_roleId ur) = Some r ->
  role_organizationId r = org ->
  exists u, user_findUnique db (ur_userId ur) = Some u /\ In (u, r) rows.
Proof.
  intros H Hin Hr Horg.
  assert (Hl : In ur (ordered_userRoles o
                        (filter (role_in_organization db org) (userRoles db)))).
  { apply (Permutation_in ur (Permutation_sym (ordered_userRoles_perm o _))).
    apply filter_In. split; [exact Hin|]. unfold role_in_organization.
    rewrite Hr. now apply String.eqb_eq. }
  unfold userRole_findMany_organization in H. revert rows H Hl.
  induction (ordered_userRoles o _) as [|x l IH]; simpl; intros rows H [].
  - subst x. rewrite Hr in H.
    destruct (user_findUnique db (ur_userId ur)) as [u|]; [|discriminate].
    destruct (fold_right _ _ l) as [rows'|]; [|discriminate].
    injection H as <-. exists u. split; [reflexivity|now left].
  - destruct (role_findUnique db (ur_roleId x)) as [rx|]; [|discriminate].
    destruct (user_findUnique db (ur_userId x)) as [ux|]; [|discriminate].
    destruct (fold_right _ _ l) as [rows'|] eqn:E; [|discriminate].
    injection H as <-.
    destruct (IH rows' eq_refl H0) as [u [Hu Hrow]].
    exists u. split; [exact Hu|now right].
Qed.

Section UsersMap.
Variable db : Db.

(** What the loop of GET /users keeps of its map after the rows [done]:
    no user twice; every entry is a row of the table of users, is not
    flagged as administrator and carries at least one role, and only roles
    of rows that the loop has seen; every row that the loop has seen is in
    the roles of the entry of its user. *)
Let kept (m : list UserListItem) (done : list (User * Role)) : Prop :=
  NoDup (map (fun e => user_id (uli_user e)) m)
  /\ (forall e, In e m ->
        user_findUnique db (user_id (uli_user e)) = Some (uli_user e)
        /\ uli_isAdmin e = false
        /\ uli_roles e <> []
        /\ forall r, In r (uli_roles e) -> In (uli_user e, r) done)
  /\ (forall u r, In (u, r) done ->
        exists e, In e m /\ uli_user e = u /\ In r (uli_roles e)).

Lemma usersMap_push_kept m done u r :
  user_findUnique db (user_id u) = Some u ->
  kept m done -> kept (usersMap_push m u r) (done ++ [(u, r)]).
Proof.
  intros Hu [Hnd [Hall Hseen]].
  set (m' := if usersMap_has m (user_id u) then m
             else m ++ [mkUserListItem u [] false]).
  assert (Hm' : forall x, In x m' ->
             user_findUnique db (user_id (uli_user x)) = Some (uli_user x)
             /\ uli_isAdmin x = false
             /\ (forall r0, In r0 (uli_roles x) -> In (uli_user x, r0) done)
             /\ (uli_roles x = [] -> uli_user x = u)).
  { intros x Hx. unfold m' in Hx.
    assert (Hold : In x m ->
               user_findUnique db (user_id (uli_user x)) = Some (uli_user x)
               /\ uli_isAdmin x = false
               /\ (forall r0, In r0 (uli_roles x) -> In (uli_user x, r0) done)
               /\ (uli_roles x = [] -> uli_user x = u)).
    { intros H. destruct (Hall x H) as [H1 [H2 [H3 H4]]].
      repeat split; auto. intros H5. contradiction. }
    destruct (usersMap_has m (user_id u)); [auto|].
    apply in_app_or in Hx as [Hx|[<-|[]]]; [auto|].
    simpl. repeat split; auto. intros r0 []. }
  assert (Hsame : forall x, In x m' -> user_id (uli_user x) = user_id u ->
                            uli_user x = u).
  { intros x Hx Hid. destruct (Hm' x Hx) as [Hf _]. rewrite Hid in Hf.
    congruence. }
  assert (Hin : forall e, In e (usersMap_push m u r) <->
             exists x, In x m'
               /\ e = if user_id (uli_user x) =? user_id u
                      then mkUserListItem (uli_user x) (uli_roles x ++ [r])
                                          (uli_isAdmin x)
                      else x).
  { intros e. unfold usersMap_push. fold m'. rewrite in_map_iff.
    split; intros [x [H1 H2]]; exists x; auto. }
  split; [|split].
  - rewrite usersMap_push_ids.
    destruct (usersMap_has m (user_id u)) eqn:E; [exact Hnd|].
    apply NoDup_app; [exact Hnd|repeat constructor; intros []|].
    intros x Hx [<-|[]]. apply usersMap_has_In in Hx. congruence.
  - intros e He. apply Hin in He as [x [Hx ->]].
    destruct (Hm' x Hx) as [H1 [H2 [H3 H4]]].
    destruct (user_id (uli_user x) =? user_id u) eqn:E; simpl.
    + apply String.eqb_eq in E. pose proof (Hsame x Hx E) as Hxu.
      split; [exact H1|]. split; [exact H2|].
      split; [now destruct (uli_roles x)|].
      intros r0 Hr0. apply in_or_app.
      apply in_app_or in Hr0 as [Hr0|[<-|[]]]; [left; auto|].
      right. left. now rewrite Hxu.
    + split; [exact H1|]. split; [exact H2|].
      split.
      { intros Hnil. apply H4 in Hnil. rewrite Hnil in E.
        now rewrite String.eqb_refl in E. }
      intros r0 Hr0. apply in_or_app. left. auto.
  - intros u0 r0 H0. apply in_app_or in H0 as [H0|[[= <- <-]|[]]].
    + destruct (Hseen u0 r0 H0) as [e [He [Heu Her]]].
      assert (He' : In e m').
      { unfold m'. destruct (usersMap_has m (user_id u)); [exact He|].
        apply in_or_app. now left. }
      eexists. split; [apply Hin; exists e; split; [exact He'|reflexivity]|].
      destruct (user_id (uli_user e) =? user_id u); simpl; split; auto.
      apply in_or_app. now left.
    + assert (Hx : exists x, In x m' /\ user_id (uli_user x) = user_id u).
      { unfold m'. destruct (usersMap_has m (user_id u)) eqn:E.
        - unfold usersMap_has in E. apply existsb_exists in E as [x [Hx Hid]].
          apply String.eqb_eq in Hid. eauto.
        - eexists. split; [apply in_or_app; right; now left|reflexivity]. }
      destruct Hx as [x [Hx Hid]].
      eexists. split; [apply Hin; exists x; split; [exact Hx|reflexivity]|].
      rewrite Hid, String.eqb_refl. simpl.
      split; [now apply Hsame|]. apply in_or_app. right. now left.
Qed.

Lemma usersMap_fold_kept rows : forall m done,
  (forall u r, In (u, r) rows -> user_findUnique db (user_id u) = Some u) ->
  kept m done ->
  kept (fold_left (fun m ur => usersMap_push m (fst ur) (snd ur)) rows m)
       (done ++ rows).
Proof.
  induction rows as [|[u r] rows IH]; simpl; intros m done Hrows Hm.
  - now rewrite app_nil_r.
  - replace (done ++ (u, r) :: rows) with ((done ++ [(u, r)]) ++ rows)
      by now rewrite <- app_assoc.
    apply IH; [intros u0 r0 H0; apply (Hrows u0 r0); now right|].
    apply usersMap_push_kept; [apply (Hrows u r); now left|exact Hm].
Qed.

(** The map of GET /users when the loop has run. *)
Lemma usersMap_of_rows rows :
  (forall u r, In (u, r) rows -> user_findUnique db (user_id u) = Some u) ->
  let usersMap :=
    fold_left (fun m ur => usersMap_push m (fst ur) (snd ur)) rows [] in
  NoDup (map (fun e => user_id (uli_user e)) usersMap)
  /\ (forall e, In e usersMap ->
        user_findUnique db (user_id (uli_user e)) = Some (uli_user e)
        /\ uli_isAdmin e = false
        /\ uli_roles e <> []
        /\ forall r, In r (uli_roles e) -> In (uli_user e, r) rows)
  /\ (forall u r, In (u, r) rows ->
        exists e, In e usersMap /\ uli_user e = u /\ In r (uli_roles e)).
Proof.
  intros Hrows.
  apply (usersMap_fold_kept rows [] [] Hrows).
  split; [constructor|]. split; [intros e []|intros u r []].
Qed.
End UsersMap.

Lemma user_findUnique_id db id u :
  user_findUnique db id = Some u -> user_id u = id.
Proof.
  unfold user_findUnique. intros H. apply find_some in H as [_ H].
  now apply String.eqb_eq.
Qed.

Lemma role_findUnique_id db id r :
  role_findUnique db id = Some r -> role_id r = id.
Proof.
  unfold role_findUnique. intros H. apply find_some in H as [_ H].
  now apply String.eqb_eq.
Qed.

(** X19. GET /users by an administrator lists the members of the
    administrator's organization, each once and in the order of the
    database.  Whoever holds a role of the organization is in the list,
    with that role among the roles of the entry.  Every entry is a row of
    the table of users; its roles are roles of the organization that the
    user holds.  The administrator is in the list whenever the table of
    users has them; an entry without roles is the entry of the
    administrator, and it alone carries the flag [isAdmin]. *)
Theorem X19_user_list_has_every_role_holder_once :
  forall (o : RowOrder) (db : Db) (userId : string) (org : Organization)
         (items : list UserListItem),
    userId <> "" ->
    organization_findFirst_admin db userId = Some org ->
    getUsers o db userId = Json 200 items ->
    NoDup (map (fun e => user_id (uli_user e)) items)
    /\ (forall ur r,
          In ur (userRoles db) ->
          role_findUnique db (ur_roleId ur) = Some r ->
          role_organizationId r = org_id org ->
          exists e, In e items
                    /\ user_id (uli_user e) = ur_userId ur
                    /\ In r (uli_roles e))
    /\ (forall e, In e items ->
          user_findUnique db (user_id (uli_user e)) = Some (uli_user e))
    /\ (forall e r, In e items -> In r (uli_roles e) ->
          role_organizationId r = org_id org
          /\ role_findUnique db (role_id r) = Some r
          /\ In (mkUserRole (user_id (uli_user e)) (role_id r)) (userRoles db))
    /\ (forall e, In e items ->
          (uli_isAdmin e = true <-> uli_roles e = [])
          /\ (uli_isAdmin e = true -> user_id (uli_user e) = userId))
    /\ (isSome (user_findUnique db userId) = true ->
        In userId (map (fun e => user_id (uli_user e)) items)).
Proof.
  intros o db u org items Hu Hadmin. unfold getUsers.
  rewrite (checkIsAdmin_passes db u org Hu Hadmin), Hadmin.
  destruct (userRole_findMany_organization o db (org_id org)) as [rows|] eqn:Erows;
    [|discriminate].
  pose proof (userRole_findMany_organization_rows o db (org_id org) rows Erows)
    as Hrows.
  assert (Hvalid : forall x r, In (x, r) rows ->
                               user_findUnique db (user_id x) = Some x).
  { intros x r Hx. apply Hrows in Hx as [ur [_ [_ [_ Hx]]]].
    now rewrite (user_findUnique_id db _ x Hx). }
  destruct (usersMap_of_rows db rows Hvalid) as [Hnd [Hall Hseen]].
  set (usersMap := fold_left _ rows []) in *.
  assert (Hcomplete : forall ur r,
             In ur (userRoles db) ->
             role_findUnique db (ur_roleId ur) = Some r ->
             role_organizationId r = org_id org ->
             exists e, In e usersMap
                       /\ user_id (uli_user e) = ur_userId ur
                       /\ In r (uli_roles e)).
  { intros ur r Hin Hr Horg.
    destruct (userRole_findMany_organization_complete o db (org_id org) rows ur r
                Erows Hin Hr Horg) as [x [Hx Hrow]].
    destruct (Hseen x r Hrow) as [e [He [Heu Her]]].
    exists e. split; [exact He|]. split; [|exact Her].
    rewrite Heu. now apply (user_findUnique_id db). }
  assert (Hsound : forall e r, In e usersMap -> In r (uli_roles e) ->
             role_organizationId r = org_id org
             /\ role_findUnique db (role_id r) = Some r
             /\ In (mkUserRole (user_id (uli_user e)) (role_id r)) (userRoles db)).
  { intros e r He Hr. destruct (Hall e He) as [_ [_ [_ Hroles]]].
    apply Hroles, Hrows in Hr as [ur [Hin [Hrole [Horg Huser]]]].
    split; [exact Horg|].
    rewrite (role_findUnique_id db _ r Hrole).
    split; [exact Hrole|].
    rewrite (user_findUnique_id db _ _ Huser). now destruct ur. }
  assert (Hflags : forall e, In e usersMap ->
             (uli_isAdmin e = true <-> uli_roles e = [])
             /\ (uli_isAdmin e = true -> user_id (uli_user e) = u)).
  { intros e He. destruct (Hall e He) as [_ [Hflag [Hne _]]].
    rewrite Hflag. split; [split; [discriminate|contradiction]|discriminate]. }
  destruct (user_findUnique db u) as [adminUser|] eqn:Efind.
  - pose proof (user_findUnique_id db u adminUser Efind) as Hid.
    rewrite Hid.
    destruct (usersMap_has usersMap u) eqn:Ehas; simpl; intros [= <-].
    + split; [exact Hnd|]. split; [exact Hcomplete|].
      split; [intros e He; apply (Hall e He)|].
      split; [exact Hsound|]. split; [exact Hflags|].
      intros _. now apply usersMap_has_In.
    + split.
      { rewrite map_app. apply NoDup_app; [exact Hnd|repeat constructor; intros []|].
        intros x Hx [<-|[]]. simpl in Hx. rewrite Hid in Hx.
        apply usersMap_has_In in Hx. congruence. }
      split.
      { intros ur r Hin Hr Horg.
        destruct (Hcomplete ur r Hin Hr Horg) as [e [He H]].
        exists e. split; [apply in_or_app; now left|exact H]. }
      split.
      { intros e He. apply in_app_or in He as [He|[<-|[]]];
          [apply (Hall e He)|]. simpl. now rewrite Hid. }
      split.
      { intros e r He Hr. apply in_app_or in He as [He|[<-|[]]];
          [now apply Hsound|destruct Hr]. }
      split.
      { intros e He. apply in_app_or in He as [He|[<-|[]]]; [now apply Hflags|].
        simpl. split; [split; reflexivity|intros _; exact Hid]. }
      intros _. rewrite map_app. apply in_or_app. right. simpl. now left.
  - intros [= <-]. split; [exact Hnd|]. split; [exact Hcomplete|].
    split; [intros e He; apply (Hall e He)|].
    split; [exact Hsound|]. split; [exact Hflags|]. discriminate.
Qed.

Lemma X19_user_list_has_every_role_holder_once_witness :
  organization_findFirst_admin db_events "admin1"
    = Some (mkOrganization "o1" "Student Council" None None "admin1")
  /\ exists items,
       getUsers reverse_order db_events "admin1" = Json 200 items
       /\ map (fun e => (user_id (uli_user e), map role_id (uli_roles e))) items
          = [("bob", ["member"]); ("jane", ["member"; "chair"]); ("admin1", [])]
       /\ NoDup (map (fun e => user_id (uli_user e)) items)
       /\ exists e, In e items
                    /\ user_id (uli_user e) = "jane"
                    /\ In (mkRole "chair" "Committee Chair" "o1") (uli_roles e).
Proof.
  split; [reflexivity|].
  assert (Hu : "admin1" <> "") by discriminate.
  eexists. split; [reflexivity|]. split; [reflexivity|].
  destruct (X19_user_list_has_every_role_holder_once reverse_order db_events
              "admin1" _ _ Hu eq_refl eq_refl) as [Hnd [Hcomplete _]].
  split; [exact Hnd|].
  apply (Hcomplete (mkUserRole "jane" "chair")); [left|..]; reflexivity.
Defined.

(** * The constraints of the schema under the routes *)

Section Keys.
Variable A : Type.
Variable key : A -> string.

Lemma isSome_find_key (l : list A) (id : string) :
  isSome (find (fun x => key x =? id) l) = true <-> In id (map key l).
Proof.
  rewrite in_map_iff. split.
  - destruct (find _ l) as [x|] eqn:E; [|discriminate]. intros _.
    apply find_some in E as [Hin Hk]. apply String.eqb_eq in Hk. eauto.
  - intros [x [Hk Hin]].
    destruct (find_In_Some (fun x => key x =? id) l x Hin) as [y Hy].
    + now apply String.eqb_eq.
    + now rewrite Hy.
Qed.

Lemma existsb_key (l : list A) (id : string) :
  existsb (fun x => key x =? id) l = true <-> In id (map key l).
Proof.
  rewrite existsb_exists, in_map_iff.
  split; intros [x [H1 H2]]; exists x.
  - apply String.eqb_eq in H2. auto.
  - split; [exact H2|now apply String.eqb_eq].
Qed.

Lemma keys_after_filter (l : list A) (gone id : string) :
  In id (map key (filter (fun x => negb (key x =? gone)) l))
  <-> In id (map key l) /\ id <> gone.
Proof.
  rewrite !in_map_iff. split.
  - intros [x [Hk Hin]]. apply filter_In in Hin as [Hin Hne].
    apply negb_true_iff, String.eqb_neq in Hne. subst id. eauto.
  - intros [[x [Hk Hin]] Hne]. exists x. split; [exact Hk|].
    apply filter_In. split; [exact Hin|].
    apply negb_true_iff, String.eqb_neq. now rewrite Hk.
Qed.

Lemma keys_after_update (f : A -> A) (l : list A) (id : string) :
  (forall x, key (f x) = key x) ->
  map key (map (fun x => if key x =? id then f x else x) l) = map key l.
Proof.
  intros Hf. rewrite map_map. apply map_ext. intros x.
  now destruct (key x =? id).
Qed.

(** The row that takes the place of the row [id] has the id [id]. *)
Lemma keys_after_replace (x' : A) (l : list A) (id : string) :
  key x' = id ->
  map key (map (fun x => if key x =? id then x' else x) l) = map key l.
Proof.
  intros Hf. rewrite map_map. apply map_ext. intros x.
  destruct (key x =? id) eqn:E; [|reflexivity].
  apply String.eqb_eq in E. congruence.
Qed.
End Keys.

Section Indexes.
Variables A K : Type.
Variable index : A -> K.

Lemma NoDup_index_filter (f : A -> bool) (l : list A) :
  NoDup (map index l) -> NoDup (map index (filter f l)).
Proof.
  induction l as [|x l IH]; simpl; [auto|].
  intros H. inversion H as [|k ks Hnot Hrest]; subst.
  destruct (f x); simpl; [|auto].
  constructor; [|auto]. intros Hin. apply Hnot.
  apply in_map_iff in Hin as [y [Hy Hin]]. apply filter_In in Hin as [Hin _].
  rewrite <- Hy. now apply in_map.
Qed.

Lemma NoDup_index_insert (x : A) (l : list A) :
  NoDup (map index l) -> ~ In (index x) (map index l) ->
  NoDup (map index (l ++ [x])).
Proof.
  intros Hl Hx. rewrite map_app. apply NoDup_app; [exact Hl| |].
  - simpl. constructor; [intros []|constructor].
  - intros k Hk [<-|[]]. contradiction.
Qed.

(** A row is rewritten under a primary key: the index stays free of
    duplicates when no other row has the index of the new row. *)
Lemma NoDup_index_replace (id : A -> string) (x' : A) (l : list A) (i : string) :
  NoDup (map id l) -> NoDup (map index l) ->
  (forall y, In y l -> id y <> i -> index y <> index x') ->
  NoDup (map index (map (fun y => if id y =? i then x' else y) l)).
Proof.
  induction l as [|x l IH]; simpl; [constructor|].
  intros Hid Hix Hother.
  inversion Hid as [|? ? Hidx Hidl]; subst.
  inversion Hix as [|? ? Hixx Hixl]; subst.
  assert (IH' := IH Hidl Hixl (fun y Hy => Hother y (or_intror Hy))).
  constructor; [|exact IH'].
  rewrite map_map. intros Hin. apply in_map_iff in Hin as [y [Hy Hin]].
  destruct (id x =? i) eqn:Ex, (id y =? i) eqn:Ey.
  - apply String.eqb_eq in Ex, Ey. apply Hidx. rewrite Ex, <- Ey.
    now apply in_map.
  - apply String.eqb_neq in Ey.
    apply (Hother y (or_intror Hin) Ey). exact Hy.
  - apply String.eqb_neq in Ex.
    apply (Hother x (or_introl eq_refl) Ex). now symmetry.
  - apply Hixx. rewrite <- Hy. now apply in_map.
Qed.
End Indexes.

Lemma user_exists_is_user db id : user_exists db id = true <-> is_user db id.
Proof. apply (existsb_key User user_id). Qed.

Lemma fitsInt_range z :
  fitsInt z = true <-> (-2147483648 <= z <= 2147483647)%Z.
Proof. unfold fitsInt. lia. Qed.

Ltac frame H :=
  destruct H as [Uid Oid Rid Cid Tid Uem Rnm URn Cnm Pun Aun
                 Oad Rorg URu URr Corg Pr Pc Tc Tu At Au CMt CMu
                 Plv One Pos];
  constructor; unfold is_user in *; simpl; try assumption.

Lemma Consistent_users db us' :
  map user_id us' = map user_id (users db) ->
  map user_email us' = map user_email (users db) ->
  Consistent db -> Consistent (set_users db us').
Proof.
  intros Hid Hem H.
  destruct H as [Uid Oid Rid Cid Tid Uem Rnm URn Cnm Pun Aun
                 Oad Rorg URu URr Corg Pr Pc Tc Tu At Au CMt CMu
                 Plv One Pos];
  constructor; unfold is_user in *; simpl; rewrite ?Hid, ?Hem; assumption.
Qed.

Lemma user_update_Consistent db id (f : User -> User) db' u' :
  (forall x, user_id (f x) = user_id x) ->
  (forall x, user_email (f x) = user_email x) ->
  user_update db id f = Some (db', u') ->
  Consistent db -> Consistent db'.
Proof.
  intros Hid Hem. unfold user_update.
  destruct (user_findUnique db id); [|discriminate]. intros [= <- _] H.
  apply Consistent_users; [| |exact H]; rewrite map_map; apply map_ext;
    intros x; now destruct (user_id x =? id).
Qed.

Lemma updateUser_Consistent db u id name :
  Consistent db -> Consistent (fst (updateUser db u id name)).
Proof.
  intros H. unfold updateUser.
  destruct (match name with Some _ => _ | None => _ end); [exact H|].
  destruct (_ && _); [exact H|].
  destruct (user_update db id (set_name name)) as [[db' u']|] eqn:E; [|exact H].
  now apply (user_update_Consistent db id (set_name name) db' u').
Qed.

Lemma setUserActive_Consistent active db u id :
  Consistent db -> Consistent (fst (setUserActive active db u id)).
Proof.
  intros H. unfold setUserActive.
  destruct (checkIsAdmin db _); [|exact H].
  destruct (user_update db id (set_isActive active)) as [[db' u']|] eqn:E;
    [|exact H].
  now apply (user_update_Consistent db id (set_isActive active) db' u').
Qed.

Ltac kept_rows :=
  let x := fresh "x" in let Hx := fresh "Hx" in
  intros x Hx; apply filter_In in Hx as [Hx _]; auto.

Ltac grown_table :=
  let x := fresh "x" in let Hx := fresh "Hx" in
  intros x Hx; rewrite map_app; apply in_or_app; left; auto.

Lemma removeRole_Consistent db u target r :
  Consistent db -> Consistent (fst (removeRole db u target r)).
Proof.
  intros H. unfold removeRole. destruct (checkIsAdmin db _); [|exact H].
  frame H.
  - now apply NoDup_index_filter.
  - kept_rows.
  - kept_rows.
Qed.

Lemma assignRole_Consistent db u target r :
  Consistent db -> Consistent (fst (assignRole db u target r)).
Proof.
  intros H. unfold assignRole. destruct (checkIsAdmin db _); [|exact H].
  unfold userRole_create. simpl ur_userId. simpl ur_roleId.
  destruct (user_exists db target) eqn:Eu; [|exact H].
  destruct (isSome (role_findUnique db r)) eqn:Er; [|exact H].
  destruct (existsb _ _) eqn:Ex; [exact H|]. simpl.
  apply user_exists_is_user in Eu.
  apply (isSome_find_key Role role_id) in Er.
  frame H.
  - apply NoDup_index_insert; [exact URn|]. simpl. intros Hin.
    apply in_map_iff in Hin as [x [[= H1 H2] Hx]].
    rewrite existsb_false_forall in Ex. specialize (Ex x Hx).
    now rewrite H1, H2, !String.eqb_refl in Ex.
  - intros x Hx. apply in_app_or in Hx as [Hx|[<-|[]]]; auto.
  - intros x Hx. apply in_app_or in Hx as [Hx|[<-|[]]]; auto.
Qed.

Lemma tasks_rewritten_Consistent db (f : Task -> Task) id :
  (forall t, task_id (f t) = task_id t) ->
  (forall t, task_committeeId (f t) = task_committeeId t) ->
  (forall t, task_createdById (f t) = task_createdById t) ->
  (forall t, In t (tasks db) -> fitsInt (task_position (f t)) = true) ->
  Consistent db ->
  Consistent (set_tasks db (map (fun t => if task_id t =? id then f t else t)
                                (tasks db))).
Proof.
  intros Hid Hc Hu Hp H.
  pose proof (keys_after_update Task task_id f (tasks db) id Hid) as Hk.
  frame H; rewrite ?Hk; try assumption.
  - intros t Ht. apply in_map_iff in Ht as [x [<- Hx]].
    destruct (task_id x =? id); [rewrite Hc|]; auto.
  - intros t Ht. apply in_map_iff in Ht as [x [<- Hx]].
    destruct (task_id x =? id); [rewrite Hu|]; auto.
  - intros t Ht. apply in_map_iff in Ht as [x [<- Hx]].
    destruct (task_id x =? id); auto.
Qed.

Lemma task_findUnique_with_committee_In db id task committee :
  task_findUnique_with_committee db id = TaskFound task committee ->
  In task (tasks db).
Proof.
  unfold task_findUnique_with_committee.
  destruct (task_findUnique db id) as [t|] eqn:Et; [|discriminate].
  destruct (committee_findUnique db (task_committeeId t)); [|discriminate].
  intros [= <- _]. now apply find_some in Et.
Qed.

Lemma updateTaskStatus_Consistent db u id body :
  Consistent db -> Consistent (fst (updateTaskStatus db u id body)).
Proof.
  intros H. unfold updateTaskStatus.
  destruct (updateTaskStatusSchema_parse body) as [[s p]|]; [|exact H].
  destruct (task_findUnique_with_committee db id) as [task committee| |] eqn:Ef;
    try exact H.
  destruct (negb _); [exact H|].
  cbv zeta.
  destruct (match p with Some p0 => fitsInt p0 | None => true end) eqn:Ep;
    [|exact H].
  unfold task_update_status. simpl fst.
  apply (tasks_rewritten_Consistent db
           (fun t => set_status_position t s
                       match p with Some p0 => p0 | None => task_position task end));
    try reflexivity; [|exact H].
  intros t _. simpl. destruct p as [p|]; [exact Ep|].
  apply (cons_positions H).
  now apply (task_findUnique_with_committee_In db id task committee).
Qed.

Lemma deleteTask_Consistent db u id :
  Consistent db -> Consistent (fst (deleteTask db u id)).
Proof.
  intros H. unfold deleteTask.
  destruct (task_findUnique_with_committee db id); try exact H.
  destruct (negb _); [exact H|].
  frame H.
  - now apply NoDup_index_filter.
  - now apply unique_assignments_filter.
  - kept_rows.
  - kept_rows.
  - intros a Ha. apply filter_In in Ha as [Ha Hne].
    apply (keys_after_filter Task task_id). split; [auto|].
    now apply negb_true_iff, String.eqb_neq in Hne.
  - kept_rows.
  - intros c Hc. apply filter_In in Hc as [Hc Hne].
    apply (keys_after_filter Task task_id). split; [auto|].
    now apply negb_true_iff, String.eqb_neq in Hne.
  - kept_rows.
  - kept_rows.
Qed.

Lemma addComment_Consistent db u id content :
  Consistent db -> Consistent (fst (addComment db u id content)).
Proof.
  intros H. unfold addComment. destruct (content =? ""); [exact H|].
  destruct (task_findUnique_with_committee db id); try exact H.
  destruct (negb _); [exact H|].
  unfold comment_create. simpl comment_taskId. simpl comment_userId.
  destruct (isSome (task_findUnique db id)) eqn:Et; [|exact H].
  destruct (user_exists db u) eqn:Eu; [|exact H]. simpl.
  apply user_exists_is_user in Eu.
  apply (isSome_find_key Task task_id) in Et.
  frame H.
  - intros x Hx. apply in_app_or in Hx as [Hx|[<-|[]]]; auto.
  - intros x Hx. apply in_app_or in Hx as [Hx|[<-|[]]]; auto.
Qed.

Lemma createOrganization_Consistent isUrl db newId u body :
  Consistent db -> Consistent (fst (createOrganization isUrl db newId u body)).
Proof.
  intros H. unfold createOrganization.
  destruct (negb _); [exact H|].
  destruct (organization_findFirst_admin db u) eqn:Ef; [exact H|].
  cbv zeta. destruct (organization_create db _) as [db'|] eqn:Ec; [|exact H].
  simpl fst.
  assert (Hone : one_organization_per_admin db').
  { eapply organization_create_one_per_admin; [apply H| |exact Ec]. exact Ef. }
  unfold organization_create in Ec. simpl org_id in Ec. simpl org_adminUserId in Ec.
  destruct (existsb _ (organizations db)) eqn:Ex; [discriminate|].
  destruct (user_exists db u) eqn:Eu; [|discriminate].
  injection Ec as <-.
  apply user_exists_is_user in Eu.
  frame H.
  - apply NoDup_index_insert; [exact Oid|]. simpl. intros Hin.
    apply (existsb_key Organization org_id) in Hin. congruence.
  - intros x Hx. apply in_app_or in Hx as [Hx|[<-|[]]]; auto.
  - grown_table.
  - grown_table.
Qed.

Lemma filter_update_same_length {A} (f : A -> bool) (g : A -> A) (l : list A) :
  (forall x, f (g x) = f x) ->
  List.length (filter f (map g l)) = List.length (filter f l).
Proof.
  intros Hg. induction l as [|x l IH]; simpl; [reflexivity|].
  rewrite Hg. destruct (f x); simpl; now rewrite IH.
Qed.

Lemma updateOrganization_Consistent isUrl db u id body :
  Consistent db -> Consistent (fst (updateOrganization isUrl db u id body)).
Proof.
  intros H. unfold updateOrganization.
  destruct (checkIsAdmin db _); [|exact H].
  destruct (negb _); [exact H|].
  destruct (organization_findUnique db id); [|exact H]. simpl fst.
  pose proof (keys_after_update Organization org_id
                (fun x => organization_with_data x body) (organizations db) id
                (fun x => eq_refl)) as Hk.
  frame H; rewrite ?Hk; try assumption.
  - intros x Hx. apply in_map_iff in Hx as [y [<- Hy]].
    destruct (org_id y =? id); simpl; auto.
  - intros a. unfold organizations_of_admin. simpl organizations.
    rewrite filter_update_same_length; [apply One|].
    intros x. now destruct (org_id x =? id).
Qed.

Lemma createRole_Consistent db newId u body :
  Consistent db -> Consistent (fst (createRole db newId u body)).
Proof.
  intros H. unfold createRole.
  destruct (checkIsAdmin db _); [|exact H].
  destruct (cn_name body =? ""); [exact H|].
  cbv zeta. unfold role_create. simpl role_id. simpl role_organizationId.
  simpl role_name.
  destruct (negb (isSome (role_findUnique db newId))) eqn:Efresh; [|exact H].
  destruct (isSome (organization_findUnique db (cn_organizationId body))) eqn:Eo;
    [|exact H].
  destruct (existsb _ (roles db)) eqn:Ex; [exact H|]. simpl.
  apply negb_true_iff in Efresh.
  apply (isSome_find_key Organization org_id) in Eo.
  frame H.
  - apply NoDup_index_insert; [exact Rid|]. simpl. intros Hin.
    apply (isSome_find_key Role role_id) in Hin.
    unfold role_findUnique in Efresh. congruence.
  - apply NoDup_index_insert; [exact Rnm|]. simpl. intros Hin.
    apply in_map_iff in Hin as [x [[= H1 H2] Hx]].
    rewrite existsb_false_forall in Ex. specialize (Ex x Hx).
    now rewrite H1, H2, !String.eqb_refl in Ex.
  - intros x Hx. apply in_app_or in Hx as [Hx|[<-|[]]]; auto.
  - grown_table.
  - grown_table.
Qed.

Lemma updateRole_Consistent o db u id body :
  Consistent db -> Consistent (fst (updateRole o db u id body)).
Proof.
  intros H. unfold updateRole.
  destruct (checkIsAdmin db _); [|exact H].
  destruct (negb _); [exact H|].
  unfold role_update. destruct (role_findUnique db id) as [r|] eqn:Er; [|exact H].
  cbv zeta. simpl role_organizationId. simpl role_name.
  destruct (existsb _ _) eqn:Ex; [exact H|]. simpl fst.
  assert (Hin : In r (roles db)) by now apply find_some in Er.
  assert (Hid : role_id r = id).
  { apply find_some in Er as [_ Hk]. now apply String.eqb_eq in Hk. }
  set (r' := mkRole (role_id r) _ (role_organizationId r)) in *.
  pose proof (keys_after_replace Role role_id r' (roles db) id Hid) as Hk.
  frame H; rewrite ?Hk; try assumption.
  - apply (NoDup_index_replace _ _ _ role_id); [exact Rid|exact Rnm|].
    intros y Hy Hne [= H1 H2].
    rewrite existsb_false_forall in Ex. specialize (Ex y Hy).
    apply String.eqb_neq in Hne.
    now rewrite Hne, H1, H2, !String.eqb_refl in Ex.
  - intros x Hx. apply in_map_iff in Hx as [y [<- Hy]].
    destruct (role_id y =? id); simpl; auto.
Qed.

Lemma deleteRole_Consistent db u id :
  Consistent db -> Consistent (fst (deleteRole db u id)).
Proof.
  intros H. unfold deleteRole.
  destruct (checkIsAdmin db _); [|exact H].
  unfold role_delete. destruct (role_findUnique db id); [|exact H]. simpl fst.
  frame H.
  - now apply NoDup_index_filter.
  - now apply NoDup_index_filter.
  - now apply NoDup_index_filter.
  - now apply unique_keys_filter.
  - kept_rows.
  - kept_rows.
  - intros ur Hur. apply filter_In in Hur as [Hur Hne].
    apply (keys_after_filter Role role_id). split; [auto|].
    now apply negb_true_iff, String.eqb_neq in Hne.
  - intros p Hp. apply filter_In in Hp as [Hp Hne].
    apply (keys_after_filter Role role_id). split; [auto|].
    now apply negb_true_iff, String.eqb_neq in Hne.
  - kept_rows.
  - now apply no_NONE_rows_filter.
Qed.

Lemma createCommittee_Consistent db newId u body :
  Consistent db -> Consistent (fst (createCommittee db newId u body)).
Proof.
  intros H. unfold createCommittee.
  destruct (checkIsAdmin db _); [|exact H].
  destruct (cn_name body =? ""); [exact H|].
  cbv zeta. unfold committee_create. simpl committee_id.
  simpl committee_organizationId. simpl committee_name.
  destruct (negb (isSome (committee_findUnique db newId))) eqn:Efresh; [|exact H].
  destruct (isSome (organization_findUnique db (cn_organizationId body))) eqn:Eo;
    [|exact H].
  destruct (existsb _ (committees db)) eqn:Ex; [exact H|]. simpl.
  apply negb_true_iff in Efresh.
  apply (isSome_find_key Organization org_id) in Eo.
  frame H.
  - apply NoDup_index_insert; [exact Cid|]. simpl. intros Hin.
    apply (isSome_find_key Committee committee_id) in Hin.
    unfold committee_findUnique in Efresh. congruence.
  - apply NoDup_index_insert; [exact Cnm|]. simpl. intros Hin.
    apply in_map_iff in Hin as [x [[= H1 H2] Hx]].
    rewrite existsb_false_forall in Ex. specialize (Ex x Hx).
    now rewrite H1, H2, !String.eqb_refl in Ex.
  - intros x Hx. apply in_app_or in Hx as [Hx|[<-|[]]]; auto.
  - grown_table.
  - grown_table.
Qed.

Lemma updateCommittee_Consistent db u id body :
  Consistent db -> Consistent (fst (updateCommittee db u id body)).
Proof.
  intros H. unfold updateCommittee.
  destruct (checkIsAdmin db _); [|exact H].
  destruct (negb _); [exact H|].
  unfold committee_update.
  destruct (committee_findUnique db id) as [c|] eqn:Ec; [|exact H].
  cbv zeta. simpl committee_organizationId. simpl committee_name.
  destruct (existsb _ _) eqn:Ex; [exact H|]. simpl fst.
  assert (Hin : In c (committees db)) by now apply find_some in Ec.
  assert (Hid : committee_id c = id).
  { apply find_some in Ec as [_ Hk]. now apply String.eqb_eq in Hk. }
  set (c' := mkCommittee (committee_id c) _ (committee_organizationId c)) in *.
  pose proof (keys_after_replace Committee committee_id c' (committees db) id Hid)
    as Hk.
  frame H; rewrite ?Hk; try assumption.
  - apply (NoDup_index_replace _ _ _ committee_id); [exact Cid|exact Cnm|].
    intros y Hy Hne [= H1 H2].
    rewrite existsb_false_forall in Ex. specialize (Ex y Hy).
    apply String.eqb_neq in Hne.
    now rewrite Hne, H1, H2, !String.eqb_refl in Ex.
  - intros x Hx. apply in_map_iff in Hx as [y [<- Hy]].
    destruct (committee_id y =? id); simpl; auto.
Qed.

(** A row that refers to a task which the cascade keeps refers to a task
    of the store after the delete. *)
Lemma task_kept_by_cascade (ts : list Task) (id taskId : string) :
  In taskId (map task_id ts) ->
  existsb (fun t => (task_id t =? taskId) && (task_committeeId t =? id)) ts
    = false ->
  In taskId (map task_id (filter (fun t => negb (task_committeeId t =? id)) ts)).
Proof.
  intros Hin Hgone. apply in_map_iff in Hin as [t [Hid Ht]].
  apply in_map_iff. exists t. split; [exact Hid|].
  apply filter_In. split; [exact Ht|].
  rewrite existsb_false_forall in Hgone. specialize (Hgone t Ht).
  apply andb_false_iff in Hgone as [Hne|Hne].
  - apply String.eqb_neq in Hne. contradiction.
  - now rewrite Hne.
Qed.

Lemma deleteCommittee_Consistent db u id :
  Consistent db -> Consistent (fst (deleteCommittee db u id)).
Proof.
  intros H. unfold deleteCommittee.
  destruct (checkIsAdmin db _); [|exact H].
  unfold committee_delete. destruct (committee_findUnique db id) as [c0|]; [|exact H].
  cbv zeta. simpl fst.
  frame H.
  - now apply NoDup_index_filter.
  - now apply NoDup_index_filter.
  - now apply NoDup_index_filter.
  - now apply unique_keys_filter.
  - now apply unique_assignments_filter.
  - kept_rows.
  - kept_rows.
  - intros p Hp. apply filter_In in Hp as [Hp Hne].
    apply (keys_after_filter Committee committee_id). split; [auto|].
    now apply negb_true_iff, String.eqb_neq in Hne.
  - intros t Ht. apply filter_In in Ht as [Ht Hne].
    apply (keys_after_filter Committee committee_id). split; [auto|].
    now apply negb_true_iff, String.eqb_neq in Hne.
  - kept_rows.
  - intros a Ha. apply filter_In in Ha as [Ha Hne].
    apply negb_true_iff in Hne. apply task_kept_by_cascade; auto.
  - kept_rows.
  - intros cm Hc. apply filter_In in Hc as [Hc Hne].
    apply negb_true_iff in Hne. apply task_kept_by_cascade; auto.
  - kept_rows.
  - now apply no_NONE_rows_filter.
  - kept_rows.
Qed.

Lemma permission_deleteMany_Consistent db roleId :
  Consistent db -> Consistent (permission_deleteMany db roleId).
Proof.
  intros H. frame H.
  - now apply unique_keys_filter.
  - kept_rows.
  - kept_rows.
  - now apply no_NONE_rows_filter.
Qed.

Lemma setPermissions_Consistent o db u body :
  Consistent db -> Consistent (fst (setPermissions o db u body)).
Proof.
  intros H. unfold setPermissions.
  destruct (checkIsAdmin db _); [|exact H].
  unfold setPermissions_handler.
  destruct (setPermissionsSchema_parse body) as [[roleId perms]|]; [|exact H].
  cbv zeta.
  pose proof (permissionsToCreate_not_NONE roleId perms) as Hnone.
  set (data := map _ _) in *.
  pose proof (permission_deleteMany_Consistent db roleId H) as Hdel.
  destruct (Nat.ltb 0 (List.length data)); [|exact Hdel].
  unfold permission_createMany.
  destruct (forallb _ data) eqn:Efk; [|exact Hdel].
  destruct (unique_keys (permissions (permission_deleteMany db roleId) ++ data))
    eqn:Eu; [|exact Hdel].
  simpl andb. cbv iota. simpl fst.
  rewrite forallb_forall in Efk.
  destruct Hdel as [Uid Oid Rid Cid Tid Uem Rnm URn Cnm Pun Aun
                    Oad Rorg URu URr Corg Pr Pc Tc Tu At Au CMt CMu
                    Plv One Pos].
  constructor; try assumption.
  - intros p Hp. apply in_app_or in Hp as [Hp|Hp]; [auto|].
    apply Efk in Hp. apply andb_true_iff in Hp as [Hp _].
    now apply (isSome_find_key Role role_id) in Hp.
  - intros p Hp. apply in_app_or in Hp as [Hp|Hp]; [auto|].
    apply Efk in Hp. apply andb_true_iff in Hp as [_ Hp].
    now apply (isSome_find_key Committee committee_id) in Hp.
  - apply Forall_app. split; [exact Plv|exact Hnone].
Qed.

Lemma forallb_user_exists db (l : list string) :
  forallb (user_exists db) l = true -> forall x, In x l -> is_user db x.
Proof.
  intros H x Hx. rewrite forallb_forall in H.
  now apply user_exists_is_user, H.
Qed.

Lemma createTask_Consistent isDatetime newDate db newId u body :
  Consistent db -> Consistent (fst (createTask isDatetime newDate db newId u body)).
Proof.
  intros H. unfold createTask.
  destruct (checkCommitteePermission _ db _); [|exact H].
  unfold createTask_handler.
  destruct (createTaskSchema_parse isDatetime body)
    as [[[[[title description] committeeId] dueDate] assigneeIds]|]; [|exact H].
  cbv zeta. unfold task_create. simpl task_id. simpl task_committeeId.
  simpl task_createdById. simpl task_position.
  set (l := match assigneeIds with Some l0 => l0 | None => [] end).
  destruct (fitsInt _) eqn:Efits; [|exact H].
  destruct (negb (isSome (task_findUnique db newId))) eqn:Efresh;
    [|exact H].
  destruct (isSome (committee_findUnique db committeeId)) eqn:Ecom; [|exact H].
  destruct (user_exists db u) eqn:Eu; [|exact H].
  destruct (forallb (user_exists db) l) eqn:El; [|exact H].
  destruct (nodupb l) eqn:Edup; [|exact H].
  simpl andb. cbv iota. simpl fst.
  apply negb_true_iff in Efresh.
  apply user_exists_is_user in Eu.
  apply (isSome_find_key Committee committee_id) in Ecom.
  pose proof (forallb_user_exists db l El) as Hl.
  assert (Hfresh : ~ In newId (map task_id (tasks db))).
  { intros Hin. apply (isSome_find_key Task task_id) in Hin.
    unfold task_findUnique in Efresh. congruence. }
  frame H.
  - now apply NoDup_index_insert.
  - apply unique_assignments_app. split; [exact Aun|]. split.
    + now rewrite unique_assignments_of_task.
    + intros a b Ha Hb. apply in_map_iff in Hb as [x [<- _]].
      unfold same_assignment. simpl.
      destruct (ta_taskId a =? newId) eqn:E; [|reflexivity].
      apply String.eqb_eq in E. exfalso. apply Hfresh. rewrite <- E. auto.
  - intros x Hx. apply in_app_or in Hx as [Hx|[<-|[]]]; auto.
  - intros x Hx. apply in_app_or in Hx as [Hx|[<-|[]]]; auto.
  - intros a Ha. rewrite map_app. apply in_or_app.
    apply in_app_or in Ha as [Ha|Ha]; [auto|].
    apply in_map_iff in Ha as [x [<- _]]. simpl. auto.
  - intros a Ha. apply in_app_or in Ha as [Ha|Ha]; [auto|].
    apply in_map_iff in Ha as [x [<- Hx]]. simpl. auto.
  - grown_table.
  - intros x Hx. apply in_app_or in Hx as [Hx|[<-|[]]]; auto.
Qed.

Lemma assignment_deleteMany_Consistent db id :
  Consistent db -> Consistent (assignment_deleteMany db id).
Proof.
  intros H. frame H.
  - now apply unique_assignments_filter.
  - kept_rows.
  - kept_rows.
Qed.

Lemma assignment_createMany_Consistent db data db' :
  assignment_createMany db data = Some db' ->
  Consistent db -> Consistent db'.
Proof.
  unfold assignment_createMany.
  destruct (forallb _ data) eqn:Efk; [|discriminate].
  destruct (unique_assignments _) eqn:Eu; [|discriminate].
  simpl. intros [= <-] H.
  rewrite forallb_forall in Efk.
  frame H.
  - intros a Ha. apply in_app_or in Ha as [Ha|Ha]; [auto|].
    apply Efk in Ha. apply andb_true_iff in Ha as [Ha _].
    now apply (isSome_find_key Task task_id) in Ha.
  - intros a Ha. apply in_app_or in Ha as [Ha|Ha]; [auto|].
    apply Efk in Ha. apply andb_true_iff in Ha as [_ Ha].
    now apply user_exists_is_user in Ha.
Qed.

Lemma updateTask_Consistent isDatetime newDate o db u id body :
  Consistent db -> Consistent (fst (updateTask isDatetime newDate o db u id body)).
Proof.
  intros H. unfold updateTask.
  destruct (updateTaskSchema_parse isDatetime body) as [status|]; [|exact H].
  destruct (task_findUnique_with_committee db id); try exact H.
  destruct (negb _); [exact H|].
  destruct (match ut_position body with
            | Some p => negb (fitsInt p) | None => false end) eqn:Ep; [exact H|].
  cbv zeta.
  set (db1 := set_tasks db _).
  assert (H1 : Consistent db1).
  { apply (tasks_rewritten_Consistent db
             (fun t => task_with_data t (ut_title body) (ut_description body)
                         status
                         (if truthy (ut_dueDate body)
                          then option_map newDate (ut_dueDate body)
                          else None)
                         (ut_position body))); try reflexivity; [|exact H].
    intros t Ht. simpl. destruct (ut_position body) as [p|].
    - now apply negb_false_iff in Ep.
    - now apply (cons_positions H). }
  destruct (ut_assigneeIds body) as [assigneeIds|]; [|exact H1].
  pose proof (assignment_deleteMany_Consistent db1 id H1) as H2.
  destruct (Nat.ltb 0 (List.length assigneeIds)); [|exact H2].
  destruct (assignment_createMany _ _) as [db3|] eqn:E3; [|exact H2].
  simpl fst. exact (assignment_createMany_Consistent _ _ _ E3 H2).
Qed.

Section ServeFacts.
Variable isDatetime : string -> bool.
Variable newDate : string -> string.
Variable isUrl : string -> bool.
Variable o : RowOrder.

Lemma serve_Consistent db r :
  Consistent db -> Consistent (serve isDatetime newDate isUrl o db r).
Proof.
  intros H. destruct r; simpl.
  - now apply createOrganization_Consistent.
  - now apply updateOrganization_Consistent.
  - now apply createRole_Consistent.
  - now apply updateRole_Consistent.
  - now apply deleteRole_Consistent.
  - now apply assignRole_Consistent.
  - now apply removeRole_Consistent.
  - now apply setPermissions_Consistent.
  - now apply createCommittee_Consistent.
  - now apply updateCommittee_Consistent.
  - now apply deleteCommittee_Consistent.
  - now apply createTask_Consistent.
  - now apply updateTask_Consistent.
  - now apply updateTaskStatus_Consistent.
  - now apply deleteTask_Consistent.
  - now apply addComment_Consistent.
  - now apply updateUser_Consistent.
  - now apply setUserActive_Consistent.
Qed.

Lemma serve_all_Consistent rs : forall db,
  Consistent db -> Consistent (serve_all isDatetime newDate isUrl o db rs).
Proof.
  unfold serve_all. induction rs as [|r rs IH]; simpl; [auto|].
  intros db H. apply IH. now apply serve_Consistent.
Qed.
End ServeFacts.

Lemma Consistent_task_has_committee db id :
  Consistent db -> task_findUnique_with_committee db id <> TaskInconsistent.
Proof.
  intros H. unfold task_findUnique_with_committee.
  destruct (task_findUnique db id) as [t|] eqn:Et; [|discriminate].
  apply find_some in Et as [Hin _].
  apply (cons_task_committee H) in Hin.
  apply (isSome_find_key Committee committee_id) in Hin.
  unfold committee_findUnique.
  destruct (find _ (committees db)); [discriminate|discriminate Hin].
Qed.

Ltac distinct_rows :=
  repeat (constructor;
          [simpl; let Hin := fresh "Hin" in
                  intros Hin;
                  repeat (destruct Hin as [Hin|Hin]; [discriminate Hin|]);
                  exact Hin|]);
  constructor.

Ltac each_row :=
  let x := fresh "x" in let Hx := fresh "Hx" in
  intros x Hx; simpl in Hx;
  repeat (destruct Hx as [<-|Hx]; [simpl; tauto|]); destruct Hx.

Lemma db_events_Consistent : Consistent db_events.
Proof.
  constructor; unfold is_user.
  - distinct_rows.
  - distinct_rows.
  - distinct_rows.
  - distinct_rows.
  - distinct_rows.
  - distinct_rows.
  - distinct_rows.
  - distinct_rows.
  - distinct_rows.
  - reflexivity.
  - reflexivity.
  - each_row.
  - each_row.
  - each_row.
  - each_row.
  - each_row.
  - each_row.
  - each_row.
  - each_row.
  - each_row.
  - each_row.
  - each_row.
  - each_row.
  - each_row.
  - unfold no_NONE_rows. simpl. repeat constructor; discriminate.
  - intros u. unfold organizations_of_admin.
    change (organizations db_events)
      with [mkOrganization "o1" "Student Council" None None "admin1"].
    cbn [filter org_adminUserId].
    destruct ("admin1" =? u)%string; cbn [List.length]; lia.
  - intros t Ht. simpl in Ht.
    repeat (destruct Ht as [<-|Ht]; [reflexivity|]). destruct Ht.
Qed.

(** X26. The constraints of migration.sql hold under every sequence of
    writing requests, whatever the order in which the database answers and
    whatever the libraries accept.  From a store that satisfies the five
    primary keys of the model, the six unique indexes (the e-mail of a
    user, the name of a role and of a committee in its organization, the
    pairs of the role holdings, of the permission rows and of the
    assignments) and the thirteen foreign keys, in which no permission row
    is NONE, no user administers two organizations and every position is an
    [Int], every route leads to such a store again, whether it answers with
    success or with an error, also where a handler runs several statements
    without a transaction. *)
Theorem X26_every_request_keeps_the_constraints :
  forall (isDatetime : string -> bool) (newDate : string -> string)
         (isUrl : string -> bool) (o : RowOrder) (db : Db) (rs : list Request),
    Consistent db -> Consistent (serve_all isDatetime newDate isUrl o db rs).
Proof.
  intros isDatetime newDate isUrl o db rs H. now apply serve_all_Consistent.
Qed.

Lemma X26_every_request_keeps_the_constraints_witness :
  Consistent
    (serve_all alwaysValid asWritten alwaysValid reverse_order db_events
       [CreateTask "t4" "jane"
          (mkCreateTaskBody "Book a room" None (Some "events") None
                            (Some ["bob"; "jane"]));
        UpdateTaskStatus "bob" "t1"
          (mkUpdateTaskStatusBody "DONE" (Some 2147483648%Z));
        SetPermissions "admin1"
          (mkSetPermissionsBody "member"
             [mkPermissionEntry "marketing" "LEADER";
              mkPermissionEntry "events" "NONE"]);
        UpdateRole "admin1" "chair" (mkUpdateNamedBody (Some "Member") None);
        DeleteCommittee "admin1" "events";
        DeleteRole "admin1" "chair"]).
Proof.
  apply X26_every_request_keeps_the_constraints. exact db_events_Consistent.
Defined.

(** X27. In a store that the requests reach from a consistent one, the task
    routes never meet a task whose committee is missing: GET /tasks/:id and
    DELETE /tasks/:id do not end in the [catch] branch, their answers are
    never 500.  PATCH /tasks/:id/status answers 500 in one case only: the
    body is valid, the task exists, the caller has access, and the position
    of the body is no [Int] of the column, so that the update throws. *)
Theorem X27_task_routes_answer_500_only_for_a_position_outside_Int :
  forall (isDatetime : string -> bool) (newDate : string -> string)
         (isUrl : string -> bool) (o : RowOrder) (db : Db) (rs : list Request)
         (userId id : string) (body : UpdateTaskStatusBody),
    Consistent db ->
    let db' := serve_all isDatetime newDate isUrl o db rs in
    task_findUnique_with_committee db' id <> TaskInconsistent
    /\ status_of (getTask db' userId id) <> 500
    /\ status_of (snd (deleteTask db' userId id)) <> 500
    /\ (status_of (snd (updateTaskStatus db' userId id body)) = 500
        <-> exists status position task committee,
              updateTaskStatusSchema_parse body = Some (status, Some position)
              /\ fitsInt position = false
              /\ task_findUnique_with_committee db' id = TaskFound task committee
              /\ hasAccess db' userId task committee = true).
Proof.
  intros isDatetime newDate isUrl o db rs userId id body H db'.
  pose proof (Consistent_task_has_committee db' id
                (serve_all_Consistent isDatetime newDate isUrl o rs db H)) as Hc.
  split; [exact Hc|].
  unfold getTask, updateTaskStatus, deleteTask.
  destruct (task_findUnique_with_committee db' id) as [task committee| |];
    [| |contradiction].
  - split; [destruct (negb _); simpl; lia|].
    split; [destruct (negb _); simpl; lia|].
    destruct (updateTaskStatusSchema_parse body) as [[s p]|].
    + destruct (hasAccess db' userId task committee) eqn:Ea; simpl negb; cbv iota.
      * destruct p as [p|].
        -- destruct (fitsInt p) eqn:Ep; simpl.
           ++ split; [lia|]. intros [s0 [p0 [t0 [c0 [[= _ <-] [Hp _]]]]]].
              congruence.
           ++ split; [|reflexivity]. intros _.
              exists s, p, task, committee. auto.
        -- simpl. split; [lia|].
           intros [s0 [p0 [t0 [c0 [[=] _]]]]].
      * simpl. split; [lia|].
        intros [s0 [p0 [t0 [c0 [_ [_ [[= <- <-] Ha]]]]]]]. congruence.
    + simpl. split; [lia|]. intros [s0 [p0 [t0 [c0 [[=] _]]]]].
  - split; [simpl; lia|]. split; [simpl; lia|].
    destruct (updateTaskStatusSchema_parse body) as [[s p]|]; simpl.
    + split; [lia|]. intros [s0 [p0 [t0 [c0 [_ [_ [[=] _]]]]]]].
    + split; [lia|]. intros [s0 [p0 [t0 [c0 [[=] _]]]]].
Qed.

Lemma X27_task_routes_answer_500_only_for_a_position_outside_Int_witness :
  let db' := serve_all alwaysValid asWritten alwaysValid reverse_order db_events
               [DeleteCommittee "admin1" "marketing"] in
  status_of (getTask db' "bob" "t1") = 200
  /\ status_of (snd (updateTaskStatus db' "bob" "t1"
                       (mkUpdateTaskStatusBody "DONE" (Some 2147483647%Z)))) = 200
  /\ status_of (snd (updateTaskStatus db' "bob" "t1"
                       (mkUpdateTaskStatusBody "DONE" (Some 2147483648%Z)))) = 500
  /\ (status_of (snd (updateTaskStatus db' "bob" "t1"
                        (mkUpdateTaskStatusBody "DONE" (Some 2147483648%Z)))) = 500
      <-> exists status position task committee,
            updateTaskStatusSchema_parse
              (mkUpdateTaskStatusBody "DONE" (Some 2147483648%Z))
            = Some (status, Some position)
            /\ fitsInt position = false
            /\ task_findUnique_with_committee db' "t1" = TaskFound task committee
            /\ hasAccess db' "bob" task committee = true).
Proof.
  intros db'.
  split; [reflexivity|]. split; [reflexivity|]. split; [reflexivity|].
  apply (X27_task_routes_answer_500_only_for_a_position_outside_Int
           alwaysValid asWritten alwaysValid reverse_order db_events
           [DeleteCommittee "admin1" "marketing"] "bob" "t1"
           (mkUpdateTaskStatusBody "DONE" (Some 2147483648%Z))
           db_events_Consistent).
Defined.

(** ** What every sequence of requests keeps *)

Ltac break_innermost :=
  match goal with
  | |- context [match ?x with _ => _ end] =>
      lazymatch x with
      | context [match _ with _ => _ end] => fail
      | _ => destruct x
      end
  end.

Ltac break_any :=
  match goal with
  | |- context [match ?x with _ => _ end] => destruct x
  end.

Ltac break_handler := repeat first [break_innermost | break_any].

Lemma users_after_update (f : User -> User) (l : list User) (id : string) :
  (forall x, user_id (f x) = user_id x /\ user_email (f x) = user_email x) ->
  map (fun u => (user_id u, user_email u))
      (map (fun x => if user_id x =? id then f x else x) l)
  = map (fun u => (user_id u, user_email u)) l.
Proof.
  intros Hf. rewrite map_map. apply map_ext. intros x.
  destruct (user_id x =? id); [|reflexivity].
  now destruct (Hf x) as [-> ->].
Qed.

Lemma assignment_createMany_frame db data db' :
  assignment_createMany db data = Some db' ->
  users db' = users db /\ organizations db' = organizations db.
Proof.
  unfold assignment_createMany. destruct (_ && _); [|discriminate].
  now intros [= <-].
Qed.

Section ServeFrame.
Variable isDatetime : string -> bool.
Variable newDate : string -> string.
Variable isUrl : string -> bool.
Variable o : RowOrder.

Lemma updateTask_frame db u id body :
  users (fst (updateTask isDatetime newDate o db u id body)) = users db
  /\ organizations (fst (updateTask isDatetime newDate o db u id body))
     = organizations db.
Proof.
  unfold updateTask.
  destruct (updateTaskSchema_parse isDatetime body); [|now split].
  destruct (task_findUnique_with_committee db id); try now split.
  destruct (negb _); [now split|].
  destruct (match ut_position body with
            | Some p => negb (fitsInt p) | None => false end); [now split|].
  cbv zeta.
  destruct (ut_assigneeIds body) as [l|]; [|now split].
  destruct (Nat.ltb 0 (List.length l)); [|now split].
  destruct (assignment_createMany _ _) as [db3|] eqn:E; [|now split].
  apply assignment_createMany_frame in E. exact E.
Qed.

Lemma serve_accounts db r :
  map (fun u => (user_id u, user_email u))
      (users (serve isDatetime newDate isUrl o db r))
  = map (fun u => (user_id u, user_email u)) (users db).
Proof.
  destruct r; simpl serve;
    try (now rewrite (proj1 (updateTask_frame _ _ _ _)));
    unfold createOrganization, organization_create, updateOrganization,
      createRole, role_create, updateRole, role_update, deleteRole, role_delete,
      assignRole, userRole_create, removeRole, setPermissions,
      setPermissions_handler, permission_createMany, createCommittee,
      committee_create, updateCommittee, committee_update, deleteCommittee,
      committee_delete, createTask, createTask_handler, task_create,
      updateTaskStatus, deleteTask, addComment,
      comment_create, updateUser, setUserActive, user_update;
    cbv zeta; break_handler; try reflexivity;
    simpl; now apply users_after_update.
Qed.

Lemma serve_all_accounts rs : forall db,
  map (fun u => (user_id u, user_email u))
      (users (serve_all isDatetime newDate isUrl o db rs))
  = map (fun u => (user_id u, user_email u)) (users db).
Proof.
  unfold serve_all. induction rs as [|r rs IH]; simpl; [reflexivity|].
  intros db. now rewrite IH, serve_accounts.
Qed.

(** The table of organizations after a request: unchanged, one row longer,
    or with the data of one row rewritten. *)
Lemma serve_organizations db r :
  organizations (serve isDatetime newDate isUrl o db r) = organizations db
  \/ (exists x, organizations (serve isDatetime newDate isUrl o db r)
                = organizations db ++ [x])
  \/ (exists id body,
        organizations (serve isDatetime newDate isUrl o db r)
        = map (fun x => if org_id x =? id then organization_with_data x body
                        else x)
              (organizations db)).
Proof.
  destruct r; simpl serve;
    try (left; now rewrite (proj2 (updateTask_frame _ _ _ _)));
    unfold createOrganization, organization_create, updateOrganization,
      createRole, role_create, updateRole, role_update, deleteRole, role_delete,
      assignRole, userRole_create, removeRole, setPermissions,
      setPermissions_handler, permission_createMany, createCommittee,
      committee_create, updateCommittee, committee_update, deleteCommittee,
      committee_delete, createTask, createTask_handler, task_create,
      updateTaskStatus, deleteTask, addComment,
      comment_create, updateUser, setUserActive, user_update;
    cbv zeta; break_handler; try (now left); simpl.
  - right. left. eauto.
  - right. right. eauto.
Qed.

Lemma find_admin_after_update (l : list Organization) (id u : string)
    (body : UpdateOrganizationBody) (org : Organization) :
  find (fun x => org_adminUserId x =? u) l = Some org ->
  exists org',
    find (fun x => org_adminUserId x =? u)
         (map (fun x => if org_id x =? id then organization_with_data x body
                        else x) l) = Some org'
    /\ org_id org' = org_id org.
Proof.
  induction l as [|x l IH]; simpl; [discriminate|].
  assert (Hadm : org_adminUserId
                   (if org_id x =? id then organization_with_data x body else x)
                 = org_adminUserId x) by now destruct (org_id x =? id).
  rewrite Hadm. destruct (org_adminUserId x =? u); [|exact IH].
  intros [= <-]. eexists. split; [reflexivity|].
  now destruct (org_id x =? id).
Qed.

Lemma serve_keeps_admin db r u org :
  organization_findFirst_admin db u = Some org ->
  exists org',
    organization_findFirst_admin (serve isDatetime newDate isUrl o db r) u
    = Some org'
    /\ org_id org' = org_id org.
Proof.
  unfold organization_findFirst_admin. intros H.
  destruct (serve_organizations db r) as [->|[[x ->]|[id [body ->]]]].
  - eauto.
  - exists org. split; [|reflexivity].
    revert H. generalize (organizations db).
    induction l as [|y l IH]; simpl; [discriminate|].
    destruct (org_adminUserId y =? u); auto.
  - now apply find_admin_after_update.
Qed.

Lemma serve_all_keeps_admin rs : forall db u org,
  organization_findFirst_admin db u = Some org ->
  exists org',
    organization_findFirst_admin (serve_all isDatetime newDate isUrl o db rs) u
    = Some org'
    /\ org_id org' = org_id org.
Proof.
  unfold serve_all. induction rs as [|r rs IH]; simpl; [eauto|].
  intros db u org H.
  destruct (serve_keeps_admin db r u org H) as [o1 [H1 Hid1]].
  destruct (IH _ u o1 H1) as [o2 [H2 Hid2]].
  exists o2. split; [exact H2|congruence].
Qed.
End ServeFrame.

Section ServePermissions.
Variable isDatetime : string -> bool.
Variable newDate : string -> string.
Variable isUrl : string -> bool.
Variable o : RowOrder.

Lemma updateTask_permissions db u id body :
  permissions (fst (updateTask isDatetime newDate o db u id body))
  = permissions db.
Proof.
  unfold updateTask.
  destruct (updateTaskSchema_parse isDatetime body); [|reflexivity].
  destruct (task_findUnique_with_committee db id); try reflexivity.
  destruct (negb _); [reflexivity|].
  destruct (match ut_position body with
            | Some p => negb (fitsInt p) | None => false end); [reflexivity|].
  cbv zeta.
  destruct (ut_assigneeIds body) as [l|]; [|reflexivity].
  destruct (Nat.ltb 0 (List.length l)); [|reflexivity].
  destruct (assignment_createMany _ _) as [db3|] eqn:E; [|reflexivity].
  unfold assignment_createMany in E. destruct (_ && _); [|discriminate].
  now injection E as <-.
Qed.

Lemma setPermissions_permissions_unique db u body :
  unique_keys (permissions db) = true ->
  unique_keys (permissions (fst (setPermissions o db u body))) = true.
Proof.
  intros H. unfold setPermissions.
  destruct (checkIsAdmin db _); [|exact H].
  unfold setPermissions_handler.
  destruct (setPermissionsSchema_parse body) as [[roleId perms]|]; [|exact H].
  cbv zeta. set (data := map _ _).
  assert (Hdel : unique_keys (permissions (permission_deleteMany db roleId)) = true)
    by now apply unique_keys_filter.
  destruct (Nat.ltb 0 (List.length data)); [|exact Hdel].
  unfold permission_createMany.
  destruct (forallb _ data); [|exact Hdel].
  destruct (unique_keys (permissions (permission_deleteMany db roleId) ++ data))
    eqn:Eu; [|exact Hdel].
  exact Eu.
Qed.

(** The unique index on (role, committee) under a request. *)
Lemma serve_permissions_unique db r :
  unique_keys (permissions db) = true ->
  unique_keys (permissions (serve isDatetime newDate isUrl o db r)) = true.
Proof.
  intros H. destruct r; simpl serve;
    try (now rewrite updateTask_permissions);
    try (now apply setPermissions_permissions_unique);
    unfold createOrganization, organization_create, updateOrganization,
      createRole, role_create, updateRole, role_update, deleteRole, role_delete,
      assignRole, userRole_create, removeRole, createCommittee,
      committee_create, updateCommittee, committee_update, deleteCommittee,
      committee_delete, createTask, createTask_handler, task_create,
      updateTaskStatus, deleteTask, addComment,
      comment_create, updateUser, setUserActive, user_update;
    cbv zeta; break_handler; simpl; try exact H;
    now apply unique_keys_filter.
Qed.

Lemma serve_all_permissions_unique rs : forall db,
  unique_keys (permissions db) = true ->
  unique_keys (permissions (serve_all isDatetime newDate isUrl o db rs)) = true.
Proof.
  unfold serve_all. induction rs as [|r rs IH]; simpl; [auto|].
  intros db H. apply IH. now apply serve_permissions_unique.
Qed.
End ServePermissions.

(** X28. In a store that the requests reach from one that satisfies the
    unique index on (role, committee), the first-match scan of the
    resolver is the maximum over the caller's roles of the level that each
    role has on the committee. *)
Theorem X28_resolver_is_the_maximum_in_every_reached_store :
  forall (isDatetime : string -> bool) (newDate : string -> string)
         (isUrl : string -> bool) (o : RowOrder) (db : Db) (rs : list Request)
         (userId committeeId : string),
    unique_keys (permissions db) = true ->
    let db' := serve_all isDatetime newDate isUrl o db rs in
    highestPermission db' userId committeeId
    = max_over_roles db' userId committeeId.
Proof.
  intros isDatetime newDate isUrl o db rs userId committeeId H db'.
  apply highestPermission_max_over_roles.
  now apply serve_all_permissions_unique.
Qed.

Lemma X28_resolver_is_the_maximum_in_every_reached_store_witness :
  let db' := serve_all alwaysValid asWritten alwaysValid reverse_order db_events
               [SetPermissions "admin1"
                  (mkSetPermissionsBody "member"
                     [mkPermissionEntry "marketing" "LEADER"])] in
  highestPermission db' "jane" "marketing"
  = max_over_roles db' "jane" "marketing".
Proof.
  apply X28_resolver_is_the_maximum_in_every_reached_store.
  reflexivity.
Defined.

(** X29. No route of the sources creates or deletes an account or changes
    its id or e-mail address: under every sequence of requests the table of
    users keeps its rows, in order, up to names and activity flags, so
    whoever is a user stays one.  Deactivation is a flag, not a removal. *)
Theorem X29_accounts_are_never_created_or_deleted :
  forall (isDatetime : string -> bool) (newDate : string -> string)
         (isUrl : string -> bool) (o : RowOrder) (db : Db) (rs : list Request),
    map (fun u => (user_id u, user_email u))
        (users (serve_all isDatetime newDate isUrl o db rs))
    = map (fun u => (user_id u, user_email u)) (users db)
    /\ (forall userId,
          user_exists (serve_all isDatetime newDate isUrl o db rs) userId
          = user_exists db userId).
Proof.
  intros isDatetime newDate isUrl o db rs.
  pose proof (serve_all_accounts isDatetime newDate isUrl o rs db) as H.
  split; [exact H|].
  intros userId. unfold user_exists.
  apply (f_equal (map fst)) in H. rewrite !map_map in H. simpl in H.
  revert H.
  generalize (users (serve_all isDatetime newDate isUrl o db rs)) (users db).
  induction l as [|x l IH]; intros [|y l']; simpl; try discriminate;
    [reflexivity|].
  intros [= Hx Hl]. rewrite Hx. f_equal. now apply IH.
Qed.

(** X30. No request takes an organization from its administrator: who
    administers an organization administers the same organization after
    every sequence of requests, so checkIsAdmin keeps letting the caller
    through. *)
Theorem X30_an_administrator_stays_administrator :
  forall (isDatetime : string -> bool) (newDate : string -> string)
         (isUrl : string -> bool) (o : RowOrder) (db : Db) (rs : list Request)
         (userId : string) (org : Organization),
    userId <> "" ->
    organization_findFirst_admin db userId = Some org ->
    (exists org',
       organization_findFirst_admin
         (serve_all isDatetime newDate isUrl o db rs) userId
       = Some org'
       /\ org_id org' = org_id org)
    /\ checkIsAdmin (serve_all isDatetime newDate isUrl o db rs)
                    (authenticated userId None None)
       = Next (set_isAdmin (authenticated userId None None)).
Proof.
  intros isDatetime newDate isUrl o db rs userId org Hu H.
  destruct (serve_all_keeps_admin isDatetime newDate isUrl o rs db userId org H)
    as [org' [H' Hid]].
  split; [eauto|]. now apply (checkIsAdmin_passes _ userId org').
Qed.

Lemma X30_an_administrator_stays_administrator_witness :
  (exists org',
     organization_findFirst_admin
       (serve_all alwaysValid asWritten alwaysValid reverse_order db_events
          [UpdateOrganization "admin1" "o1"
             (mkUpdateOrganizationBody (Some "Council") None None);
           CreateOrganization "o2" "jane"
             (mkCreateOrganizationBody "Chess Club" None None);
           SetUserActive false "jane" "admin1"]) "admin1"
     = Some org'
     /\ org_id org' = "o1")
  /\ checkIsAdmin
       (serve_all alwaysValid asWritten alwaysValid reverse_order db_events
          [UpdateOrganization "admin1" "o1"
             (mkUpdateOrganizationBody (Some "Council") None None);
           CreateOrganization "o2" "jane"
             (mkCreateOrganizationBody "Chess Club" None None);
           SetUserActive false "jane" "admin1"])
       (authenticated "admin1" None None)
     = Next (set_isAdmin (authenticated "admin1" None None)).
Proof.
  apply (X30_an_administrator_stays_administrator alwaysValid asWritten
           alwaysValid reverse_order db_events _ "admin1"
           (mkOrganization "o1" "Student Council" None None "admin1")).
  - discriminate.
  - reflexivity.
Defined.
